(** * Oracle attestation, consensus and ledger pipeline

    A shallow embedding of the Python simulation
    (simulate_decentralized_oracle_network.py, code/simulate_oracle.py,
    code/simulate_smart_contract.py) and the properties of its
    validation, consensus, digest and contract-execution steps. *)

From Stdlib Require Import ZArith List Bool Ascii String Lia Permutation.
From Stdlib Require Import Floats.
Import ListNotations.

Set Warnings "-inexact-float,-register-all".

Local Open Scope string_scope.
Local Open Scope Z_scope.

(** ** Python strings

    A Python [str] is modelled by a Rocq [string] whose characters are the
    code points U+0000..U+00FF. *)

Module PyStr.

Definition code (c : ascii) : Z := Z.of_N (N_of_ascii c).
Definition chr (z : Z) : ascii := ascii_of_N (Z.to_N z).

(** [str.lower()] on one code point below 256: A-Z, and the Latin-1 capitals
    U+00C0..U+00DE without the multiplication sign U+00D7. *)
Definition lower_char (c : ascii) : ascii :=
  let n := code c in
  if ((65 <=? n) && (n <=? 90))
     || ((192 <=? n) && (n <=? 222) && negb (n =? 215))
  then chr (n + 32) else c.

Fixpoint lower (s : string) : string :=
  match s with
  | EmptyString => EmptyString
  | String c s' => String (lower_char c) (lower s')
  end.

(** [needle in hay] for two strings: substring test. *)
Fixpoint contains (needle hay : string) : bool :=
  String.prefix needle hay
  || match hay with
     | EmptyString => false
     | String _ hay' => contains needle hay'
     end.

(** [any(w in text for w in words)] *)
Definition any_in (words : list string) (text : string) : bool :=
  existsb (fun w => contains w text) words.

(** [x in xs] for a list of strings. *)
Definition mem (x : string) (xs : list string) : bool :=
  existsb (String.eqb x) xs.

End PyStr.

(** ** Python values

    The JSON-like values the scripts build and pass around.  A [dict] keeps
    its items in insertion order, as Python's does; its keys are strings. *)

Inductive pyval : Type :=
| PNone : pyval
| PBool : bool -> pyval
| PInt : Z -> pyval
| PFloat : float -> pyval
| PStr : string -> pyval
| PList : list pyval -> pyval
| PDict : list (string * pyval) -> pyval.

Definition pydict : Type := list (string * pyval).

(** Errors the modelled code can raise. *)
Inductive pyerror : Type :=
| KeyError (key : string)
| TypeError
| AttributeError
| IndexError.

Inductive result (A : Type) : Type :=
| Ok (a : A)
| Raise (e : pyerror).
Arguments Ok {A} a.
Arguments Raise {A} e.

Definition bind {A B} (r : result A) (k : A -> result B) : result B :=
  match r with
  | Ok a => k a
  | Raise e => Raise e
  end.

Module PyDict.

Fixpoint get (d : pydict) (k : string) : option pyval :=
  match d with
  | [] => None
  | (k', v) :: d' => if String.eqb k' k then Some v else get d' k
  end.

(** [d[k]] *)
Definition getitem (d : pydict) (k : string) : result pyval :=
  match get d k with
  | Some v => Ok v
  | None => Raise (KeyError k)
  end.

(** [d[k] = v]: an existing key keeps its place, a new key goes last. *)
Fixpoint set (d : pydict) (k : string) (v : pyval) : pydict :=
  match d with
  | [] => [(k, v)]
  | (k', v') :: d' =>
      if String.eqb k' k then (k', v) :: d' else (k', v') :: set d' k v
  end.

Definition keys (d : pydict) : list string := map fst d.

(** The keys of a Python dict are pairwise distinct. *)
Definition wf (d : pydict) : Prop := NoDup (keys d).

End PyDict.

(** ** json.dumps(data, sort_keys=True)

    The serialisation every digest of the scripts is taken over: default
    separators, [ensure_ascii=True], keys sorted by code point. *)

Module Json.

Definition dquote : string := String (PyStr.chr 34) EmptyString.

Definition hex_digit (n : Z) : ascii :=
  if n <? 10 then PyStr.chr (48 + n) else PyStr.chr (87 + n).

(** json.encoder.ESCAPE_ASCII with its replacement table, on one code point. *)
Definition escape_char (c : ascii) : string :=
  let n := PyStr.code c in
  if n =? 34 then "\" ++ dquote
  else if n =? 92 then "\\"
  else if n =? 10 then "\n"
  else if n =? 13 then "\r"
  else if n =? 9 then "\t"
  else if n =? 8 then "\b"
  else if n =? 12 then "\f"
  else if (32 <=? n) && (n <=? 126) then String c EmptyString
  else "\u00" ++ String (hex_digit (n / 16))
                   (String (hex_digit (n mod 16)) EmptyString).

Fixpoint escape (s : string) : string :=
  match s with
  | EmptyString => EmptyString
  | String c s' => escape_char c ++ escape s'
  end.

Definition encode_str (s : string) : string := dquote ++ escape s ++ dquote.

(** *** Numbers *)

Definition digit_char (d : Z) : ascii := PyStr.chr (48 + d).

(** Decimal digits of a non-negative integer, most significant first. *)
Fixpoint digits_fuel (fuel : nat) (n : Z) (acc : string) : string :=
  match fuel with
  | O => acc
  | S fuel' =>
      let acc' := String (digit_char (n mod 10)) acc in
      if n <? 10 then acc' else digits_fuel fuel' (n / 10) acc'
  end.

Definition digits (n : Z) : string :=
  digits_fuel (S (Z.to_nat (Z.log2 n))) n EmptyString.

(** [int.__repr__] *)
Definition int_repr (n : Z) : string :=
  if n <? 0 then "-" ++ digits (- n) else digits n.

Fixpoint zeros (n : nat) : string :=
  match n with
  | O => EmptyString
  | S n' => String "0" (zeros n')
  end.

Fixpoint strip_zeros (fuel : nat) (c : Z) : Z :=
  match fuel with
  | O => c
  | S fuel' => if (0 <? c) && (c mod 10 =? 0) then strip_zeros fuel' (c / 10) else c
  end.

(** The value being printed is [X * S / T] with rounding interval
    [LO * S / T .. HI * S / T], closed when the mantissa is even. *)
Record interval := {
  iX : Z; iLO : Z; iHI : Z; iS : Z; iT : Z; iclosed : bool
}.

Definition interval_of (m : positive) (e : Z) : interval :=
  let m := Zpos m in
  let narrow := (m =? 2 ^ 52) && (-1074 <? e) in
  let E := e - 2 in
  {| iX := 4 * m;
     iLO := if narrow then 4 * m - 1 else 4 * m - 2;
     iHI := 4 * m + 2;
     iS := if 0 <=? E then 2 ^ E else 1;
     iT := if 0 <=? E then 1 else 2 ^ (- E);
     iclosed := Z.even m |}.

(** [10 ^ p <= x] *)
Definition pow10_le (i : interval) (p : Z) : bool :=
  if 0 <=? p then 10 ^ p * iT i <=? iX i * iS i
  else iT i <=? iX i * iS i * 10 ^ (- p).

(** The decimal point position: the [p] with [10 ^ (p - 1) <= x < 10 ^ p]. *)
Fixpoint decpt_from (fuel : nat) (i : interval) (p : Z) : Z :=
  match fuel with
  | O => p
  | S fuel' => if pow10_le i p then decpt_from fuel' i (p + 1) else p
  end.

Definition decpt_of (m : positive) (e : Z) (i : interval) : Z :=
  decpt_from 8 i ((Z.log2 (Zpos m) + e) * 30103 / 100000 - 1).

(** The [k]-digit decimal that reads back as the float, if there is one:
    of the two [k]-digit decimals around the value, the nearer one that lies
    in the rounding interval. *)
Definition candidate (i : interval) (p : Z) (k : Z) : option Z :=
  let up := 10 ^ Z.max 0 (k - p) in
  let B := iT i * 10 ^ Z.max 0 (p - k) in
  let A := iX i * iS i * up in
  let lo := iLO i * iS i * up in
  let hi := iHI i * iS i * up in
  let inside c :=
    if iclosed i then (lo <=? c * B) && (c * B <=? hi)
    else (lo <? c * B) && (c * B <? hi) in
  let c0 := A / B in
  let c1 := c0 + 1 in
  let d0 := A - c0 * B in
  let d1 := c1 * B - A in
  match inside c0, inside c1 with
  | true, true =>
      if d0 <? d1 then Some c0
      else if d1 <? d0 then Some c1
      else if Z.even c0 then Some c0 else Some c1
  | true, false => Some c0
  | false, true => Some c1
  | false, false => None
  end.

(** The shortest digit string that reads back as the float, with its
    decimal point position. *)
Fixpoint shortest (fuel : nat) (i : interval) (p : Z) (k : Z) : Z * Z :=
  match fuel with
  | O => (iX i * iS i * 10 ^ Z.max 0 (k - p) / (iT i * 10 ^ Z.max 0 (p - k)), p)
  | S fuel' =>
      match candidate i p k with
      | Some c =>
          let p' := if 10 ^ k <=? c then p + 1 else p in
          (strip_zeros 17 c, p')
      | None => shortest fuel' i p (k + 1)
      end
  end.

Definition exponent_repr (x : Z) : string :=
  (if x <? 0 then "e-" else "e+")
  ++ (if Z.abs x <? 10 then "0" else EmptyString) ++ digits (Z.abs x).

(** [float_repr_style = 'short'] layout of the digits [ds] with the decimal
    point after [p] of them. *)
Definition layout (ds : string) (p : Z) : string :=
  let n := Z.of_nat (String.length ds) in
  if (p <=? -4) || (16 <? p) then
    String.substring 0 1 ds
    ++ (if 1 <? n then "." ++ String.substring 1 (String.length ds - 1) ds
        else EmptyString)
    ++ exponent_repr (p - 1)
  else if p <=? 0 then "0." ++ zeros (Z.to_nat (- p)) ++ ds
  else if n <=? p then ds ++ zeros (Z.to_nat (p - n)) ++ ".0"
  else String.substring 0 (Z.to_nat p) ds ++ "."
       ++ String.substring (Z.to_nat p) (String.length ds - Z.to_nat p) ds.

(** json's float encoding: [float.__repr__], with NaN and the infinities
    spelled as [allow_nan=True] spells them. *)
Definition float_repr (f : float) : string :=
  match Prim2SF f with
  | S754_zero s => if s then "-0.0" else "0.0"
  | S754_infinity s => if s then "-Infinity" else "Infinity"
  | S754_nan => "NaN"
  | S754_finite s m e =>
      let i := interval_of m e in
      let '(c, p) := shortest 17 i (decpt_of m e i) 1 in
      (if s then "-" else EmptyString) ++ layout (digits c) p
  end.

(** *** Containers *)

(** [sorted(dct.items())]: insertion by key into the sorted items. *)
Fixpoint insert_item (x : string * string) (l : list (string * string))
  : list (string * string) :=
  match l with
  | [] => [x]
  | y :: l' =>
      if String.leb (fst x) (fst y) then x :: y :: l' else y :: insert_item x l'
  end.

Definition sort_items (l : list (string * string)) : list (string * string) :=
  fold_right insert_item [] l.

Definition item_str (kv : string * string) : string :=
  encode_str (fst kv) ++ ": " ++ snd kv.

(** [json.dumps(v, sort_keys=True)].  The values of a dict are serialised
    item by item and the items then put in key order. *)
Fixpoint dumps (v : pyval) : string :=
  match v with
  | PNone => "null"
  | PBool b => if b then "true" else "false"
  | PInt n => int_repr n
  | PFloat f => float_repr f
  | PStr s => encode_str s
  | PList l => "[" ++ String.concat ", " (map dumps l) ++ "]"
  | PDict d =>
      "{" ++ String.concat ", "
               (map item_str
                  (sort_items
                     (map (fun kv : string * pyval =>
                             let (k, x) := kv in (k, dumps x)) d)))
          ++ "}"
  end.

End Json.

(** ** hashlib.sha256(...).hexdigest()

    SHA-256 (FIPS 180-4) over the UTF-8 bytes of a string, on 32-bit words
    kept in [Z] with the wrap-around written out. *)

Module Sha256.

Definition w32 (x : Z) : Z := x mod 2 ^ 32.
Definition add32 (x y : Z) : Z := w32 (x + y).
Definition rotr (n x : Z) : Z :=
  Z.lor (Z.shiftr x n) (w32 (Z.shiftl x (32 - n))).
Definition lnot32 (x : Z) : Z := 2 ^ 32 - 1 - x.

Definition Ch (x y z : Z) : Z := Z.lxor (Z.land x y) (Z.land (lnot32 x) z).
Definition Maj (x y z : Z) : Z :=
  Z.lxor (Z.lxor (Z.land x y) (Z.land x z)) (Z.land y z).
Definition Sigma0 (x : Z) : Z := Z.lxor (Z.lxor (rotr 2 x) (rotr 13 x)) (rotr 22 x).
Definition Sigma1 (x : Z) : Z := Z.lxor (Z.lxor (rotr 6 x) (rotr 11 x)) (rotr 25 x).
Definition sigma0 (x : Z) : Z := Z.lxor (Z.lxor (rotr 7 x) (rotr 18 x)) (Z.shiftr x 3).
Definition sigma1 (x : Z) : Z := Z.lxor (Z.lxor (rotr 17 x) (rotr 19 x)) (Z.shiftr x 10).

(** The primes up to [n], by trial division. *)
Fixpoint primes_from (fuel : nat) (n : Z) (found : list Z) : list Z :=
  match fuel with
  | O => found
  | S fuel' =>
      let found' :=
        if existsb (fun p => n mod p =? 0) found then found
        else (found ++ [n])%list in
      primes_from fuel' (n + 1) found'
  end.

Definition primes64 : list Z := primes_from 310 2 [].

(** The largest [r] with [r ^ 3 <= n], fixing its bits from bit [b - 1] down. *)
Fixpoint cube_root (b : nat) (n r : Z) : Z :=
  match b with
  | O => r
  | S b' =>
      let r' := r + 2 ^ Z.of_nat b' in
      cube_root b' n (if r' * r' * r' <=? n then r' else r)
  end.

(** The round constants: the first 32 bits of the fractional parts of the
    cube roots of the first 64 primes. *)
Definition K : list Z :=
  Eval vm_compute in
    map (fun p => w32 (cube_root 40 (p * 2 ^ 96) 0)) primes64.

(** The initial hash value: the first 32 bits of the fractional parts of the
    square roots of the first 8 primes. *)
Definition H0 : list Z :=
  Eval vm_compute in
    map (fun p => w32 (Z.sqrt (p * 2 ^ 64))) (firstn 8 primes64).

(** [str.encode('utf-8')] for code points below 256. *)
Fixpoint utf8 (s : string) : list Z :=
  match s with
  | EmptyString => []
  | String c s' =>
      let n := PyStr.code c in
      if n <? 128 then n :: utf8 s'
      else Z.lor 192 (Z.shiftr n 6) :: Z.lor 128 (Z.land n 63) :: utf8 s'
  end.

(** Big-endian bytes of [x], [n] of them. *)
Fixpoint be_bytes (n : nat) (x : Z) : list Z :=
  match n with
  | O => []
  | S n' => (Z.shiftr x (8 * Z.of_nat n')) mod 256 :: be_bytes n' x
  end.

Definition pad (msg : list Z) : list Z :=
  let len := Z.of_nat (List.length msg) in
  let k := (55 - len) mod 64 in
  msg ++ 128 :: repeat 0 (Z.to_nat k) ++ be_bytes 8 (8 * len).

Fixpoint be_words (n : nat) (bs : list Z) : list Z :=
  match n, bs with
  | S n', b0 :: b1 :: b2 :: b3 :: bs' =>
      (b0 * 2 ^ 24 + b1 * 2 ^ 16 + b2 * 2 ^ 8 + b3) :: be_words n' bs'
  | _, _ => []
  end.

(** The message schedule, newest word first: [rev] holds W[t-1], W[t-2], ... *)
Fixpoint schedule (n : nat) (rev : list Z) : list Z :=
  match n with
  | O => rev
  | S n' =>
      let w := add32 (add32 (sigma1 (nth 1 rev 0)) (nth 6 rev 0))
                     (add32 (sigma0 (nth 14 rev 0)) (nth 15 rev 0)) in
      schedule n' (w :: rev)
  end.

Record regs := { ra : Z; rb : Z; rc : Z; rd : Z; re : Z; rf : Z; rg : Z; rh : Z }.

Definition round (s : regs) (kw : Z * Z) : regs :=
  let t1 := add32 (add32 (add32 (rh s) (Sigma1 (re s)))
                         (add32 (Ch (re s) (rf s) (rg s)) (fst kw))) (snd kw) in
  let t2 := add32 (Sigma0 (ra s)) (Maj (ra s) (rb s) (rc s)) in
  {| ra := add32 t1 t2; rb := ra s; rc := rb s; rd := rc s;
     re := add32 (rd s) t1; rf := re s; rg := rf s; rh := rg s |}.

Definition compress (h : regs) (block : list Z) : regs :=
  let w := List.rev (schedule 48 (List.rev (be_words 16 block))) in
  let s := fold_left round (combine K w) h in
  {| ra := add32 (ra h) (ra s); rb := add32 (rb h) (rb s);
     rc := add32 (rc h) (rc s); rd := add32 (rd h) (rd s);
     re := add32 (re h) (re s); rf := add32 (rf h) (rf s);
     rg := add32 (rg h) (rg s); rh := add32 (rh h) (rh s) |}.

Fixpoint blocks (n : nat) (h : regs) (bs : list Z) : regs :=
  match n with
  | O => h
  | S n' => blocks n' (compress h (firstn 64 bs)) (skipn 64 bs)
  end.

Definition init : regs :=
  {| ra := nth 0 H0 0; rb := nth 1 H0 0; rc := nth 2 H0 0; rd := nth 3 H0 0;
     re := nth 4 H0 0; rf := nth 5 H0 0; rg := nth 6 H0 0; rh := nth 7 H0 0 |}.

(** The digest as a number below [2 ^ 256]. *)
Definition digest (msg : list Z) : Z :=
  let p := pad msg in
  let h := blocks (List.length p / 64) init p in
  let word x := x mod 2 ^ 32 in
  ((((((word (ra h) * 2 ^ 32 + word (rb h)) * 2 ^ 32 + word (rc h)) * 2 ^ 32
       + word (rd h)) * 2 ^ 32 + word (re h)) * 2 ^ 32 + word (rf h)) * 2 ^ 32
     + word (rg h)) * 2 ^ 32 + word (rh h).

(** [n] lowercase hexadecimal digits of [x], most significant first. *)
Fixpoint hex (n : nat) (x : Z) : string :=
  match n with
  | O => EmptyString
  | S n' =>
      String (Json.hex_digit ((Z.shiftr x (4 * Z.of_nat n')) mod 16)) (hex n' x)
  end.

(** [hashlib.sha256(s.encode('utf-8')).hexdigest()] *)
Definition hexdigest (s : string) : string := hex 64 (digest (utf8 s)).

End Sha256.

(** ** The process state

    What the scripts read and write besides their arguments: the wall clock
    behind [str(datetime.now())], the console, the files written by
    [json.dump], and the contract's module-level [on_chain_data]. *)

(** Console lines, one constructor per [print] that reports a decision. *)
Inductive event : Type :=
| OracleValidating (node_id : string)
| OracleNoEntities (node_id : string)
| OracleOutput (node_id : string) (n : nat)
| OracleFailed (node_id : string)
| ConsensusRunning (threshold : Z)
| NotEnoughResponses
| ConsensusAchieved (n : nat)
| ConsensusFailed
| HitlTriggered (input_text : string)
| HitlDiscrepancy (node_id : string) (ents : list string)
| HitlCorrectionApplied
| ApprovedByConsensus
| FinalDataSaved (final_hash : string)
| ValidationStarted
| EntityReported (text label : string) (confidence : float)
| ExecutionStarted
| OffChainHash (h : string)
| OnChainHash (h : string)
| HashMatch
| HashMismatch
| ExecutionHalted
| Analyzing
| ConditionMatched (matched_headache matched_drug : option string)
| TriggeringReimbursement
| NoMatchingCondition
| StoredOnChain (d : pydict).

Record world : Type := {
  clock : nat -> string;         (* the n-th reading of str(datetime.now()) *)
  ticks : nat;                   (* readings taken so far *)
  stdout : list event;           (* console, oldest first *)
  files : list (string * pydict);(* files written, newest first *)
  on_chain_data : pydict         (* simulate_smart_contract.on_chain_data *)
}.

Definition M (A : Type) : Type := world -> result A * world.

Definition ret {A} (a : A) : M A := fun w => (Ok a, w).

Definition raise {A} (e : pyerror) : M A := fun w => (Raise e, w).

Definition mbind {A B} (m : M A) (k : A -> M B) : M B :=
  fun w =>
    match m w with
    | (Ok a, w') => k a w'
    | (Raise e, w') => (Raise e, w')
    end.

Notation "'do' x <- m ; k" := (mbind m (fun x => k))
  (at level 10, x name, m at level 100, k at level 200).
Notation "'do' ' p <- m ; k" := (mbind m (fun x => match x with p => k end))
  (at level 10, p pattern, m at level 100, k at level 200).
Notation "m ;; k" := (mbind m (fun _ => k))
  (at level 100, k at level 200, right associativity).

Definition lift {A} (r : result A) : M A := fun w => (r, w).

Definition print (e : event) : M unit :=
  fun w => (Ok tt, {| clock := clock w; ticks := ticks w;
                      stdout := (stdout w ++ [e])%list; files := files w;
                      on_chain_data := on_chain_data w |}).

(** [str(datetime.now())] *)
Definition now : M string :=
  fun w => (Ok (clock w (ticks w)),
            {| clock := clock w; ticks := S (ticks w);
               stdout := stdout w; files := files w;
               on_chain_data := on_chain_data w |}).

(** [with open(name, "w") as f: json.dump(data, f, indent=2)] *)
Definition json_dump_file (name : string) (data : pydict) : M unit :=
  fun w => (Ok tt, {| clock := clock w; ticks := ticks w;
                      stdout := stdout w; files := (name, data) :: files w;
                      on_chain_data := on_chain_data w |}).

Definition get_chain : M pydict := fun w => (Ok (on_chain_data w), w).

Definition put_chain (d : pydict) : M unit :=
  fun w => (Ok tt, {| clock := clock w; ticks := ticks w;
                      stdout := stdout w; files := files w;
                      on_chain_data := d |}).

(** ** Tokens, entities, packages *)

(** A spaCy token as the scripts read it: [token.text] and
    [token.ent_type_] (empty when the extractor assigned no label). *)
Record token : Type := { text : string; ent_type_ : string }.

(** [{"text": ..., "label": ..., "confidence": ...}] *)
Record entity : Type := {
  e_text : string; e_label : string; e_confidence : float
}.

Definition py_of_entity (e : entity) : pyval :=
  PDict [("text", PStr (e_text e)); ("label", PStr (e_label e));
         ("confidence", PFloat (e_confidence e))].

(** Truth value of a [str]. *)
Definition truthy_str (s : string) : bool :=
  match s with EmptyString => false | _ => true end.

(** [generate_hash], the same body in both scripts:
    [hashlib.sha256(json.dumps(data, sort_keys=True).encode('utf-8')).hexdigest()] *)
Definition generate_hash (data : pyval) : string :=
  Sha256.hexdigest (Json.dumps data).

(** [for x in xs: s = body(s, x)] *)
Fixpoint for_ {A S : Type} (xs : list A) (body : S -> A -> M S) (s : S) : M S :=
  match xs with
  | [] => ret s
  | x :: xs' => do s' <- body s x; for_ xs' body s'
  end.

(** [try: m except Exception: handler] *)
Definition try_except {A} (m : M A) (handler : pyerror -> M A) : M A :=
  fun w =>
    match m w with
    | (Ok a, w') => (Ok a, w')
    | (Raise e, w') => handler e w'
    end.

(** ** code/simulate_oracle.py *)

Module Oracle.

Definition custom_drugs : list string :=
  ["ibuprofen"; "paracetamol"; "aspirin"; "naproxen"; "penicillin"].
Definition custom_symptoms : list string :=
  ["headache"; "fever"; "cough"; "fatigue"; "nausea"].

(** The body of the loop over [doc] in [validate_nlp_entities]. *)
Definition validate_token (confidence_threshold : float)
  (validated_entities : list entity) (tok : token) : M (list entity) :=
  let lower_text := PyStr.lower (text tok) in
  if PyStr.any_in custom_drugs lower_text then
    let label := "DRUG" in
    let confidence := 0.95%float in
    print (EntityReported (text tok) label confidence) ;;
    ret (validated_entities
           ++ [{| e_text := text tok; e_label := label; e_confidence := confidence |}])%list
  else if PyStr.any_in custom_symptoms lower_text then
    let label := "SYMPTOM" in
    let confidence := 0.90%float in
    print (EntityReported (text tok) label confidence) ;;
    ret (validated_entities
           ++ [{| e_text := text tok; e_label := label; e_confidence := confidence |}])%list
  else if truthy_str (ent_type_ tok) then
    let label := ent_type_ tok in
    let confidence := 0.85%float in
    if PrimFloat.leb confidence_threshold confidence then
      print (EntityReported (text tok) label confidence) ;;
      ret (validated_entities
             ++ [{| e_text := text tok; e_label := label; e_confidence := confidence |}])%list
    else ret validated_entities
  else ret validated_entities.

(** [validate_nlp_entities(doc, confidence_threshold=0.7)] *)
Definition validate_nlp_entities (doc : list token) (confidence_threshold : float)
  : M (list entity) :=
  print ValidationStarted ;;
  for_ doc (validate_token confidence_threshold) [].

Definition default_confidence_threshold : float := 0.7%float.

(** [enrich_with_metadata(validated_entities)] *)
Definition enrich_with_metadata (validated_entities : list entity) : M pydict :=
  do t <- now;
  ret [("raw_entities", PList (map py_of_entity validated_entities));
       ("timestamp", PStr t);
       ("institution", PStr "CHU Alger");
       ("patient_id", PStr "PAT_123456");
       ("status", PStr "Oracle validation passed")].

Definition generate_hash (data : pydict) : string := generate_hash (PDict data).

(** [main()] from [doc = nlp(text)] on; [None] is the early return on an
    empty validation.  The listings of tokens and of the final record on
    the console are left out. *)
Definition main (doc : list token) : M (option pydict) :=
  do validated_entities <- validate_nlp_entities doc default_confidence_threshold;
  match validated_entities with
  | [] => ret None
  | _ =>
      do enriched_data <- enrich_with_metadata validated_entities;
      let hash_value := generate_hash enriched_data in
      let enriched_data := PyDict.set enriched_data "hash" (PStr hash_value) in
      json_dump_file "data_for_blockchain.json" enriched_data ;;
      ret (Some enriched_data)
  end.

End Oracle.

(** ** simulate_decentralized_oracle_network.py *)

Module Network.

Definition CUSTOM_DRUGS : list string :=
  ["ibuprofen"; "paracetamol"; "aspirin"; "naproxen"; "penicillin"].
Definition CUSTOM_SYMPTOMS : list string :=
  ["headache"; "fever"; "cough"; "fatigue"; "nausea"].

Definition CONFIDENCE_THRESHOLD : float := 0.7%float.

Record OracleNode : Type := { node_id : string; private_key : string }.

(** The dict built by [enrich_with_metadata]. *)
Record package : Type := {
  p_entities : list entity;
  p_timestamp : string;
  p_source : string;
  p_node_id : string;
  p_status : string
}.

Definition py_of_package (p : package) : pydict :=
  [("entities", PList (map py_of_entity (p_entities p)));
   ("timestamp", PStr (p_timestamp p));
   ("source", PStr (p_source p));
   ("node_id", PStr (p_node_id p));
   ("status", PStr (p_status p))].

(** The dict returned by [process]. *)
Record attestation : Type := {
  a_node_id : string;
  a_data : package;
  a_hash : string;
  a_signature : string
}.

(** The dict returned by [consensus_mechanism]. *)
Record consensus_result : Type := {
  consensus : string;
  final_package : package;
  aggregated_hashes : list string;
  signatures : list string
}.

(** The body of the loop over [doc] in [validate_entities]. *)
Definition validate_token (custom_drugs custom_symptoms : list string)
  (validated : list entity) (tok : token) : list entity :=
  let lower_text := PyStr.lower (text tok) in
  if PyStr.any_in custom_drugs lower_text then
    (validated ++ [{| e_text := text tok; e_label := "DRUG";
                      e_confidence := 0.95%float |}])%list
  else if PyStr.any_in custom_symptoms lower_text then
    (validated ++ [{| e_text := text tok; e_label := "SYMPTOM";
                      e_confidence := 0.90%float |}])%list
  else if truthy_str (ent_type_ tok) then
    let confidence := 0.85%float in
    if PrimFloat.leb CONFIDENCE_THRESHOLD confidence then
      (validated ++ [{| e_text := text tok; e_label := ent_type_ tok;
                        e_confidence := confidence |}])%list
    else validated
  else validated.

Definition validate_entities (self : OracleNode) (doc : list token)
  (custom_drugs custom_symptoms : list string) : list entity :=
  fold_left (validate_token custom_drugs custom_symptoms) doc [].

Definition enrich_with_metadata (self : OracleNode)
  (validated_entities : list entity) : M package :=
  do t <- now;
  ret {| p_entities := validated_entities; p_timestamp := t;
         p_source := "NLP Module"; p_node_id := node_id self;
         p_status := "validated" |}.

Definition generate_hash (self : OracleNode) (data : pydict) : string :=
  generate_hash (PDict data).

Definition sign_hash (self : OracleNode) (h : string) : string :=
  Sha256.hexdigest (h ++ private_key self).

(** [process(self, doc)]; nothing in the body raises on typed input, the
    handler is kept as the source has it. *)
Definition process (self : OracleNode) (doc : list token) : M (option attestation) :=
  try_except
    (print (OracleValidating (node_id self)) ;;
     let entities := validate_entities self doc CUSTOM_DRUGS CUSTOM_SYMPTOMS in
     match entities with
     | [] => print (OracleNoEntities (node_id self)) ;; ret None
     | _ =>
         do enriched <- enrich_with_metadata self entities;
         let h := generate_hash self (py_of_package enriched) in
         let signature := sign_hash self h in
         let result := {| a_node_id := node_id self; a_data := enriched;
                          a_hash := h; a_signature := signature |} in
         print (OracleOutput (node_id self) (List.length entities)) ;;
         ret (Some result)
     end)
    (fun e => print (OracleFailed (node_id self)) ;; ret None).

(** [[o for o in oracle_outputs if o is not None]] *)
Fixpoint not_none {A} (l : list (option A)) : list A :=
  match l with
  | [] => []
  | Some a :: l' => a :: not_none l'
  | None :: l' => not_none l'
  end.

(** [consensus_mechanism(oracle_outputs, threshold=2)] *)
Definition consensus_mechanism (oracle_outputs : list (option attestation))
  (threshold : Z) : M (option consensus_result) :=
  print (ConsensusRunning threshold) ;;
  if Z.of_nat (List.length oracle_outputs) <? threshold then
    print NotEnoughResponses ;; ret None
  else
    let valid_responses := not_none oracle_outputs in
    if threshold <=? Z.of_nat (List.length valid_responses) then
      print (ConsensusAchieved (List.length valid_responses)) ;;
      match valid_responses with
      | [] => raise IndexError
      | first :: _ =>
          ret (Some {| consensus := "success";
                       final_package := a_data first;
                       aggregated_hashes := map a_hash valid_responses;
                       signatures := map a_signature valid_responses |})
      end
    else
      print ConsensusFailed ;; ret None.

(** The record the simulated human validator returns. *)
Definition corrected_record (timestamp : string) : pydict :=
  [("entities",
    PList (map py_of_entity
             [{| e_text := "MRI"; e_label := "PROCEDURE"; e_confidence := 0.98%float |};
              {| e_text := "headache"; e_label := "SYMPTOM"; e_confidence := 0.95%float |};
              {| e_text := "fatigue"; e_label := "SYMPTOM"; e_confidence := 0.93%float |};
              {| e_text := "ibuprofen"; e_label := "DRUG"; e_confidence := 0.97%float |}]));
   ("correction_reason", PStr "Low confidence in NLP extraction for 'MRI'");
   ("validator_id", PStr "HITL_001");
   ("timestamp", PStr timestamp)].

(** [trigger_human_in_the_loop(input_text, oracle_outputs)] *)
Definition trigger_human_in_the_loop (input_text : string)
  (oracle_outputs : list (option attestation)) : M pydict :=
  print (HitlTriggered input_text) ;;
  for_ oracle_outputs
    (fun (_ : unit) o =>
       match o with
       | Some o =>
           let ents := map (fun e => e_text e ++ "(" ++ e_label e ++ ")")
                           (p_entities (a_data o)) in
           print (HitlDiscrepancy (a_node_id o) ents)
       | None => ret tt
       end) tt ;;
  do t <- now;
  let corrected := corrected_record t in
  print HitlCorrectionApplied ;;
  ret corrected.

Definition oracles : list OracleNode :=
  [{| node_id := "Oracle_A"; private_key := "priv_key_A_123" |};
   {| node_id := "Oracle_B"; private_key := "priv_key_B_456" |};
   {| node_id := "Oracle_C"; private_key := "priv_key_C_789" |}].

(** [main()], lines 195-199: each oracle processes the NLP output. *)
Definition run_oracles (doc : list token) : M (list (option attestation)) :=
  for_ oracles
    (fun oracle_results oracle =>
       do result <- process oracle doc;
       ret (oracle_results ++ [result])%list) [].

(** [main()], lines 201-221: consensus, fallback, final hash, save.  In the
    source [final_data] is the very dict held by the first attestation; it
    is not read again through the attestation after the digest is added. *)
Definition settle (text : string) (oracle_results : list (option attestation))
  : M pydict :=
  do consensus_result <- consensus_mechanism oracle_results 2;
  do final_data <-
    match consensus_result with
    | Some c => print ApprovedByConsensus ;; ret (py_of_package (final_package c))
    | None => trigger_human_in_the_loop text oracle_results
    end;
  let final_hash := Sha256.hexdigest (Json.dumps (PDict final_data)) in
  let final_data := PyDict.set final_data "final_hash" (PStr final_hash) in
  json_dump_file "validated_data_for_blockchain.json" final_data ;;
  print (FinalDataSaved final_hash) ;;
  ret final_data.

(** [main()] from [doc = nlp(text)] on. *)
Definition main (text : string) (doc : list token) : M pydict :=
  do oracle_results <- run_oracles doc;
  settle text oracle_results.

End Network.

(** ** code/simulate_smart_contract.py *)

Module Contract.

Definition CONTRACT_ADDRESS : string := "0x1234567890abcdef1234567890abcdef12345678".

(** [v[k]] for a string key. *)
Definition subscript (v : pyval) (k : string) : result pyval :=
  match v with
  | PDict d => PyDict.getitem d k
  | _ => Raise TypeError
  end.

(** The items [for ent in v] goes through. *)
Definition iterate (v : pyval) : result (list pyval) :=
  match v with
  | PList l => Ok l
  | PDict d => Ok (map PStr (PyDict.keys d))
  | PStr s => Ok (map (fun c => PStr (String c EmptyString)) (list_ascii_of_string s))
  | _ => Raise TypeError
  end.

(** [v == s] for a string literal [s]. *)
Definition eq_str (v : pyval) (s : string) : bool :=
  match v with
  | PStr t => String.eqb t s
  | _ => false
  end.

(** [v.lower()] *)
Definition lower (v : pyval) : result string :=
  match v with
  | PStr s => Ok (PyStr.lower s)
  | _ => Raise AttributeError
  end.

(** [[ent["text"].lower() for ent in ents if ent["label"] == label]] *)
Fixpoint texts_with_label (label : string) (ents : list pyval)
  : result (list string) :=
  match ents with
  | [] => Ok []
  | ent :: ents' =>
      bind (subscript ent "label") (fun l =>
        if eq_str l label then
          bind (subscript ent "text") (fun t =>
          bind (lower t) (fun s =>
          bind (texts_with_label label ents') (fun rest =>
          Ok (s :: rest))))
        else texts_with_label label ents')
  end.

Definition headache_keywords : list string :=
  ["headache"; "headaches"; "pain"; "migraine"].
Definition drug_keywords : list string := ["ibuprofen"; "paracetamol"; "aspirin"].

(** [next((k for k in keywords if k in found), None)] *)
Definition first_in (keywords found : list string) : option string :=
  find (fun k => PyStr.mem k found) keywords.

(** [any(k in found for k in keywords)] *)
Definition any_of (keywords found : list string) : bool :=
  existsb (fun k => PyStr.mem k found) keywords.

(** [verify_hash(data_off_chain, stored_hash)] *)
Definition verify_hash (data_off_chain : pyval) (stored_hash : string) : M bool :=
  let input_str := Json.dumps data_off_chain in
  let calculated_hash := Sha256.hexdigest input_str in
  print (OffChainHash calculated_hash) ;;
  print (OnChainHash stored_hash) ;;
  if String.eqb calculated_hash stored_hash then
    print HashMatch ;; ret true
  else
    print HashMismatch ;; ret false.

(** Step 2 of [execute_smart_contract]: the business logic. *)
Definition apply_business_logic (data_off_chain : pyval) : M bool :=
  print Analyzing ;;
  do drugs <- lift (bind (subscript data_off_chain "valid_entities") (fun v =>
                    bind (iterate v) (texts_with_label "DRUG")));
  do symptoms <- lift (bind (subscript data_off_chain "valid_entities") (fun v =>
                       bind (iterate v) (texts_with_label "SYMPTOM")));
  let has_headache := any_of headache_keywords symptoms in
  let has_drug := any_of drug_keywords drugs in
  if has_headache && has_drug then
    let matched_headache := first_in headache_keywords symptoms in
    let matched_drug := first_in drug_keywords drugs in
    print (ConditionMatched matched_headache matched_drug) ;;
    print TriggeringReimbursement ;;
    ret true
  else
    print NoMatchingCondition ;; ret false.

(** [execute_smart_contract(data_off_chain, stored_hash)] *)
Definition execute_smart_contract (data_off_chain : pyval) (stored_hash : string)
  : M bool :=
  print ExecutionStarted ;;
  do ok <- verify_hash data_off_chain stored_hash;
  if negb ok then
    print ExecutionHalted ;; ret false
  else
    apply_business_logic data_off_chain.

(** [store_on_chain(data_off_chain)] *)
Definition store_on_chain (data_off_chain : pyval) : M string :=
  let input_str := Json.dumps data_off_chain in
  let stored_hash := Sha256.hexdigest input_str in
  do d <- get_chain;
  put_chain (PyDict.set d "hash" (PStr stored_hash)) ;;
  do t <- now;
  do d <- get_chain;
  put_chain (PyDict.set d "timestamp" (PStr t)) ;;
  do d <- get_chain;
  put_chain (PyDict.set d "status" (PStr "Data hash stored on-chain")) ;;
  do d <- get_chain;
  put_chain (PyDict.set d "contract_address" (PStr CONTRACT_ADDRESS)) ;;
  do d <- get_chain;
  print (StoredOnChain d) ;;
  ret stored_hash.

(** The example record of the script. *)
Definition off_chain_data : pyval :=
  PDict
    [("valid_entities",
      PList [py_of_entity {| e_text := "headaches"; e_label := "SYMPTOM";
                             e_confidence := 0.90%float |};
             py_of_entity {| e_text := "fatigue"; e_label := "SYMPTOM";
                             e_confidence := 0.90%float |};
             py_of_entity {| e_text := "ibuprofen"; e_label := "DRUG";
                             e_confidence := 0.95%float |}]);
     ("timestamp", PStr "2025-07-14T12:34:56Z");
     ("institution", PStr "CHU Alger");
     ("patient_id", PStr "PAT_123456");
     ("status", PStr "Oracle validation passed")].

(** The script's [__main__] block. *)
Definition script : M bool :=
  do stored_hash <- store_on_chain off_chain_data;
  execute_smart_contract off_chain_data stored_hash.

End Contract.

Definition fresh_world (clock : nat -> string) : world :=
  {| clock := clock; ticks := 0; stdout := []; files := []; on_chain_data := [] |}.

(** * Specification-level definitions *)

(** ** Validation as the specification words it *)

Module ValidateSpec.

(** Case-insensitive substring match of a token text against a vocabulary. *)
Definition ci_match (vocab : list string) (token_text : string) : bool :=
  existsb (fun w => PyStr.contains (PyStr.lower w) (PyStr.lower token_text)) vocab.

Definition mk (tok : token) (label : string) (confidence : float) : entity :=
  {| e_text := text tok; e_label := label; e_confidence := confidence |}.

(** Priority order: drug vocabulary, else symptom vocabulary, else the
    extractor's label when 0.85 reaches the threshold, else nothing. *)
Definition classify (drugs symptoms : list string) (threshold : float)
  (tok : token) : list entity :=
  if ci_match drugs (text tok) then [mk tok "DRUG" 0.95%float]
  else if ci_match symptoms (text tok) then [mk tok "SYMPTOM" 0.90%float]
  else if truthy_str (ent_type_ tok) then
    if PrimFloat.leb threshold 0.85%float then [mk tok (ent_type_ tok) 0.85%float]
    else []
  else [].

(** A vocabulary written in lower case, as the scripts' lists are. *)
Definition lowercase (vocab : list string) : Prop :=
  Forall (fun w => PyStr.lower w = w) vocab.

End ValidateSpec.

(** ** Sample inputs *)

Module Sample.

Definition clock (n : nat) : string :=
  "2025-07-14 12:34:5" ++ Json.digits (Z.of_nat n) ++ ".000000".

Definition world0 : world := fresh_world clock.

(** Tokens of the scripts' sample report, with labels an extractor could give. *)
Definition doc : list token :=
  [{| text := "MRI"; ent_type_ := "ORG" |};
   {| text := "headaches"; ent_type_ := "" |};
   {| text := "the"; ent_type_ := "" |};
   {| text := "Ibuprofen"; ent_type_ := "" |};
   {| text := "400mg"; ent_type_ := "QUANTITY" |}].

Definition doc_entities : list entity :=
  [{| e_text := "MRI"; e_label := "ORG"; e_confidence := 0.85%float |};
   {| e_text := "headaches"; e_label := "SYMPTOM"; e_confidence := 0.90%float |};
   {| e_text := "Ibuprofen"; e_label := "DRUG"; e_confidence := 0.95%float |};
   {| e_text := "400mg"; e_label := "QUANTITY"; e_confidence := 0.85%float |}].


End Sample.

(** ** Console bookkeeping *)

(** The world after the lines [evs] were printed. *)
Definition emit (w : world) (evs : list event) : world :=
  {| clock := clock w; ticks := ticks w; stdout := (stdout w ++ evs)%list;
     files := files w; on_chain_data := on_chain_data w |}.

Definition is_consensus_run (e : event) : bool :=
  match e with ConsensusRunning _ => true | _ => false end.

Definition is_hitl_call (e : event) : bool :=
  match e with HitlTriggered _ => true | _ => false end.

Definition is_analysis (e : event) : bool :=
  match e with
  | Analyzing | ConditionMatched _ _ | TriggeringReimbursement
  | NoMatchingCondition => true
  | _ => false
  end.

Definition count_events (p : event -> bool) (evs : list event) : nat :=
  List.length (filter p evs).

(** ** Consensus as the specification words it *)

Module ConsensusSpec.

Import Network.

Definition nonempty {A} (l : list A) : bool :=
  match l with [] => false | _ => true end.

(** The valid attestations: non-null, with a non-empty entity list, in
    submission order. *)
Fixpoint valid (attestations : list (option attestation)) : list attestation :=
  match attestations with
  | [] => []
  | Some a :: rest =>
      if nonempty (p_entities (a_data a)) then a :: valid rest else valid rest
  | None :: rest => valid rest
  end.

(** What [process] guarantees of its output: a node with no retained entity
    answers [None], so a non-null attestation has a non-empty entity list. *)
Definition process_shaped (attestations : list (option attestation)) : Prop :=
  Forall (fun o => match o with
                   | Some a => nonempty (p_entities (a_data a)) = true
                   | None => True
                   end) attestations.

(** The console lines of the arbitration's audit display. *)
Definition discrepancies (attestations : list (option attestation)) : list event :=
  flat_map (fun o => match o with
                     | Some o =>
                         [HitlDiscrepancy (a_node_id o)
                            (map (fun e => e_text e ++ "(" ++ e_label e ++ ")")
                                 (p_entities (a_data o)))]
                     | None => []
                     end) attestations.

(** The record a failed round persists: the arbitration's record at time
    [t], with the digest field added by [main]. *)
Definition arbitrated_record (t : string) : pydict :=
  PyDict.set (corrected_record t) "final_hash"
    (PStr (Sha256.hexdigest (Json.dumps (PDict (corrected_record t))))).

End ConsensusSpec.

Module SampleNet.

Import Network.

(** The attestation a node builds from [entities] at time [t], as [process]
    builds it. *)
Definition attest (self : OracleNode) (entities : list entity) (t : string)
  : attestation :=
  let enriched := {| p_entities := entities; p_timestamp := t;
                     p_source := "NLP Module"; p_node_id := node_id self;
                     p_status := "validated" |} in
  let h := generate_hash self (py_of_package enriched) in
  {| a_node_id := node_id self; a_data := enriched; a_hash := h;
     a_signature := sign_hash self h |}.

Definition oracle_A : OracleNode :=
  {| node_id := "Oracle_A"; private_key := "priv_key_A_123" |}.
Definition oracle_B : OracleNode :=
  {| node_id := "Oracle_B"; private_key := "priv_key_B_456" |}.
Definition oracle_C : OracleNode :=
  {| node_id := "Oracle_C"; private_key := "priv_key_C_789" |}.

(** A non-null attestation with an empty entity list: a dict of the right
    shape that [process] itself never returns. *)
Definition empty_A : attestation := attest oracle_A [] (Sample.clock 0).
Definition full_A : attestation := attest oracle_A Sample.doc_entities (Sample.clock 0).
Definition full_B : attestation := attest oracle_B Sample.doc_entities (Sample.clock 1).
Definition full_C : attestation := attest oracle_C Sample.doc_entities (Sample.clock 2).

(** Three non-null responses, the first with no entity. *)
Definition round_empty_first : list (option attestation) :=
  [Some empty_A; Some full_B; Some full_C].

(** Two non-null responses, one of them with no entity. *)
Definition round_one_valid : list (option attestation) :=
  [Some empty_A; Some full_B; None].

(** A round as [process] produces it, one node abstaining. *)
Definition round_two_valid : list (option attestation) :=
  [Some full_A; None; Some full_C].

(** A round as [process] produces it, two nodes abstaining. *)
Definition round_failed : list (option attestation) :=
  [None; Some full_B; None].

End SampleNet.

(** ** The contract's rule as the specification words it *)

Module RuleSpec.

(** The keyword [k] is matched by an entity of [ents] labelled [label]:
    case-insensitive equality of the whole entity text with the keyword. *)
Definition hit (ents : list entity) (label : string) (k : string) : Prop :=
  exists e, In e ents /\ e_label e = label /\ PyStr.lower (e_text e) = k.

(** [k] is the first keyword of [keywords], in list order, that is hit. *)
Definition first_hit (ents : list entity) (label : string)
  (keywords : list string) (k : string) : Prop :=
  exists before after,
    keywords = (before ++ k :: after)%list
    /\ hit ents label k
    /\ forall k', In k' before -> ~ hit ents label k'.

Definition no_hit (ents : list entity) (label : string)
  (keywords : list string) : Prop :=
  forall k, In k keywords -> ~ hit ents label k.

End RuleSpec.

Module SampleContract.

(** The script's example record with one confidence altered. *)
Definition tampered : pyval :=
  PDict
    [("valid_entities",
      PList [py_of_entity {| e_text := "headaches"; e_label := "SYMPTOM";
                             e_confidence := 0.90%float |};
             py_of_entity {| e_text := "fatigue"; e_label := "SYMPTOM";
                             e_confidence := 0.90%float |};
             py_of_entity {| e_text := "ibuprofen"; e_label := "DRUG";
                             e_confidence := 0.5%float |}]);
     ("timestamp", PStr "2025-07-14T12:34:56Z");
     ("institution", PStr "CHU Alger");
     ("patient_id", PStr "PAT_123456");
     ("status", PStr "Oracle validation passed")].

Definition entities : list entity :=
  [{| e_text := "headaches"; e_label := "SYMPTOM"; e_confidence := 0.90%float |};
   {| e_text := "fatigue"; e_label := "SYMPTOM"; e_confidence := 0.90%float |};
   {| e_text := "ibuprofen"; e_label := "DRUG"; e_confidence := 0.95%float |}].

Definition fields : pydict :=
  [("valid_entities", PList (map py_of_entity entities));
   ("timestamp", PStr "2025-07-14T12:34:56Z");
   ("institution", PStr "CHU Alger");
   ("patient_id", PStr "PAT_123456");
   ("status", PStr "Oracle validation passed")].

Definition stored_hash : string :=
  "9b891e8bec55df662181255390169f99fd0836f2af23add9d7c34fb6f2b7664a".

Definition tampered_hash : string :=
  "774cb2cc44b42af0472d739c14908ce2c448c83afd1080a6d110addd989cfed2".

End SampleContract.

(** ** Reading back one escaped character

    What json's decoder does at the head of a string body; taken
    over the escapes that [Json.escape_char] writes. *)

Module Unescape.

Definition hex_value (c : ascii) : Z :=
  let n := PyStr.code c in
  if n <? 58 then n - 48 else n - 87.

Definition head (s : string) : option (ascii * string) :=
  match s with
  | EmptyString => None
  | String c r =>
      if PyStr.code c =? 92 then
        match r with
        | String c1 r1 =>
            if PyStr.code c1 =? 117 then
              match r1 with
              | String _ (String _ (String h (String l r2))) =>
                  Some (PyStr.chr (16 * hex_value h + hex_value l), r2)
              | _ => None
              end
            else if PyStr.code c1 =? 110 then Some (PyStr.chr 10, r1)
            else if PyStr.code c1 =? 114 then Some (PyStr.chr 13, r1)
            else if PyStr.code c1 =? 116 then Some (PyStr.chr 9, r1)
            else if PyStr.code c1 =? 98 then Some (PyStr.chr 8, r1)
            else if PyStr.code c1 =? 102 then Some (PyStr.chr 12, r1)
            else Some (c1, r1)
        | EmptyString => None
        end
      else Some (c, r)
  end.

End Unescape.

(** The serialised item of a dict, before the items are put in key order. *)
Definition ser (kv : string * pyval) : string * string :=
  let (k, x) := kv in (k, Json.dumps x).

(** ** Records that differ in one entity field *)

Module Mutation.

(** A field holding another string, or another float (one whose [repr]
    differs). *)
Inductive field_change : pyval -> pyval -> Prop :=
| change_str s s' : s <> s' -> field_change (PStr s) (PStr s')
| change_float f f' :
    Json.float_repr f <> Json.float_repr f' -> field_change (PFloat f) (PFloat f').

(** The entity [e'] is [e] with the value of one field changed. *)
Definition entity_mutation (e e' : pyval) : Prop :=
  exists f1 k v v' f2,
    e = PDict (f1 ++ (k, v) :: f2)%list
    /\ e' = PDict (f1 ++ (k, v') :: f2)%list
    /\ field_change v v'.

(** The record [r'] is [r] with one field of one entity of its entity list
    changed. *)
Definition record_mutation (r r' : pyval) : Prop :=
  exists pre key es1 e e' es2 post,
    r = PDict (pre ++ (key, PList (es1 ++ e :: es2)) :: post)%list
    /\ r' = PDict (pre ++ (key, PList (es1 ++ e' :: es2)) :: post)%list
    /\ entity_mutation e e'.

End Mutation.

(** ** A family of records that differ in one entity text *)

Module Probe.

(** A different text for every positive number. *)
Fixpoint bits (p : positive) : string :=
  match p with
  | xH => "x"
  | xO p' => String "a" (bits p')
  | xI p' => String "b" (bits p')
  end.

Definition text_of (i : Z) : string := bits (Z.to_pos (i + 1)).

Definition record (i : Z) : pyval :=
  PDict [("valid_entities",
          PList [py_of_entity {| e_text := text_of i; e_label := "DRUG";
                                 e_confidence := 0.95%float |}])].

Definition digest_of (i : Z) : Z := Sha256.digest (Sha256.utf8 (Json.dumps (record i))).

End Probe.

(** ** The same data, whatever the insertion order of the dicts *)

Module SameData.

(** Two values hold the same data when they are equal up to the order in
    which the items of their dicts were inserted.  The keys of a dict are
    pairwise distinct. *)
Inductive same_data : pyval -> pyval -> Prop :=
| same_none : same_data PNone PNone
| same_bool b : same_data (PBool b) (PBool b)
| same_int n : same_data (PInt n) (PInt n)
| same_float f : same_data (PFloat f) (PFloat f)
| same_str s : same_data (PStr s) (PStr s)
| same_list l1 l2 : Forall2 same_data l1 l2 -> same_data (PList l1) (PList l2)
| same_dict d1 d1' d2 :
    NoDup (map fst d1) ->
    Permutation d1 d1' ->
    Forall2 (fun a b => fst a = fst b /\ same_data (snd a) (snd b)) d1' d2 ->
    same_data (PDict d1) (PDict d2).

Fixpoint size (v : pyval) : nat :=
  match v with
  | PList l => S (list_sum (map size l))
  | PDict d => S (list_sum (map (fun kv : string * pyval => let (_, x) := kv in size x) d))
  | _ => 1
  end.

(** A package as [enrich_with_metadata] builds it, and the same package
    with every dict filled in the opposite order. *)
Definition package_items : pydict :=
  Network.py_of_package
    {| Network.p_entities :=
         [{| e_text := "headaches"; e_label := "SYMPTOM"; e_confidence := 0.90%float |};
          {| e_text := "Ibuprofen"; e_label := "DRUG"; e_confidence := 0.95%float |}];
       Network.p_timestamp := "2025-07-14 12:34:50.000000";
       Network.p_source := "NLP Module";
       Network.p_node_id := "Oracle_A";
       Network.p_status := "validated" |}.

Definition package_items_reordered : pydict :=
  [("status", PStr "validated");
   ("node_id", PStr "Oracle_A");
   ("source", PStr "NLP Module");
   ("timestamp", PStr "2025-07-14 12:34:50.000000");
   ("entities",
    PList [PDict [("confidence", PFloat 0.90%float); ("label", PStr "SYMPTOM");
                  ("text", PStr "headaches")];
           PDict [("confidence", PFloat 0.95%float); ("label", PStr "DRUG");
                  ("text", PStr "Ibuprofen")]])].

End SameData.

(** ** The record without its digest field *)

Module Persisted.

(** The items of [d] other than the one under [key]. *)
Definition without (d : pydict) (key : string) : pydict :=
  filter (fun kv => negb (String.eqb (fst kv) key)) d.

(** The records the two pipelines persist: what [main] of the network
    script writes and returns, with its digest under "final_hash", and what
    [main] of the oracle script writes, with its digest under "hash". *)
Inductive pipeline_record : string -> pydict -> Prop :=
| network_record input_text doc w persisted :
    fst (Network.main input_text doc w) = Ok persisted ->
    pipeline_record "final_hash" persisted
| oracle_record doc w persisted :
    fst (Oracle.main doc w) = Ok (Some persisted) ->
    pipeline_record "hash" persisted.

(** The record of the network run over the sample tokens. *)
Definition approved_result : result pydict :=
  Eval vm_compute in fst (Network.main "report" Sample.doc Sample.world0).

Definition approved_record : pydict :=
  match approved_result with
  | Ok d => d
  | Raise _ => []
  end.

End Persisted.
(** ** Text beyond U+00FF

    The values above hold strings of code points below U+0100.  A Python
    [str] is a sequence of code points up to U+10FFFF, lone surrogates
    included; the definitions below take the serialisation and the
    contract's commit and verification over such strings.  Keys stay
    strings below U+0100, as every key of the scripts is. *)

Module Wide.

(** A [str] as its code points. *)
Definition text : Type := list Z.

Inductive value : Type :=
| WNone : value
| WBool : bool -> value
| WInt : Z -> value
| WFloat : float -> value
| WStr : text -> value
| WList : list value -> value
| WDict : list (string * value) -> value.

(** ['{0:04x}'.format(n)] *)
Definition hex4 (n : Z) : string :=
  String (Json.hex_digit (n / 4096 mod 16))
    (String (Json.hex_digit (n / 256 mod 16))
       (String (Json.hex_digit (n / 16 mod 16))
          (String (Json.hex_digit (n mod 16)) EmptyString))).

(** [replace] of json.encoder.py_encode_basestring_ascii, on one code
    point: the table and the four-digit escape below U+10000, a surrogate
    pair from there on. *)
Definition escape_char (n : Z) : string :=
  if n <? 256 then Json.escape_char (PyStr.chr n)
  else if n <? 65536 then "\u" ++ hex4 n
  else
    let n := n - 65536 in
    let s1 := Z.lor 55296 (Z.land (Z.shiftr n 10) 1023) in
    let s2 := Z.lor 56320 (Z.land n 1023) in
    "\u" ++ hex4 s1 ++ "\u" ++ hex4 s2.

Fixpoint escape (s : text) : string :=
  match s with
  | [] => EmptyString
  | n :: s' => escape_char n ++ escape s'
  end.

Definition encode_str (s : text) : string :=
  Json.dquote ++ escape s ++ Json.dquote.

(** [json.dumps(v, sort_keys=True)] *)
Fixpoint dumps (v : value) : string :=
  match v with
  | WNone => "null"
  | WBool b => if b then "true" else "false"
  | WInt n => Json.int_repr n
  | WFloat f => Json.float_repr f
  | WStr s => encode_str s
  | WList l => "[" ++ String.concat ", " (map dumps l) ++ "]"
  | WDict d =>
      "{" ++ String.concat ", "
               (map Json.item_str
                  (Json.sort_items
                     (map (fun kv : string * value =>
                             let (k, x) := kv in (k, dumps x)) d)))
          ++ "}"
  end.

(** [verify_hash(data_off_chain, stored_hash)] of the contract script. *)
Definition verify_hash (data_off_chain : value) (stored_hash : string) : M bool :=
  let input_str := dumps data_off_chain in
  let calculated_hash := Sha256.hexdigest input_str in
  print (OffChainHash calculated_hash) ;;
  print (OnChainHash stored_hash) ;;
  if String.eqb calculated_hash stored_hash then
    print HashMatch ;; ret true
  else
    print HashMismatch ;; ret false.

(** [store_on_chain(data_off_chain)] of the contract script. *)
Definition store_on_chain (data_off_chain : value) : M string :=
  let input_str := dumps data_off_chain in
  let stored_hash := Sha256.hexdigest input_str in
  do d <- get_chain;
  put_chain (PyDict.set d "hash" (PStr stored_hash)) ;;
  do t <- now;
  do d <- get_chain;
  put_chain (PyDict.set d "timestamp" (PStr t)) ;;
  do d <- get_chain;
  put_chain (PyDict.set d "status" (PStr "Data hash stored on-chain")) ;;
  do d <- get_chain;
  put_chain (PyDict.set d "contract_address" (PStr Contract.CONTRACT_ADDRESS)) ;;
  do d <- get_chain;
  print (StoredOnChain d) ;;
  ret stored_hash.

(** The strings and values of the first part among these. *)
Definition of_string (s : string) : text :=
  map PyStr.code (list_ascii_of_string s).

Fixpoint of_pyval (v : pyval) : value :=
  match v with
  | PNone => WNone
  | PBool b => WBool b
  | PInt n => WInt n
  | PFloat f => WFloat f
  | PStr s => WStr (of_string s)
  | PList l => WList (map of_pyval l)
  | PDict d =>
      WDict (map (fun kv : string * pyval => let (k, x) := kv in (k, of_pyval x)) d)
  end.

End Wide.

Module SampleWide.





End SampleWide.

(** ** code/medical_nlp_extractor.py *)

Module Extractor.

Definition custom_drugs : list string :=
  ["ibuprofen"; "paracetamol"; "aspirin"; "naproxen"].
Definition custom_symptoms : list string :=
  ["headache"; "fatigue"; "pain"; "fever"; "cough"].
Definition custom_tests : list string :=
  ["MRI"; "CT"; "X-ray"; "ultrasound"; "scan"].

(** [[k for k in keywords if k.lower() in doc_text.lower()]] *)
Definition detect (keywords : list string) (doc_text : string) : list string :=
  filter (fun k => PyStr.contains (PyStr.lower k) (PyStr.lower doc_text)) keywords.

(** [str.isspace] on one code point below 256. *)
Definition is_space (c : ascii) : bool :=
  let n := PyStr.code c in
  ((9 <=? n) && (n <=? 13)) || ((28 <=? n) && (n <=? 32))
  || (n =? 133) || (n =? 160).

Fixpoint lstrip (s : string) : string :=
  match s with
  | EmptyString => EmptyString
  | String c s' => if is_space c then lstrip s' else s
  end.

Fixpoint rstrip (s : string) : string :=
  match s with
  | EmptyString => EmptyString
  | String c s' =>
      match rstrip s' with
      | EmptyString => if is_space c then EmptyString else String c EmptyString
      | r => String c r
      end
  end.

(** [str.strip()] *)
Definition strip (s : string) : string := rstrip (lstrip s).

(** The [structured_data] dict of [main()], from [doc = nlp(text)] on:
    [ents] are the (text, label) pairs of [doc.ents]; the console listing
    is left out. *)
Definition main (report : string) (ents : list (string * string)) : M pydict :=
  let detected_drugs := detect custom_drugs report in
  let detected_symptoms := detect custom_symptoms report in
  let detected_tests := detect custom_tests report in
  do t <- now;
  ret [("raw_text", PStr (strip report));
       ("spacy_entities",
        PList (map (fun e : string * string =>
                      PDict [("text", PStr (fst e)); ("label", PStr (snd e))])
                   ents));
       ("custom_drug_matches", PList (map PStr detected_drugs));
       ("custom_symptom_matches", PList (map PStr detected_symptoms));
       ("custom_test_matches", PList (map PStr detected_tests));
       ("timestamp", PStr t);
       ("status", PStr "NLP extraction completed")].

End Extractor.

(** Every character of [s] is white space. *)
Definition all_space (s : string) : bool :=
  forallb Extractor.is_space (list_ascii_of_string s).

Definition starts_with_space (s : string) : bool :=
  match s with
  | EmptyString => false
  | String c _ => Extractor.is_space c
  end.

Fixpoint ends_with_space (s : string) : bool :=
  match s with
  | EmptyString => false
  | String c EmptyString => Extractor.is_space c
  | String _ s' => ends_with_space s'
  end.

(** The four keys of a commitment, in the order [store_on_chain] sets them. *)
Definition commitment_keys : list string :=
  ["hash"; "timestamp"; "status"; "contract_address"].

(** ** Further bookkeeping *)

Definition is_approval (e : event) : bool :=
  match e with ApprovedByConsensus => true | _ => false end.

Definition is_discrepancy (e : event) : bool :=
  match e with HitlDiscrepancy _ _ => true | _ => false end.

(** [l1] is [l2] with some elements left out, order kept. *)
Inductive subsequence {A : Type} : list A -> list A -> Prop :=
| subsequence_nil : subsequence [] []
| subsequence_skip x l1 l2 : subsequence l1 l2 -> subsequence l1 (x :: l2)
| subsequence_keep x l1 l2 : subsequence l1 l2 -> subsequence (x :: l1) (x :: l2).

(** The characters of a hexdigest. *)
Definition hex_chars : list ascii :=
  list_ascii_of_string "0123456789abcdef".

(** What a caller of [consensus_mechanism] acts on: the error, the refusal,
    or the package taken as final. *)
Definition verdict (r : result (option Network.consensus_result))
  : result (option Network.package) :=
  match r with
  | Ok (Some c) => Ok (Some (Network.final_package c))
  | Ok None => Ok None
  | Raise e => Raise e
  end.

(** The response with its hash and signature replaced. *)
Definition forge (h s : string) (a : Network.attestation) : Network.attestation :=
  {| Network.a_node_id := Network.a_node_id a; Network.a_data := Network.a_data a;
     Network.a_hash := h; Network.a_signature := s |}.

(** The console line of the arbitration for one non-null response. *)
Definition discrepancy_line (o : Network.attestation) : event :=
  HitlDiscrepancy (Network.a_node_id o)
    (map (fun e => e_text e ++ "(" ++ e_label e ++ ")")
         (Network.p_entities (Network.a_data o))).

(** The console line of the oracle for one retained entity. *)
Definition report_line (e : entity) : event :=
  EntityReported (e_text e) (e_label e) (e_confidence e).

(** The record [enrich_with_metadata] of the oracle script builds from
    [ents] at time [t]. *)
Definition oracle_package (ents : list entity) (t : string) : pydict :=
  [("raw_entities", PList (map py_of_entity ents));
   ("timestamp", PStr t);
   ("institution", PStr "CHU Alger");
   ("patient_id", PStr "PAT_123456");
   ("status", PStr "Oracle validation passed")].

(** The record cannot answer [data["valid_entities"]]: it is no dict, or a
    dict without that key. *)
Definition lacks_valid_entities (data : pyval) : Prop :=
  match data with
  | PDict d => PyDict.get d "valid_entities" = None
  | _ => True
  end.

(** What [data["valid_entities"]] raises then. *)
Definition subscript_error (data : pyval) : pyerror :=
  match data with
  | PDict _ => KeyError "valid_entities"
  | _ => TypeError
  end.

(** A hexdigest of SHA-256: 64 characters, each a lower-case hexadecimal
    digit. *)
Definition is_hex_digest (s : string) : bool :=
  Nat.eqb (String.length s) 64
  && forallb (fun c => existsb (Ascii.eqb c) hex_chars) (list_ascii_of_string s).

(** What the contract's rule reads of an entity. *)
Definition text_and_label (e : entity) : string * string := (e_text e, e_label e).

Module SampleExtra.

(** The sample report of the scripts. *)
Definition report : string :=
  String (PyStr.chr 10)
    ("    The patient underwent an MRI scan due to persistent headaches and fatigue."
     ++ String (PyStr.chr 10)
     ("    No critical condition was detected. The doctor prescribed ibuprofen 400mg twice daily for pain relief."
      ++ String (PyStr.chr 10) "    ")).

(** A round whose hashes and signatures are not the nodes' own. *)
Definition forged_round : list (option Network.attestation) :=
  map (option_map (forge "00" "forged")) SampleNet.round_two_valid.

(** The entities of the script's example record at another confidence,
    in a record with no other field. *)
Definition unsure_entities : list entity :=
  map (fun e => {| e_text := e_text e; e_label := e_label e;
                   e_confidence := 0.5%float |}) SampleContract.entities.

Definition unsure_fields : pydict :=
  [("valid_entities", PList (map py_of_entity unsure_entities))].

End SampleExtra.

(** The package the first node of [main] builds from [ents] at time [t]. *)
Definition first_node_package (ents : list entity) (t : string) : Network.package :=
  {| Network.p_entities := ents; Network.p_timestamp := t;
     Network.p_source := "NLP Module"; Network.p_node_id := "Oracle_A";
     Network.p_status := "validated" |}.

(** What one turn of the network validator's loop adds to the list. *)
Definition network_step (drugs symptoms : list string) (tok : token) : list entity :=
  Network.validate_token drugs symptoms [] tok.

(** The word has no capital letter. *)
Definition is_lowercase (w : string) : bool := String.eqb (PyStr.lower w) w.

Module SampleVocab.

(** A vocabulary written with capitals, as the extractor's test list is. *)
Definition tests : list string := ["MRI"; "CT"].

Definition mri : token := {| text := "MRI"; ent_type_ := "ORG" |}.

Definition doc_head : list token :=
  [{| text := "MRI"; ent_type_ := "ORG" |};
   {| text := "headaches"; ent_type_ := "" |}].

Definition doc_tail : list token :=
  [{| text := "the"; ent_type_ := "" |};
   {| text := "Ibuprofen"; ent_type_ := "" |};
   {| text := "400mg"; ent_type_ := "QUANTITY" |}].

End SampleVocab.

(** * Properties *)

Arguments Sha256.hexdigest : simpl never.
Arguments Json.dumps : simpl never.

(** ** Strings *)

Section StringFacts.

Lemma append_assoc (a b c : string) : (a ++ b) ++ c = a ++ b ++ c.
Proof. induction a as [|x a IH]; simpl; [reflexivity|now rewrite IH]. Qed.

Lemma append_empty_r (a : string) : a ++ EmptyString = a.
Proof. induction a as [|x a IH]; simpl; [reflexivity|now rewrite IH]. Qed.

Lemma length_append (a b : string) :
  String.length (a ++ b) = (String.length a + String.length b)%nat.
Proof. induction a as [|x a IH]; simpl; [reflexivity|now rewrite IH]. Qed.

Lemma append_inv_head (p a b : string) : p ++ a = p ++ b -> a = b.
Proof.
  induction p as [|x p IH]; simpl; intros H; [exact H|].
  injection H as H. now apply IH.
Qed.

Lemma append_inv_tail (q : string) : forall a b, a ++ q = b ++ q -> a = b.
Proof.
  induction a as [|x a IH]; intros [|y b] H; simpl in H.
  - reflexivity.
  - apply (f_equal String.length) in H. simpl in H.
    rewrite length_append in H. lia.
  - apply (f_equal String.length) in H. simpl in H.
    rewrite length_append in H. lia.
  - injection H as -> H. f_equal. now apply IH.
Qed.

(** A change in the middle of a string shows. *)
Lemma append_middle (p q a b : string) : a <> b -> p ++ a ++ q <> p ++ b ++ q.
Proof.
  intros Hab H. apply append_inv_head, append_inv_tail in H. contradiction.
Qed.

Lemma ascii_compare_refl c : Ascii.compare c c = Eq.
Proof. unfold Ascii.compare. apply N.compare_refl. Qed.

Lemma string_compare_refl s : String.compare s s = Eq.
Proof.
  induction s as [|c s IH]; simpl; [reflexivity|].
  now rewrite ascii_compare_refl.
Qed.

Lemma string_compare_lt_trans : forall a b c,
  String.compare a b = Lt -> String.compare b c = Lt -> String.compare a c = Lt.
Proof.
  induction a as [|x a IH]; intros [|y b] [|z c]; simpl; try congruence.
  unfold Ascii.compare.
  destruct (N.compare_spec (N_of_ascii x) (N_of_ascii y)) as [Hxy|Hxy|Hxy];
    destruct (N.compare_spec (N_of_ascii y) (N_of_ascii z)) as [Hyz|Hyz|Hyz];
    try congruence; intros H1 H2.
  - rewrite Hxy, Hyz, N.compare_refl. now apply (IH b c).
  - rewrite Hxy. now apply N.compare_lt_iff in Hyz as ->.
  - rewrite <- Hyz. now apply N.compare_lt_iff in Hxy as ->.
  - assert (H : (N_of_ascii x < N_of_ascii z)%N) by lia.
    now apply N.compare_lt_iff in H as ->.
Qed.

Lemma string_leb_trans a b c :
  String.leb a b = true -> String.leb b c = true -> String.leb a c = true.
Proof.
  unfold String.leb.
  destruct (String.compare a b) eqn:Hab; try discriminate;
    destruct (String.compare b c) eqn:Hbc; try discriminate; intros _ _.
  - apply String.compare_eq_iff in Hab, Hbc. subst.
    now rewrite string_compare_refl.
  - apply String.compare_eq_iff in Hab. subst. now rewrite Hbc.
  - apply String.compare_eq_iff in Hbc. subst. now rewrite Hab.
  - now rewrite (string_compare_lt_trans a b c Hab Hbc).
Qed.

Lemma append_wrapped (o p a b q c : string) :
  a <> b -> o ++ (p ++ a ++ q) ++ c <> o ++ (p ++ b ++ q) ++ c.
Proof.
  intros Hab H.
  apply append_inv_head, append_inv_tail, append_inv_head, append_inv_tail in H.
  contradiction.
Qed.

(** Decoding the head of an escaped string gives back the character. *)
Lemma unescape_escape_char c r :
  Unescape.head (Json.escape_char c ++ r) = Some (c, r).
Proof.
  destruct c as [[] [] [] [] [] [] [] []]; reflexivity.
Qed.

Lemma escape_injective : forall s1 s2, Json.escape s1 = Json.escape s2 -> s1 = s2.
Proof.
  induction s1 as [|c1 s1 IH]; intros [|c2 s2] H; cbn [Json.escape] in H.
  - reflexivity.
  - apply (f_equal Unescape.head) in H.
    rewrite unescape_escape_char in H. discriminate H.
  - apply (f_equal Unescape.head) in H.
    rewrite unescape_escape_char in H. discriminate H.
  - apply (f_equal Unescape.head) in H.
    rewrite !unescape_escape_char in H.
    injection H as -> H. f_equal. now apply IH.
Qed.

Lemma encode_str_injective s1 s2 :
  Json.encode_str s1 = Json.encode_str s2 -> s1 = s2.
Proof.
  unfold Json.encode_str. intros H.
  apply append_inv_head, append_inv_tail in H. now apply escape_injective.
Qed.

End StringFacts.

(** ** Validation (C7, C8) *)

Section Validation.

Import ValidateSpec.

Lemma any_in_ci_match vocab token_text :
  lowercase vocab ->
  PyStr.any_in vocab (PyStr.lower token_text) = ci_match vocab token_text.
Proof.
  unfold PyStr.any_in, ci_match, lowercase.
  induction 1 as [|w vocab Hw _ IH]; simpl; [reflexivity|].
  now rewrite Hw, IH.
Qed.

Lemma lowercase_oracle_drugs : lowercase Oracle.custom_drugs.
Proof. repeat constructor. Qed.

Lemma lowercase_oracle_symptoms : lowercase Oracle.custom_symptoms.
Proof. repeat constructor. Qed.

Lemma lowercase_network_drugs : lowercase Network.CUSTOM_DRUGS.
Proof. repeat constructor. Qed.

Lemma lowercase_network_symptoms : lowercase Network.CUSTOM_SYMPTOMS.
Proof. repeat constructor. Qed.

(** One turn of the oracle's loop appends the token's classification. *)
Lemma oracle_validate_token thr acc tok w :
  exists w',
    Oracle.validate_token thr acc tok w
    = (Ok (acc ++ classify Oracle.custom_drugs Oracle.custom_symptoms thr tok)%list, w').
Proof.
  unfold Oracle.validate_token, classify.
  rewrite !any_in_ci_match
    by (apply lowercase_oracle_drugs || apply lowercase_oracle_symptoms).
  destruct (ci_match Oracle.custom_drugs (text tok)); [eexists; reflexivity|].
  destruct (ci_match Oracle.custom_symptoms (text tok)); [eexists; reflexivity|].
  destruct (truthy_str (ent_type_ tok)).
  - destruct (PrimFloat.leb thr 0.85); [eexists; reflexivity|].
    rewrite app_nil_r. eexists; reflexivity.
  - rewrite app_nil_r. eexists; reflexivity.
Qed.

Lemma oracle_validate_loop thr doc : forall acc w,
  exists w',
    for_ doc (Oracle.validate_token thr) acc w
    = (Ok (acc ++ flat_map (classify Oracle.custom_drugs Oracle.custom_symptoms thr) doc)%list,
       w').
Proof.
  induction doc as [|tok doc IH]; intros acc w; simpl.
  - rewrite app_nil_r. eexists; reflexivity.
  - unfold mbind at 1.
    destruct (oracle_validate_token thr acc tok w) as [w1 ->].
    destruct (IH (acc ++ classify Oracle.custom_drugs Oracle.custom_symptoms thr tok)%list w1)
      as [w2 ->].
    rewrite <- app_assoc. eexists; reflexivity.
Qed.

Lemma oracle_validate_spec doc thr w :
  fst (Oracle.validate_nlp_entities doc thr w)
  = Ok (flat_map (classify Oracle.custom_drugs Oracle.custom_symptoms thr) doc).
Proof.
  unfold Oracle.validate_nlp_entities, mbind, print.
  match goal with |- context [for_ doc ?b ?a ?w0] =>
    destruct (oracle_validate_loop thr doc a w0) as [w' ->] end.
  reflexivity.
Qed.

Lemma network_validate_token drugs symptoms acc tok :
  lowercase drugs -> lowercase symptoms ->
  Network.validate_token drugs symptoms acc tok
  = (acc ++ classify drugs symptoms Network.CONFIDENCE_THRESHOLD tok)%list.
Proof.
  intros Hd Hs. unfold Network.validate_token, classify.
  rewrite !any_in_ci_match by assumption.
  destruct (ci_match drugs (text tok)); [reflexivity|].
  destruct (ci_match symptoms (text tok)); [reflexivity|].
  destruct (truthy_str (ent_type_ tok)); [|now rewrite app_nil_r].
  destruct (PrimFloat.leb Network.CONFIDENCE_THRESHOLD 0.85); [reflexivity|].
  now rewrite app_nil_r.
Qed.

Lemma network_validate_spec self doc drugs symptoms :
  lowercase drugs -> lowercase symptoms ->
  Network.validate_entities self doc drugs symptoms
  = flat_map (classify drugs symptoms Network.CONFIDENCE_THRESHOLD) doc.
Proof.
  intros Hd Hs. unfold Network.validate_entities.
  change (flat_map (classify drugs symptoms Network.CONFIDENCE_THRESHOLD) doc)
    with ([] ++ flat_map (classify drugs symptoms Network.CONFIDENCE_THRESHOLD) doc)%list.
  generalize (@nil entity) as acc.
  induction doc as [|tok doc IH]; intros acc; simpl.
  - now rewrite app_nil_r.
  - rewrite IH, network_validate_token by assumption.
    now rewrite <- app_assoc.
Qed.

(** C7: both validators classify every token in priority order: a
    case-insensitive substring match against the drug vocabulary gives DRUG
    at 0.95, else one against the symptom vocabulary gives SYMPTOM at 0.90,
    else a token the extractor labelled keeps that label at 0.85 when
    0.85 >= threshold, and any other token gives no entity; the run never
    raises and the entities come out in token order. *)
Theorem validate_classifies_in_priority_order :
  (forall doc thr w,
     fst (Oracle.validate_nlp_entities doc thr w)
     = Ok (flat_map (classify Oracle.custom_drugs Oracle.custom_symptoms thr) doc))
  /\ (forall self doc,
        Network.validate_entities self doc Network.CUSTOM_DRUGS Network.CUSTOM_SYMPTOMS
        = flat_map (classify Network.CUSTOM_DRUGS Network.CUSTOM_SYMPTOMS
                      Network.CONFIDENCE_THRESHOLD) doc).
Proof.
  split.
  - apply oracle_validate_spec.
  - intros self doc. apply network_validate_spec.
    + apply lowercase_network_drugs.
    + apply lowercase_network_symptoms.
Qed.








End Validation.

(** ** Running the state monad *)

Section Running.

Lemma emit_nil w : emit w [] = w.
Proof. destruct w; unfold emit; simpl. now rewrite app_nil_r. Qed.

Lemma emit_emit w a b : emit (emit w a) b = emit w (a ++ b).
Proof. unfold emit; simpl. now rewrite app_assoc. Qed.

Lemma print_emit e w : print e w = (Ok tt, emit w [e]).
Proof. reflexivity. Qed.

Lemma stdout_emit w evs : stdout (emit w evs) = (stdout w ++ evs)%list.
Proof. reflexivity. Qed.

Lemma count_events_app p a b :
  count_events p (a ++ b) = (count_events p a + count_events p b)%nat.
Proof. unfold count_events. now rewrite filter_app, length_app. Qed.

End Running.

(** ** Consensus (C1, C4) *)

Section Consensus.

Import Network ConsensusSpec.

Lemma valid_not_none l : process_shaped l -> valid l = not_none l.
Proof.
  induction 1 as [|o l Ho _ IH]; simpl; [reflexivity|].
  destruct o as [a|]; [|exact IH].
  now rewrite Ho, IH.
Qed.

Lemma length_not_none {A} (l : list (option A)) :
  (List.length (not_none l) <= List.length l)%nat.
Proof. induction l as [|[a|] l IH]; simpl; lia. Qed.

(** The run of [consensus_mechanism] when enough responses are non-null. *)
Lemma consensus_success l thr w first rest :
  not_none l = first :: rest ->
  thr <= Z.of_nat (List.length (not_none l)) ->
  consensus_mechanism l thr w
  = (Ok (Some {| consensus := "success";
                 final_package := a_data first;
                 aggregated_hashes := map a_hash (not_none l);
                 signatures := map a_signature (not_none l) |}),
     emit w [ConsensusRunning thr; ConsensusAchieved (List.length (not_none l))]).
Proof.
  intros Hnn Hthr. unfold consensus_mechanism, mbind. rewrite print_emit.
  pose proof (length_not_none l) as Hlen.
  destruct (Z.ltb_spec (Z.of_nat (List.length l)) thr); [lia|].
  destruct (Z.leb_spec thr (Z.of_nat (List.length (not_none l)))); [|lia].
  rewrite print_emit, emit_emit.
  destruct (not_none l) as [|f r]; [discriminate|].
  injection Hnn as -> ->. reflexivity.
Qed.

(** The run of [consensus_mechanism] when too few responses are non-null. *)
Lemma consensus_failure l thr w :
  Z.of_nat (List.length (not_none l)) < thr ->
  exists line,
    (line = NotEnoughResponses \/ line = ConsensusFailed)
    /\ consensus_mechanism l thr w
       = (Ok None, emit w [ConsensusRunning thr; line]).
Proof.
  intros Hthr. unfold consensus_mechanism, mbind. rewrite print_emit.
  destruct (Z.ltb_spec (Z.of_nat (List.length l)) thr).
  - exists NotEnoughResponses. split; [now left|].
    now rewrite print_emit, emit_emit.
  - destruct (Z.leb_spec thr (Z.of_nat (List.length (not_none l)))); [lia|].
    exists ConsensusFailed. split; [now right|].
    now rewrite print_emit, emit_emit.
Qed.

(** C1 as stated fails: a non-null attestation with an empty entity list
    counts as a response, is taken as the canonical package ahead of the
    first valid one, and its digest and signature are aggregated. *)
Lemma first_non_null_is_taken_as_canonical :
  valid SampleNet.round_empty_first = [SampleNet.full_B; SampleNet.full_C]
  /\ 2 <= Z.of_nat (List.length (valid SampleNet.round_empty_first))
  /\ fst (consensus_mechanism SampleNet.round_empty_first 2 Sample.world0)
     = Ok (Some {| consensus := "success";
                   final_package := a_data SampleNet.empty_A;
                   aggregated_hashes :=
                     map a_hash [SampleNet.empty_A; SampleNet.full_B; SampleNet.full_C];
                   signatures :=
                     map a_signature
                       [SampleNet.empty_A; SampleNet.full_B; SampleNet.full_C] |})
  /\ p_entities (a_data SampleNet.empty_A) = []
  /\ a_data SampleNet.empty_A <> a_data SampleNet.full_B.
Proof.
  split; [reflexivity|]. split; [simpl; lia|].
  split; [vm_compute; reflexivity|]. split; [reflexivity|].
  intros H. apply (f_equal p_entities) in H. discriminate H.
Qed.

(** C1, amended: for attestations in which every non-null one has a
    non-empty entity list (what [process] returns) and a threshold of at
    least 1, if the number of valid attestations reaches the threshold then
    [consensus_mechanism] approves, the canonical package is the package of
    the first valid attestation in submission order, and the aggregated
    digests and signatures are those of all valid attestations. *)
Theorem consensus_approves_first_valid :
  forall l thr w,
    process_shaped l ->
    1 <= thr ->
    thr <= Z.of_nat (List.length (valid l)) ->
    exists first rest,
      valid l = first :: rest
      /\ fst (consensus_mechanism l thr w)
         = Ok (Some {| consensus := "success";
                       final_package := a_data first;
                       aggregated_hashes := map a_hash (valid l);
                       signatures := map a_signature (valid l) |}).
Proof.
  intros l thr w Hshape Hthr Hcount.
  rewrite (valid_not_none l Hshape) in *.
  destruct (not_none l) as [|first rest] eqn:Hnn; [simpl in Hcount; lia|].
  exists first, rest. split; [reflexivity|].
  rewrite <- Hnn in *. now rewrite (consensus_success l thr w first rest).
Qed.

Lemma consensus_approves_first_valid_witness :
  (process_shaped SampleNet.round_two_valid
   /\ 1 <= 2
   /\ 2 <= Z.of_nat (List.length (valid SampleNet.round_two_valid)))
  /\ exists first rest,
       valid SampleNet.round_two_valid = first :: rest
       /\ fst (consensus_mechanism SampleNet.round_two_valid 2 Sample.world0)
          = Ok (Some {| consensus := "success";
                        final_package := a_data first;
                        aggregated_hashes := map a_hash (valid SampleNet.round_two_valid);
                        signatures := map a_signature (valid SampleNet.round_two_valid) |}).
Proof.
  assert (Hshape : process_shaped SampleNet.round_two_valid)
    by (repeat constructor).
  assert (Hthr : 1 <= 2) by lia.
  assert (Hcount : 2 <= Z.of_nat (List.length (valid SampleNet.round_two_valid)))
    by (simpl; lia).
  split; [repeat split; assumption|].
  exact (consensus_approves_first_valid
           SampleNet.round_two_valid 2 Sample.world0 Hshape Hthr Hcount).
Defined.

(** The audit display of the arbitration prints one line per non-null
    response and nothing else. *)
Lemma hitl_display l : forall w,
  for_ l (fun (_ : unit) o =>
            match o with
            | Some o =>
                print (HitlDiscrepancy (a_node_id o)
                         (map (fun e => e_text e ++ "(" ++ e_label e ++ ")")
                              (p_entities (a_data o))))
            | None => ret tt
            end) tt w
  = (Ok tt, emit w (discrepancies l)).
Proof.
  induction l as [|[o|] l IH]; intros w; simpl.
  - now rewrite emit_nil.
  - unfold mbind. rewrite print_emit, IH, emit_emit. reflexivity.
  - unfold mbind, ret. rewrite IH. reflexivity.
Qed.

Lemma discrepancies_count p l :
  (forall n ents, p (HitlDiscrepancy n ents) = false) ->
  count_events p (discrepancies l) = 0%nat.
Proof.
  intros Hp. unfold count_events, discrepancies.
  induction l as [|[o|] l IH]; simpl; [reflexivity| |exact IH].
  now rewrite Hp.
Qed.

(** The run of [settle] after a failed consensus. *)
Lemma settle_after_failure input_text l w :
  Z.of_nat (List.length (not_none l)) < 2 ->
  exists line,
    (line = NotEnoughResponses \/ line = ConsensusFailed)
    /\ settle input_text l w
       = (Ok (arbitrated_record (clock w (ticks w))),
          {| clock := clock w;
             ticks := S (ticks w);
             stdout :=
               (stdout w
                ++ [ConsensusRunning 2; line; HitlTriggered input_text]
                ++ discrepancies l
                ++ [HitlCorrectionApplied;
                    FinalDataSaved
                      (Sha256.hexdigest
                         (Json.dumps
                            (PDict (corrected_record (clock w (ticks w))))))])%list;
             files := ("validated_data_for_blockchain.json",
                       arbitrated_record (clock w (ticks w))) :: files w;
             on_chain_data := on_chain_data w |}).
Proof.
  intros Hlt.
  destruct (consensus_failure l 2 w Hlt) as [line [Hline Hrun]].
  exists line. split; [exact Hline|].
  unfold settle, mbind at 1. rewrite Hrun.
  unfold trigger_human_in_the_loop, mbind at 1 2 3.
  rewrite print_emit, hitl_display.
  unfold mbind, now, print, ret, json_dump_file, arbitrated_record; simpl.
  rewrite <- !app_assoc. reflexivity.
Qed.

(** C4 as stated fails: with one valid attestation and a threshold of 2 the
    round is approved, because the second non-null response counts although
    its entity list is empty. *)
Lemma one_valid_attestation_is_approved :
  Z.of_nat (List.length (valid SampleNet.round_one_valid)) < 2
  /\ fst (consensus_mechanism SampleNet.round_one_valid 2 Sample.world0)
     = Ok (Some {| consensus := "success";
                   final_package := a_data SampleNet.empty_A;
                   aggregated_hashes := map a_hash [SampleNet.empty_A; SampleNet.full_B];
                   signatures := map a_signature [SampleNet.empty_A; SampleNet.full_B] |})
  /\ count_events is_hitl_call
       (stdout (snd (settle "report" SampleNet.round_one_valid Sample.world0))) = 0%nat.
Proof.
  split; [simpl; lia|]. split; vm_compute; reflexivity.
Qed.

(** C4, amended: for attestations in which every non-null one has a
    non-empty entity list (what [process] returns), fewer valid attestations
    than the threshold make [consensus_mechanism] fail (it returns None and
    raises nothing); in [main], whose threshold is 2, the failed round goes
    to [trigger_human_in_the_loop], whose record (with the final digest
    added) is the round's record and the file written, the consensus runs
    once and the arbitration is called once. *)
Theorem consensus_failure_goes_to_arbitration :
  (forall l thr w,
     process_shaped l ->
     Z.of_nat (List.length (valid l)) < thr ->
     fst (consensus_mechanism l thr w) = Ok None)
  /\ (forall input_text l w,
        process_shaped l ->
        Z.of_nat (List.length (valid l)) < 2 ->
        fst (settle input_text l w) = Ok (arbitrated_record (clock w (ticks w)))
        /\ files (snd (settle input_text l w))
           = ("validated_data_for_blockchain.json",
              arbitrated_record (clock w (ticks w))) :: files w
        /\ exists evs,
             stdout (snd (settle input_text l w)) = (stdout w ++ evs)%list
             /\ count_events is_consensus_run evs = 1%nat
             /\ count_events is_hitl_call evs = 1%nat).
Proof.
  split.
  - intros l thr w Hshape Hlt. rewrite (valid_not_none l Hshape) in Hlt.
    destruct (consensus_failure l thr w Hlt) as [line [_ ->]]. reflexivity.
  - intros input_text l w Hshape Hlt. rewrite (valid_not_none l Hshape) in Hlt.
    destruct (settle_after_failure input_text l w Hlt) as [line [Hline ->]].
    split; [reflexivity|]. split; [reflexivity|].
    eexists. split; [reflexivity|].
    rewrite !count_events_app.
    rewrite !discrepancies_count by reflexivity.
    destruct Hline as [-> | ->]; split; reflexivity.
Qed.

Lemma consensus_failure_goes_to_arbitration_witness :
  (process_shaped SampleNet.round_failed
   /\ Z.of_nat (List.length (valid SampleNet.round_failed)) < 2)
  /\ fst (settle "report" SampleNet.round_failed Sample.world0)
     = Ok (arbitrated_record (clock Sample.world0 (ticks Sample.world0)))
  /\ files (snd (settle "report" SampleNet.round_failed Sample.world0))
     = ("validated_data_for_blockchain.json",
        arbitrated_record (clock Sample.world0 (ticks Sample.world0)))
         :: files Sample.world0
  /\ exists evs,
       stdout (snd (settle "report" SampleNet.round_failed Sample.world0))
       = (stdout Sample.world0 ++ evs)%list
       /\ count_events is_consensus_run evs = 1%nat
       /\ count_events is_hitl_call evs = 1%nat.
Proof.
  assert (Hshape : process_shaped SampleNet.round_failed) by (repeat constructor).
  assert (Hlt : Z.of_nat (List.length (valid SampleNet.round_failed)) < 2)
    by (simpl; lia).
  split; [split; assumption|].
  exact (proj2 consensus_failure_goes_to_arbitration
           "report" SampleNet.round_failed Sample.world0 Hshape Hlt).
Defined.

End Consensus.

(** ** Contract execution (C2, C9) and commitment (C3) *)

Section ContractRun.

Import Contract RuleSpec.

Lemma verify_hash_run data stored w :
  verify_hash data stored w
  = (Ok (String.eqb (Sha256.hexdigest (Json.dumps data)) stored),
     emit w [OffChainHash (Sha256.hexdigest (Json.dumps data));
             OnChainHash stored;
             if String.eqb (Sha256.hexdigest (Json.dumps data)) stored
             then HashMatch else HashMismatch]).
Proof.
  unfold verify_hash.
  generalize (Sha256.hexdigest (Json.dumps data)) as h. intros h.
  unfold mbind, print, ret, emit. cbn [stdout clock ticks files on_chain_data].
  destruct (String.eqb h stored); cbn [stdout clock ticks files on_chain_data];
    rewrite <- !app_assoc; reflexivity.
Qed.

(** C2: when the recomputed digest of the record differs from the committed
    one, [execute_smart_contract] returns False, prints the halt after the
    mismatch and no line of the business logic, raises nothing whatever the
    record holds, and leaves every other part of the state as it was. *)
Theorem integrity_gate_halts_before_rules :
  forall data stored w,
    Sha256.hexdigest (Json.dumps data) <> stored ->
    execute_smart_contract data stored w
    = (Ok false,
       emit w [ExecutionStarted;
               OffChainHash (Sha256.hexdigest (Json.dumps data));
               OnChainHash stored; HashMismatch; ExecutionHalted])
    /\ count_events is_analysis
         (skipn (List.length (stdout w))
            (stdout (snd (execute_smart_contract data stored w)))) = 0%nat.
Proof.
  intros data stored w Hneq.
  apply String.eqb_neq in Hneq.
  assert (Hrun : execute_smart_contract data stored w
                 = (Ok false,
                    emit w [ExecutionStarted;
                            OffChainHash (Sha256.hexdigest (Json.dumps data));
                            OnChainHash stored; HashMismatch; ExecutionHalted])).
  { unfold execute_smart_contract, mbind. rewrite print_emit, verify_hash_run.
    rewrite Hneq. cbn [negb]. rewrite print_emit, !emit_emit. reflexivity. }
  split; [exact Hrun|].
  rewrite Hrun. cbn [snd]. rewrite stdout_emit.
  rewrite skipn_app, skipn_all, Nat.sub_diag. reflexivity.
Qed.

Lemma integrity_gate_halts_before_rules_witness :
  Sha256.hexdigest (Json.dumps SampleContract.tampered) <> SampleContract.stored_hash
  /\ execute_smart_contract SampleContract.tampered SampleContract.stored_hash
       Sample.world0
     = (Ok false,
        emit Sample.world0
          [ExecutionStarted;
           OffChainHash (Sha256.hexdigest (Json.dumps SampleContract.tampered));
           OnChainHash SampleContract.stored_hash; HashMismatch; ExecutionHalted])
  /\ count_events is_analysis
       (skipn (List.length (stdout Sample.world0))
          (stdout (snd (execute_smart_contract SampleContract.tampered
                          SampleContract.stored_hash Sample.world0)))) = 0%nat.
Proof.
  assert (Hneq : Sha256.hexdigest (Json.dumps SampleContract.tampered)
                 <> SampleContract.stored_hash)
    by (vm_compute; discriminate).
  split; [exact Hneq|].
  exact (integrity_gate_halts_before_rules
           SampleContract.tampered SampleContract.stored_hash Sample.world0 Hneq).
Defined.

Lemma mem_In k found : PyStr.mem k found = true <-> In k found.
Proof.
  unfold PyStr.mem. rewrite existsb_exists. split.
  - intros [x [Hin Heq]]. apply String.eqb_eq in Heq. now subst.
  - intros Hin. exists k. split; [exact Hin|apply String.eqb_refl].
Qed.

Lemma texts_of_entities label ents :
  texts_with_label label (map py_of_entity ents)
  = Ok (map (fun e => PyStr.lower (e_text e))
          (filter (fun e => String.eqb (e_label e) label) ents)).
Proof.
  induction ents as [|e ents IH]; [reflexivity|].
  cbn [map texts_with_label filter].
  change (subscript (py_of_entity e) "label") with (Ok (PStr (e_label e))).
  cbn [bind eq_str].
  destruct (String.eqb (e_label e) label).
  - change (subscript (py_of_entity e) "text") with (Ok (PStr (e_text e))).
    cbn [bind lower]. rewrite IH. reflexivity.
  - exact IH.
Qed.

Lemma In_texts_hit ents label k :
  In k (map (fun e => PyStr.lower (e_text e))
          (filter (fun e => String.eqb (e_label e) label) ents))
  <-> hit ents label k.
Proof.
  unfold hit. rewrite in_map_iff. split.
  - intros [e [Hk Hin]]. apply filter_In in Hin. destruct Hin as [Hin Hl].
    apply String.eqb_eq in Hl. now exists e.
  - intros [e [Hin [Hl Hk]]]. exists e. split; [exact Hk|].
    apply filter_In. split; [exact Hin|]. now apply String.eqb_eq.
Qed.

(** [first_in] finds the first keyword that is in [found], or none is. *)
Lemma first_in_spec keywords found :
  match first_in keywords found with
  | Some k =>
      exists before after,
        keywords = (before ++ k :: after)%list
        /\ In k found
        /\ forall k', In k' before -> ~ In k' found
  | None => forall k, In k keywords -> ~ In k found
  end.
Proof.
  unfold first_in.
  induction keywords as [|k0 keywords IH]; cbn [find].
  - intros k [].
  - destruct (PyStr.mem k0 found) eqn:Hmem.
    + exists [], keywords. split; [reflexivity|].
      split; [now apply mem_In|]. intros k' [].
    + assert (Hk0 : ~ In k0 found).
      { intros Hin. apply mem_In in Hin. congruence. }
      destruct (find (fun k => PyStr.mem k found) keywords) as [k|].
      * destruct IH as [before [after [-> [Hin Hbefore]]]].
        exists (k0 :: before), after. split; [reflexivity|].
        split; [exact Hin|].
        intros k' [<-|Hk']; [exact Hk0|now apply Hbefore].
      * intros k [<-|Hk]; [exact Hk0|now apply IH].
Qed.

Lemma any_of_first_in keywords found :
  any_of keywords found
  = match first_in keywords found with Some _ => true | None => false end.
Proof.
  unfold any_of, first_in.
  induction keywords as [|k keywords IH]; [reflexivity|].
  cbn [existsb find]. destruct (PyStr.mem k found); [reflexivity|exact IH].
Qed.

Lemma first_in_hit ents label keywords :
  match first_in keywords
          (map (fun e => PyStr.lower (e_text e))
             (filter (fun e => String.eqb (e_label e) label) ents)) with
  | Some k => first_hit ents label keywords k
  | None => no_hit ents label keywords
  end.
Proof.
  pose proof (first_in_spec keywords
                (map (fun e => PyStr.lower (e_text e))
                   (filter (fun e => String.eqb (e_label e) label) ents))) as H.
  destruct (first_in keywords _) as [k|].
  - destruct H as [before [after [Hk [Hin Hbefore]]]].
    exists before, after. split; [exact Hk|].
    split; [now apply In_texts_hit|].
    intros k' Hk' Hhit. apply (Hbefore k' Hk'). now apply In_texts_hit.
  - intros k Hk Hhit. apply (H k Hk). now apply In_texts_hit.
Qed.

(** The run of the business logic over a record whose entities are
    well-formed. *)
Lemma business_logic_run d ents w :
  PyDict.get d "valid_entities" = Some (PList (map py_of_entity ents)) ->
  let symptoms := map (fun e => PyStr.lower (e_text e))
                    (filter (fun e => String.eqb (e_label e) "SYMPTOM") ents) in
  let drugs := map (fun e => PyStr.lower (e_text e))
                 (filter (fun e => String.eqb (e_label e) "DRUG") ents) in
  apply_business_logic (PDict d) w
  = if any_of headache_keywords symptoms && any_of drug_keywords drugs
    then (Ok true,
          emit w [Analyzing;
                  ConditionMatched (first_in headache_keywords symptoms)
                                   (first_in drug_keywords drugs);
                  TriggeringReimbursement])
    else (Ok false, emit w [Analyzing; NoMatchingCondition]).
Proof.
  intros Hget symptoms drugs.
  unfold apply_business_logic, subscript, PyDict.getitem. rewrite Hget.
  cbn [bind iterate]. rewrite !texts_of_entities.
  fold symptoms. fold drugs.
  unfold mbind, lift. rewrite print_emit.
  destruct (any_of headache_keywords symptoms && any_of drug_keywords drugs).
  - rewrite !print_emit, !emit_emit. reflexivity.
  - rewrite !print_emit, !emit_emit. reflexivity.
Qed.

Lemma execute_after_match data w :
  execute_smart_contract data (Sha256.hexdigest (Json.dumps data)) w
  = apply_business_logic data
      (emit w [ExecutionStarted;
               OffChainHash (Sha256.hexdigest (Json.dumps data));
               OnChainHash (Sha256.hexdigest (Json.dumps data)); HashMatch]).
Proof.
  unfold execute_smart_contract, mbind. rewrite print_emit, verify_hash_run.
  rewrite String.eqb_refl. cbn [negb]. rewrite emit_emit. reflexivity.
Qed.

(** C9: once the digest matches, the rule is evaluated over the record's
    entities by case-insensitive equality of the whole entity text with a
    keyword (list membership, not substring): when a SYMPTOM entity hits a
    headache keyword and a DRUG entity hits an approved drug, the contract
    returns True and reports the first hit keyword of each list, in list
    order; otherwise it returns False. *)
Theorem rule_evaluation_reports_first_exact_match :
  forall d ents w,
    PyDict.get d "valid_entities" = Some (PList (map py_of_entity ents)) ->
    let h := Sha256.hexdigest (Json.dumps (PDict d)) in
    let gate := [ExecutionStarted; OffChainHash h; OnChainHash h; HashMatch] in
    (exists ks kd,
        first_hit ents "SYMPTOM" headache_keywords ks
        /\ first_hit ents "DRUG" drug_keywords kd
        /\ execute_smart_contract (PDict d) h w
           = (Ok true,
              emit w (gate ++ [Analyzing; ConditionMatched (Some ks) (Some kd);
                               TriggeringReimbursement])))
    \/ ((no_hit ents "SYMPTOM" headache_keywords
         \/ no_hit ents "DRUG" drug_keywords)
        /\ execute_smart_contract (PDict d) h w
           = (Ok false, emit w (gate ++ [Analyzing; NoMatchingCondition]))).
Proof.
  intros d ents w Hget h gate. subst h gate.
  rewrite execute_after_match, (business_logic_run d ents _ Hget).
  rewrite !any_of_first_in, !emit_emit.
  pose proof (first_in_hit ents "SYMPTOM" headache_keywords) as Hs.
  pose proof (first_in_hit ents "DRUG" drug_keywords) as Hd.
  destruct (first_in headache_keywords _) as [ks|].
  - destruct (first_in drug_keywords _) as [kd|].
    + left. exists ks, kd. repeat split; assumption.
    + right. split; [now right|reflexivity].
  - right. split; [now left|reflexivity].
Qed.

Lemma rule_evaluation_reports_first_exact_match_witness :
  PyDict.get SampleContract.fields "valid_entities"
  = Some (PList (map py_of_entity SampleContract.entities))
  /\ ((exists ks kd,
         first_hit SampleContract.entities "SYMPTOM" headache_keywords ks
         /\ first_hit SampleContract.entities "DRUG" drug_keywords kd
         /\ execute_smart_contract (PDict SampleContract.fields)
              (Sha256.hexdigest (Json.dumps (PDict SampleContract.fields)))
              Sample.world0
            = (Ok true,
               emit Sample.world0
                 ([ExecutionStarted;
                   OffChainHash
                     (Sha256.hexdigest (Json.dumps (PDict SampleContract.fields)));
                   OnChainHash
                     (Sha256.hexdigest (Json.dumps (PDict SampleContract.fields)));
                   HashMatch]
                  ++ [Analyzing; ConditionMatched (Some ks) (Some kd);
                      TriggeringReimbursement])))
      \/ ((no_hit SampleContract.entities "SYMPTOM" headache_keywords
           \/ no_hit SampleContract.entities "DRUG" drug_keywords)
          /\ execute_smart_contract (PDict SampleContract.fields)
               (Sha256.hexdigest (Json.dumps (PDict SampleContract.fields)))
               Sample.world0
             = (Ok false,
                emit Sample.world0
                  ([ExecutionStarted;
                    OffChainHash
                      (Sha256.hexdigest (Json.dumps (PDict SampleContract.fields)));
                    OnChainHash
                      (Sha256.hexdigest (Json.dumps (PDict SampleContract.fields)));
                    HashMatch]
                   ++ [Analyzing; NoMatchingCondition])))).
Proof.
  assert (Hget : PyDict.get SampleContract.fields "valid_entities"
                 = Some (PList (map py_of_entity SampleContract.entities)))
    by reflexivity.
  split; [exact Hget|].
  exact (rule_evaluation_reports_first_exact_match
           SampleContract.fields SampleContract.entities Sample.world0 Hget).
Defined.

(** The script's own run: the pair reported is (headaches, ibuprofen). *)
Example script_reports_headaches_ibuprofen :
  (let (r, w) := script Sample.world0 in
   (r, filter is_analysis (stdout w)))
  = (Ok true,
     [Analyzing; ConditionMatched (Some "headaches") (Some "ibuprofen");
      TriggeringReimbursement]).
Proof. vm_compute. reflexivity. Qed.

(** Whole-text equality, not substring: "painful" is no hit of "pain". *)
Example painful_is_no_hit :
  fst (apply_business_logic
         (PDict [("valid_entities",
                  PList (map py_of_entity
                           [{| e_text := "painful"; e_label := "SYMPTOM";
                               e_confidence := 0.90%float |};
                            {| e_text := "Aspirin"; e_label := "DRUG";
                               e_confidence := 0.95%float |}]))])
         Sample.world0)
  = Ok false.
Proof. vm_compute. reflexivity. Qed.

Lemma get_set_same d k v : PyDict.get (PyDict.set d k v) k = Some v.
Proof.
  induction d as [|[k' v'] d IH]; cbn [PyDict.set PyDict.get].
  - now rewrite String.eqb_refl.
  - destruct (String.eqb k' k) eqn:Hk; cbn [PyDict.get]; now rewrite Hk.
Qed.

Lemma get_set_other d k k0 v :
  k0 <> k -> PyDict.get (PyDict.set d k0 v) k = PyDict.get d k.
Proof.
  intros Hneq. apply String.eqb_neq in Hneq.
  induction d as [|[k' v'] d IH]; cbn [PyDict.set PyDict.get].
  - now rewrite Hneq.
  - destruct (String.eqb k' k0) eqn:Hk0; cbn [PyDict.get].
    + apply String.eqb_eq in Hk0. subst k'. now rewrite Hneq.
    + now rewrite IH.
Qed.

(** The run of [store_on_chain]. *)
Lemma store_on_chain_run data w :
  let h := Sha256.hexdigest (Json.dumps data) in
  let d := PyDict.set
             (PyDict.set
                (PyDict.set (PyDict.set (on_chain_data w) "hash" (PStr h))
                   "timestamp" (PStr (clock w (ticks w))))
                "status" (PStr "Data hash stored on-chain"))
             "contract_address" (PStr CONTRACT_ADDRESS) in
  store_on_chain data w
  = (Ok h,
     {| clock := clock w; ticks := S (ticks w);
        stdout := (stdout w ++ [StoredOnChain d])%list;
        files := files w; on_chain_data := d |}).
Proof. reflexivity. Qed.

(** C3 as stated fails: a second commit with a different digest raises
    nothing and replaces the stored digest. *)
Lemma second_commit_overwrites :
  PyDict.get
    (on_chain_data (snd (store_on_chain off_chain_data Sample.world0))) "hash"
  = Some (PStr SampleContract.stored_hash)
  /\ fst (store_on_chain SampleContract.tampered
            (snd (store_on_chain off_chain_data Sample.world0)))
     = Ok SampleContract.tampered_hash
  /\ PyDict.get
       (on_chain_data
          (snd (store_on_chain SampleContract.tampered
                  (snd (store_on_chain off_chain_data Sample.world0))))) "hash"
     = Some (PStr SampleContract.tampered_hash)
  /\ String.eqb SampleContract.stored_hash SampleContract.tampered_hash = false.
Proof.
  split; [vm_compute; reflexivity|].
  split; [vm_compute; reflexivity|].
  split; vm_compute; reflexivity.
Qed.

(** C3, amended: [store_on_chain] keeps a single commitment, which every
    commit replaces: whatever is stored, it raises nothing, returns the
    digest of the record, and afterwards the stored digest is that digest,
    with the timestamp of the commit, the fixed status and the contract
    address beside it. *)
Theorem commit_replaces_stored_digest :
  forall data w,
    let h := Sha256.hexdigest (Json.dumps data) in
    let w' := snd (store_on_chain data w) in
    fst (store_on_chain data w) = Ok h
    /\ PyDict.get (on_chain_data w') "hash" = Some (PStr h)
    /\ PyDict.get (on_chain_data w') "timestamp" = Some (PStr (clock w (ticks w)))
    /\ PyDict.get (on_chain_data w') "status"
       = Some (PStr "Data hash stored on-chain")
    /\ PyDict.get (on_chain_data w') "contract_address"
       = Some (PStr CONTRACT_ADDRESS).
Proof.
  intros data w h w'. subst w'. rewrite store_on_chain_run. fold h.
  cbn [fst snd on_chain_data].
  repeat split.
  - rewrite !get_set_other by discriminate. apply get_set_same.
  - rewrite !get_set_other by discriminate. apply get_set_same.
  - rewrite !get_set_other by discriminate. apply get_set_same.
  - apply get_set_same.
Qed.

End ContractRun.

(** ** The serialisation *)

Section Serialisation.

Import Json.

Lemma string_leb_false a b : String.leb a b = false -> String.leb b a = true.
Proof. destruct (String.leb_total a b) as [H|H]; congruence. Qed.

(** Insertions of items with different keys commute. *)
Lemma insert_item_comm x y : forall l,
  fst x <> fst y ->
  insert_item x (insert_item y l) = insert_item y (insert_item x l).
Proof.
  intros l Hxy. induction l as [|z l IH]; cbn [insert_item].
  - destruct (String.leb (fst x) (fst y)) eqn:Hle;
      destruct (String.leb (fst y) (fst x)) eqn:Hle'; try reflexivity.
    + exfalso. apply Hxy. now apply String.leb_antisym.
    + apply string_leb_false in Hle. congruence.
  - destruct (String.leb (fst y) (fst z)) eqn:Hyz;
      destruct (String.leb (fst x) (fst z)) eqn:Hxz; cbn [insert_item];
      rewrite ?Hyz, ?Hxz.
    + destruct (String.leb (fst x) (fst y)) eqn:Hle;
        destruct (String.leb (fst y) (fst x)) eqn:Hle';
        rewrite ?Hyz, ?Hxz; try reflexivity.
      * exfalso. apply Hxy. now apply String.leb_antisym.
      * apply string_leb_false in Hle. congruence.
    + assert (Hle : String.leb (fst x) (fst y) = false).
      { destruct (String.leb (fst x) (fst y)) eqn:Hle; [|reflexivity].
        rewrite (string_leb_trans _ _ _ Hle Hyz) in Hxz. discriminate. }
      rewrite Hle. reflexivity.
    + assert (Hle : String.leb (fst y) (fst x) = false).
      { destruct (String.leb (fst y) (fst x)) eqn:Hle; [|reflexivity].
        rewrite (string_leb_trans _ _ _ Hle Hxz) in Hyz. discriminate. }
      rewrite Hle. reflexivity.
    + now rewrite IH.
Qed.

(** Two dicts with the same items have the same sorted items. *)
Lemma sort_items_permutation l l' :
  Permutation l l' -> NoDup (map fst l) -> sort_items l = sort_items l'.
Proof.
  induction 1 as [|x l l' Hp IH|x y l|l l' l'' Hp1 IH1 Hp2 IH2];
    intros Hnd; cbn [sort_items fold_right].
  - reflexivity.
  - cbn [map] in Hnd. apply NoDup_cons_iff in Hnd.
    fold (sort_items l). fold (sort_items l'). now rewrite IH.
  - cbn [map] in Hnd. apply NoDup_cons_iff in Hnd. destruct Hnd as [Hy _].
    apply insert_item_comm. intros Heq. apply Hy. left. now symmetry.
  - rewrite IH1 by assumption. apply IH2.
    apply (Permutation_NoDup (Permutation_map fst Hp1) Hnd).
Qed.

Lemma insert_item_permutation x l : Permutation (insert_item x l) (x :: l).
Proof.
  induction l as [|y l IH]; cbn [insert_item]; [reflexivity|].
  destruct (String.leb (fst x) (fst y)); [reflexivity|].
  rewrite IH. apply perm_swap.
Qed.

Lemma sort_items_is_permutation l : Permutation (sort_items l) l.
Proof.
  induction l as [|x l IH]; cbn [sort_items fold_right]; [reflexivity|].
  fold (sort_items l). rewrite insert_item_permutation. now constructor.
Qed.

(** Inserting an item next to a marked one does not depend on the marked
    item's value. *)
Lemma insert_item_beside x k s s' : forall A B,
  exists A' B',
    insert_item x (A ++ (k, s) :: B) = (A' ++ (k, s) :: B')%list
    /\ insert_item x (A ++ (k, s') :: B) = (A' ++ (k, s') :: B')%list.
Proof.
  induction A as [|a A IH]; intros B; cbn [app insert_item fst].
  - destruct (String.leb (fst x) k).
    + exists [x], B. split; reflexivity.
    + exists [], (insert_item x B). split; reflexivity.
  - destruct (String.leb (fst x) (fst a)).
    + exists (x :: a :: A), B. split; reflexivity.
    + destruct (IH B) as [A' [B' [H1 H2]]].
      exists (a :: A'), B'. rewrite H1, H2. split; reflexivity.
Qed.

Lemma insert_item_marked k s s' : forall L,
  exists A B,
    insert_item (k, s) L = (A ++ (k, s) :: B)%list
    /\ insert_item (k, s') L = (A ++ (k, s') :: B)%list.
Proof.
  induction L as [|y L IH]; cbn [insert_item fst].
  - exists [], []. split; reflexivity.
  - destruct (String.leb k (fst y)).
    + exists [], (y :: L). split; reflexivity.
    + destruct IH as [A [B [H1 H2]]].
      exists (y :: A), B. rewrite H1, H2. split; reflexivity.
Qed.

(** Changing the value of one item changes the same place of the sorted
    items. *)
Lemma sort_items_one_change k s s' l2 : forall l1,
  exists A B,
    sort_items (l1 ++ (k, s) :: l2) = (A ++ (k, s) :: B)%list
    /\ sort_items (l1 ++ (k, s') :: l2) = (A ++ (k, s') :: B)%list.
Proof.
  induction l1 as [|x l1 IH]; cbn [app sort_items fold_right].
  - apply insert_item_marked.
  - fold (sort_items (l1 ++ (k, s) :: l2)).
    fold (sort_items (l1 ++ (k, s') :: l2)).
    destruct IH as [A [B [-> ->]]]. apply insert_item_beside.
Qed.

(** One element of a joined list sits between a fixed prefix and suffix. *)
Lemma concat_middle sep x y b : forall a,
  exists P Q,
    String.concat sep (a ++ x :: b) = P ++ x ++ Q
    /\ String.concat sep (a ++ y :: b) = P ++ y ++ Q.
Proof.
  induction a as [|z a IH]; cbn [app].
  - destruct b as [|b0 b]; cbn [String.concat].
    + exists EmptyString, EmptyString. cbn [append].
      now rewrite !append_empty_r.
    + exists EmptyString, (sep ++ String.concat sep (b0 :: b)).
      split; reflexivity.
  - destruct IH as [P [Q [H1 H2]]].
    exists (z ++ sep ++ P), Q.
    assert (Hne : forall v, exists h t, (a ++ v :: b)%list = h :: t).
    { intros v. destruct a; cbn [app]; eauto. }
    split.
    + destruct (Hne x) as [h [t Hht]]. cbn [String.concat]. rewrite Hht.
      rewrite <- Hht, H1. now rewrite !append_assoc.
    + destruct (Hne y) as [h [t Hht]]. cbn [String.concat]. rewrite Hht.
      rewrite <- Hht, H2. now rewrite !append_assoc.
Qed.

Lemma dumps_list l :
  dumps (PList l) = "[" ++ String.concat ", " (map dumps l) ++ "]".
Proof. reflexivity. Qed.

Lemma dumps_dict d :
  dumps (PDict d)
  = "{" ++ String.concat ", " (map item_str (sort_items (map ser d))) ++ "}".
Proof. reflexivity. Qed.

Lemma dumps_list_change a v v' b :
  dumps v <> dumps v' ->
  dumps (PList (a ++ v :: b)) <> dumps (PList (a ++ v' :: b)).
Proof.
  intros Hv. rewrite !dumps_list, !map_app. cbn [map].
  destruct (concat_middle ", " (dumps v) (dumps v') (map dumps b) (map dumps a))
    as [P [Q [-> ->]]].
  now apply append_wrapped.
Qed.

Lemma dumps_dict_change a k v v' b :
  dumps v <> dumps v' ->
  dumps (PDict (a ++ (k, v) :: b)) <> dumps (PDict (a ++ (k, v') :: b)).
Proof.
  intros Hv. rewrite !dumps_dict, !map_app. cbn [map ser].
  destruct (sort_items_one_change k (dumps v) (dumps v') (map ser b) (map ser a))
    as [A [B [-> ->]]].
  rewrite !map_app. cbn [map].
  destruct (concat_middle ", " (item_str (k, dumps v)) (item_str (k, dumps v'))
              (map item_str B) (map item_str A)) as [P [Q [-> ->]]].
  apply append_wrapped. unfold item_str. cbn [fst snd]. intros H.
  apply append_inv_head in H. apply (append_inv_head ": ") in H. contradiction.
Qed.

Lemma field_change_dumps v v' : Mutation.field_change v v' -> dumps v <> dumps v'.
Proof.
  intros [s s' Hs|f f' Hf] H.
  - apply Hs. now apply encode_str_injective.
  - now apply Hf.
Qed.


End Serialisation.

(** ** Digests (C5, C6) and the embedded digest *)

Section Digests.

Import Mutation.

(** Among [n + 1] values below [n] two are equal. *)
Lemma bounded_search (f : Z -> Z) (v : Z) (n : Z) :
  0 <= n ->
  (exists i, 0 <= i <= n /\ f i = v) \/ (forall i, 0 <= i <= n -> f i <> v).
Proof.
  intros Hn. pattern n. apply natlike_ind; [| |exact Hn].
  - destruct (Z.eq_dec (f 0) v) as [H|H].
    + left. exists 0. split; [lia|exact H].
    + right. intros i Hi. replace i with 0 by lia. exact H.
  - intros m Hm [[i [Hi Hf]]|Hnone].
    + left. exists i. split; [lia|exact Hf].
    + destruct (Z.eq_dec (f (Z.succ m)) v) as [H|H].
      * left. exists (Z.succ m). split; [lia|exact H].
      * right. intros i Hi.
        destruct (Z.eq_dec i (Z.succ m)) as [->|Hne]; [exact H|].
        apply Hnone. lia.
Qed.

Lemma pigeonhole (n : Z) :
  0 <= n ->
  forall f : Z -> Z,
    (forall i, 0 <= i <= n -> 0 <= f i < n) ->
    exists i j, 0 <= i < j /\ j <= n /\ f i = f j.
Proof.
  intros Hn. pattern n. apply natlike_ind; [| |exact Hn].
  - intros f Hf. specialize (Hf 0). lia.
  - intros m Hm IH f Hf.
    destruct (bounded_search f (f (Z.succ m)) m Hm) as [[i [Hi Heq]]|Hnone].
    + exists i, (Z.succ m). split; [lia|]. split; [lia|exact Heq].
    + set (g := fun i => if f i =? m then f (Z.succ m) else f i).
      assert (Hg : forall i, 0 <= i <= m -> 0 <= g i < m).
      { intros i Hi. unfold g.
        pose proof (Hf i ltac:(lia)) as Hfi.
        pose proof (Hf (Z.succ m) ltac:(lia)) as Hfm.
        pose proof (Hnone i Hi) as Hne.
        destruct (Z.eqb_spec (f i) m); lia. }
      destruct (IH g Hg) as [i [j [Hij [Hj Heq]]]].
      pose proof (Hnone i ltac:(lia)) as Hni.
      pose proof (Hnone j ltac:(lia)) as Hnj.
      exists i, j. split; [lia|]. split; [lia|].
      unfold g in Heq.
      destruct (Z.eqb_spec (f i) m); destruct (Z.eqb_spec (f j) m); congruence.
Qed.

Lemma digest_range msg : 0 <= Sha256.digest msg < 2 ^ 256.
Proof.
  unfold Sha256.digest.
  set (h := Sha256.blocks _ _ _).
  pose proof (Z.mod_pos_bound (Sha256.ra h) (2 ^ 32) ltac:(lia)).
  pose proof (Z.mod_pos_bound (Sha256.rb h) (2 ^ 32) ltac:(lia)).
  pose proof (Z.mod_pos_bound (Sha256.rc h) (2 ^ 32) ltac:(lia)).
  pose proof (Z.mod_pos_bound (Sha256.rd h) (2 ^ 32) ltac:(lia)).
  pose proof (Z.mod_pos_bound (Sha256.re h) (2 ^ 32) ltac:(lia)).
  pose proof (Z.mod_pos_bound (Sha256.rf h) (2 ^ 32) ltac:(lia)).
  pose proof (Z.mod_pos_bound (Sha256.rg h) (2 ^ 32) ltac:(lia)).
  pose proof (Z.mod_pos_bound (Sha256.rh h) (2 ^ 32) ltac:(lia)).
  lia.
Qed.

Lemma bits_injective : forall p q, Probe.bits p = Probe.bits q -> p = q.
Proof.
  induction p as [p IH|p IH|]; intros [q|q|] H; cbn [Probe.bits] in H;
    try discriminate; try reflexivity.
  - injection H as H. f_equal. now apply IH.
  - injection H as H. f_equal. now apply IH.
Qed.

Lemma text_of_injective i j :
  0 <= i -> 0 <= j -> Probe.text_of i = Probe.text_of j -> i = j.
Proof.
  intros Hi Hj H. apply bits_injective in H. lia.
Qed.

Lemma probe_mutation i j :
  0 <= i -> 0 <= j -> i <> j -> record_mutation (Probe.record i) (Probe.record j).
Proof.
  intros Hi Hj Hij. unfold record_mutation, Probe.record.
  exists [], "valid_entities", [].
  eexists. eexists. exists [], [].
  split; [reflexivity|]. split; [reflexivity|].
  unfold entity_mutation, py_of_entity. cbn [e_text e_label e_confidence].
  exists [], "text". eexists. eexists. eexists.
  split; [reflexivity|]. split; [reflexivity|].
  constructor. intros H. apply Hij. now apply text_of_injective.
Qed.

Lemma hexdigest_probe i :
  Sha256.hexdigest (Json.dumps (Probe.record i)) = Sha256.hex 64 (Probe.digest_of i).
Proof. reflexivity. Qed.

Lemma commit_run r w :
  exists w1,
    Contract.store_on_chain r w = (Ok (Sha256.hexdigest (Json.dumps r)), w1).
Proof. eexists. apply store_on_chain_run. Qed.

(** Digests have 256 bits and entity texts are unbounded: among the records
    that differ in one entity text two have the same digest, and verifying
    one against the commitment of the other returns True. *)
Lemma some_mutated_record_verifies :
  exists r r',
    record_mutation r r'
    /\ forall w,
         exists w1,
           Contract.store_on_chain r w = (Ok (Sha256.hexdigest (Json.dumps r)), w1)
           /\ fst (Contract.verify_hash r' (Sha256.hexdigest (Json.dumps r)) w1)
              = Ok true.
Proof.
  destruct (pigeonhole (2 ^ 256) ltac:(lia) Probe.digest_of)
    as [i [j [Hij [Hj Heq]]]].
  { intros i _. apply digest_range. }
  exists (Probe.record i), (Probe.record j).
  split; [apply probe_mutation; lia|].
  intros w. destruct (commit_run (Probe.record i) w) as [w1 Hrun].
  exists w1. split; [exact Hrun|].
  rewrite verify_hash_run. cbn [fst].
  rewrite !hexdigest_probe, Heq. now rewrite String.eqb_refl.
Qed.

(** On the strings below U+0100 the serialisation over code points is the
    serialisation of the first part, and so are the commit and the
    verification. *)
Lemma chr_code c : PyStr.chr (PyStr.code c) = c.
Proof.
  unfold PyStr.chr, PyStr.code. rewrite N2Z.id. apply ascii_N_embedding.
Qed.

Lemma code_below_256 c : PyStr.code c < 256.
Proof.
  unfold PyStr.code. pose proof (N_ascii_bounded c) as H. lia.
Qed.

Lemma wide_escape_of_string s : Wide.escape (Wide.of_string s) = Json.escape s.
Proof.
  unfold Wide.of_string.
  induction s as [|c s IH]; cbn [list_ascii_of_string map Wide.escape Json.escape];
    [reflexivity|].
  rewrite IH. unfold Wide.escape_char.
  destruct (Z.ltb_spec (PyStr.code c) 256) as [_|Hge];
    [now rewrite chr_code|].
  pose proof (code_below_256 c). lia.
Qed.

Lemma wide_dumps_of_pyval : forall v, Wide.dumps (Wide.of_pyval v) = Json.dumps v.
Proof.
  fix IH 1. intros [| b | n | f | s | l | d]; cbn [Wide.of_pyval Wide.dumps];
    try reflexivity.
  - unfold Wide.encode_str. rewrite wide_escape_of_string. reflexivity.
  - rewrite dumps_list.
    assert (Hmap : map Wide.dumps (map Wide.of_pyval l) = map Json.dumps l).
    { induction l as [|x l IHl]; cbn [map]; [reflexivity|].
      now rewrite IH, IHl. }
    now rewrite Hmap.
  - rewrite dumps_dict.
    assert (Hmap : map (fun kv : string * Wide.value =>
                          let (k, x) := kv in (k, Wide.dumps x))
                     (map (fun kv : string * pyval =>
                             let (k, x) := kv in (k, Wide.of_pyval x)) d)
                   = map ser d).
    { induction d as [|[k x] d IHd]; cbn [map ser]; [reflexivity|].
      now rewrite IH, IHd. }
    now rewrite Hmap.
Qed.

Lemma wide_verify_hash_of_pyval r stored w :
  Wide.verify_hash (Wide.of_pyval r) stored w = Contract.verify_hash r stored w.
Proof.
  unfold Wide.verify_hash, Contract.verify_hash.
  now rewrite wide_dumps_of_pyval.
Qed.

Lemma wide_store_on_chain_of_pyval r w :
  Wide.store_on_chain (Wide.of_pyval r) w = Contract.store_on_chain r w.
Proof.
  unfold Wide.store_on_chain, Contract.store_on_chain.
  now rewrite wide_dumps_of_pyval.
Qed.



Lemma sample_mutation :
  record_mutation Contract.off_chain_data SampleContract.tampered.
Proof.
  exists [], "valid_entities".
  exists [py_of_entity {| e_text := "headaches"; e_label := "SYMPTOM";
                          e_confidence := 0.90%float |};
          py_of_entity {| e_text := "fatigue"; e_label := "SYMPTOM";
                          e_confidence := 0.90%float |}].
  eexists. eexists. exists [].
  eexists. split; [reflexivity|]. split; [reflexivity|].
  exists [("text", PStr "ibuprofen"); ("label", PStr "DRUG")], "confidence".
  eexists. eexists. exists [].
  split; [reflexivity|]. split; [reflexivity|].
  apply change_float. vm_compute. discriminate.
Qed.


Lemma list_sum_bound {A} (f : A -> nat) x l :
  In x l -> (f x <= list_sum (map f l))%nat.
Proof.
  induction l as [|y l IH]; simpl; [intros []|].
  intros [->|Hin]; [lia|]. specialize (IH Hin). lia.
Qed.

Lemma map_fst_ser d : map fst (map ser d) = map fst d.
Proof.
  induction d as [|[k x] d IH]; cbn [map ser fst]; [reflexivity|now rewrite IH].
Qed.

(** The serialisation does not see the insertion order of dicts. *)
Lemma same_data_dumps_bounded n : forall v1 v2,
  (SameData.size v1 < n)%nat ->
  SameData.same_data v1 v2 -> Json.dumps v1 = Json.dumps v2.
Proof.
  induction n as [|n IH]; intros v1 v2 Hsz H; [lia|].
  inversion H as [| | | | |l1 l2 Hl|d1 d1' d2 Hnd Hperm Hd]; subst;
    try reflexivity.
  - rewrite !dumps_list.
    assert (Hmap : map Json.dumps l1 = map Json.dumps l2).
    { cbn [SameData.size] in Hsz.
      assert (Hin : forall x, In x l1 -> (SameData.size x < n)%nat).
      { intros x Hx. pose proof (list_sum_bound SameData.size x l1 Hx). lia. }
      clear Hsz H. induction Hl as [|x y l1 l2 Hxy Hl IHl]; [reflexivity|].
      cbn [map]. rewrite (IH x y) by (try apply Hin; try left; auto).
      rewrite IHl; [reflexivity|]. intros z Hz. apply Hin. now right. }
    now rewrite Hmap.
  - rewrite !dumps_dict.
    assert (Hsort : Json.sort_items (map ser d1) = Json.sort_items (map ser d2)).
    { rewrite (sort_items_permutation (map ser d1) (map ser d1')).
      - f_equal.
        cbn [SameData.size] in Hsz.
        assert (Hin : forall kv, In kv d1' -> (SameData.size (snd kv) < n)%nat).
        { intros [k x] Hkv. apply (Permutation_in _ (Permutation_sym Hperm)) in Hkv.
          pose proof (list_sum_bound
                        (fun kv : string * pyval => let (_, x) := kv in SameData.size x)
                        (k, x) d1 Hkv) as Hb.
          cbn [snd]. cbn beta iota in Hb. lia. }
        clear Hsz H Hperm Hnd.
        induction Hd as [|[k x] [k' y] d1' d2 [Hk Hxy] Hd IHd]; [reflexivity|].
        cbn [map ser]. cbn [fst snd] in Hk, Hxy. subst k'.
        rewrite (IH x y); [|apply (Hin (k, x)); now left|exact Hxy].
        rewrite IHd; [reflexivity|]. intros kv Hkv. apply Hin. now right.
      - now apply Permutation_map.
      - now rewrite map_fst_ser. }
    now rewrite Hsort.
Qed.

Lemma same_data_dumps v1 v2 :
  SameData.same_data v1 v2 -> Json.dumps v1 = Json.dumps v2.
Proof. apply (same_data_dumps_bounded (S (SameData.size v1))). lia. Qed.

(** C6: the digest is a function of the package data alone: it takes no
    clock reading and no state, identical packages have identical digests,
    and so have two packages that hold the same entity list and metadata
    with their dicts filled in different orders (the keys are sorted before
    hashing); this holds for [generate_hash] of both scripts. *)
Theorem digest_is_function_of_data :
  forall d1 d2,
    SameData.same_data (PDict d1) (PDict d2) ->
    Json.dumps (PDict d1) = Json.dumps (PDict d2)
    /\ Oracle.generate_hash d1 = Oracle.generate_hash d2
    /\ forall self, Network.generate_hash self d1 = Network.generate_hash self d2.
Proof.
  intros d1 d2 H. apply same_data_dumps in H.
  unfold Oracle.generate_hash, Network.generate_hash, generate_hash.
  rewrite H. repeat split.
Qed.

Lemma sample_same_data :
  SameData.same_data (PDict SameData.package_items)
    (PDict SameData.package_items_reordered).
Proof.
  assert (Hentity : forall t l c,
             SameData.same_data
               (PDict [("text", PStr t); ("label", PStr l); ("confidence", PFloat c)])
               (PDict [("confidence", PFloat c); ("label", PStr l); ("text", PStr t)])).
  { intros t l c.
    apply (SameData.same_dict _
             (rev [("text", PStr t); ("label", PStr l); ("confidence", PFloat c)])).
    - cbn [map fst]. repeat constructor; cbn [In]; intuition discriminate.
    - apply Permutation_rev.
    - cbn [rev app].
      do 3 (constructor; [split; [reflexivity|constructor]|]). constructor. }
  apply (SameData.same_dict _ (rev SameData.package_items)).
  - cbn [map fst SameData.package_items Network.py_of_package].
    repeat constructor; cbn [In]; intuition discriminate.
  - apply Permutation_rev.
  - cbn. do 4 (constructor; [split; [reflexivity|constructor]|]).
    constructor; [|constructor]. split; [reflexivity|].
    cbn [snd]. apply SameData.same_list.
    do 2 (constructor; [apply Hentity|]). constructor.
Qed.

Lemma digest_is_function_of_data_witness :
  SameData.same_data (PDict SameData.package_items)
    (PDict SameData.package_items_reordered)
  /\ Json.dumps (PDict SameData.package_items)
     = Json.dumps (PDict SameData.package_items_reordered)
  /\ Oracle.generate_hash SameData.package_items
     = Oracle.generate_hash SameData.package_items_reordered
  /\ forall self,
       Network.generate_hash self SameData.package_items
       = Network.generate_hash self SameData.package_items_reordered.
Proof.
  split; [exact sample_same_data|].
  exact (digest_is_function_of_data
           SameData.package_items SameData.package_items_reordered
           sample_same_data).
Defined.

Lemma get_none_keys d k :
  PyDict.get d k = None -> forall kv, In kv d -> String.eqb (fst kv) k = false.
Proof.
  induction d as [|[k' v'] d IH]; cbn [PyDict.get In]; [intros _ kv []|].
  destruct (String.eqb k' k) eqn:Hk; [discriminate|].
  intros Hget kv [<-|Hin]; [exact Hk|now apply IH].
Qed.

Lemma set_fresh d k v :
  PyDict.get d k = None -> PyDict.set d k v = (d ++ [(k, v)])%list.
Proof.
  induction d as [|[k' v'] d IH]; cbn [PyDict.get PyDict.set app]; [reflexivity|].
  destruct (String.eqb k' k); [discriminate|].
  intros Hget. now rewrite IH.
Qed.

Lemma without_fresh d k v :
  PyDict.get d k = None -> Persisted.without (d ++ [(k, v)])%list k = d.
Proof.
  intros Hget. unfold Persisted.without. rewrite filter_app.
  cbn [filter fst]. rewrite String.eqb_refl. cbn [negb]. rewrite app_nil_r.
  pose proof (get_none_keys d k Hget) as Hkeys. clear Hget.
  induction d as [|kv d IH]; cbn [filter]; [reflexivity|].
  rewrite (Hkeys kv) by now left. cbn [negb].
  rewrite IH; [reflexivity|]. intros kv' Hin. apply Hkeys. now right.
Qed.

Lemma get_last_fresh d k v :
  PyDict.get d k = None -> PyDict.get (d ++ [(k, v)])%list k = Some v.
Proof.
  induction d as [|[k' v'] d IH]; cbn [PyDict.get app].
  - now rewrite String.eqb_refl.
  - destruct (String.eqb k' k); [discriminate|exact IH].
Qed.

(** The length of a joined list. *)
Lemma concat_length sep l :
  String.length (String.concat sep l)
  = (list_sum (map String.length l)
     + String.length sep * Nat.pred (List.length l))%nat.
Proof.
  induction l as [|x l IH]; [simpl; lia|].
  destruct l as [|y l].
  - simpl. lia.
  - change (String.concat sep (x :: y :: l))
      with (x ++ sep ++ String.concat sep (y :: l)).
    rewrite !length_append, IH. simpl. lia.
Qed.

Lemma list_sum_permutation l l' :
  Permutation l l' -> list_sum l = list_sum l'.
Proof. induction 1; simpl; lia. Qed.

(** One more item makes the serialisation of a dict longer. *)
Lemma dumps_dict_grows d k v :
  (String.length (Json.dumps (PDict d))
   < String.length (Json.dumps (PDict (d ++ [(k, v)])%list)))%nat.
Proof.
  rewrite !dumps_dict.
  assert (Hperm : Permutation
                    (map Json.item_str (Json.sort_items (map ser (d ++ [(k, v)])%list)))
                    (Json.item_str (ser (k, v))
                       :: map Json.item_str (Json.sort_items (map ser d)))).
  { rewrite <- map_cons. apply Permutation_map.
    rewrite sort_items_is_permutation, map_app. cbn [map].
    rewrite <- Permutation_cons_append. constructor.
    symmetry. apply sort_items_is_permutation. }
  set (L := map Json.item_str (Json.sort_items (map ser d))) in *.
  set (L' := map Json.item_str (Json.sort_items (map ser (d ++ [(k, v)])%list))) in *.
  pose proof (Permutation_length Hperm) as Hlen.
  pose proof (list_sum_permutation _ _ (Permutation_map String.length Hperm)) as Hsum.
  cbn [String.length append]. rewrite !length_append, !concat_length.
  rewrite Hlen, Hsum. cbn [map list_sum List.length Nat.pred].
  assert (Hitem : (4 <= String.length (Json.item_str (ser (k, v))))%nat).
  { unfold Json.item_str, Json.encode_str. cbn [ser fst snd].
    rewrite !length_append. cbn [String.length Json.dquote]. lia. }
  simpl. lia.
Qed.

Lemma dumps_dict_extended d k v :
  Json.dumps (PDict (d ++ [(k, v)])%list) <> Json.dumps (PDict d).
Proof.
  intros H. pose proof (dumps_dict_grows d k v) as Hlt.
  rewrite H in Hlt. lia.
Qed.

(** A record with a fresh digest field: the field holds the digest of the
    record without it, and the full record serialises differently. *)
Lemma fresh_digest_field key d :
  PyDict.get d key = None ->
  let persisted :=
    PyDict.set d key (PStr (Sha256.hexdigest (Json.dumps (PDict d)))) in
  Persisted.without persisted key = d
  /\ PyDict.get persisted key
     = Some (PStr (Sha256.hexdigest (Json.dumps (PDict d))))
  /\ Json.dumps (PDict persisted) <> Json.dumps (PDict d).
Proof.
  intros Hget persisted. subst persisted. rewrite (set_fresh d key _ Hget).
  split; [now apply without_fresh|].
  split; [now apply get_last_fresh|apply dumps_dict_extended].
Qed.

(** The record [settle] returns is its final data with the digest of that
    data added under a key the data does not have. *)
Lemma settle_shape input_text l w persisted :
  fst (Network.settle input_text l w) = Ok persisted ->
  exists d,
    PyDict.get d "final_hash" = None
    /\ persisted
       = PyDict.set d "final_hash" (PStr (Sha256.hexdigest (Json.dumps (PDict d)))).
Proof.
  unfold Network.settle, mbind at 1.
  destruct (Network.consensus_mechanism l 2 w) as [[[c|]|e] w1].
  - unfold mbind, print, ret, json_dump_file. cbn [fst]. intros H.
    injection H as <-.
    exists (Network.py_of_package (Network.final_package c)).
    split; reflexivity.
  - unfold Network.trigger_human_in_the_loop, mbind at 1 2 3.
    rewrite print_emit, hitl_display.
    unfold mbind, now, print, ret, json_dump_file. cbn [fst]. intros H.
    injection H as <-.
    exists (Network.corrected_record (clock w1 (ticks w1))).
    split; reflexivity.
  - cbn [fst]. discriminate.
Qed.

Lemma network_main_shape input_text doc w persisted :
  fst (Network.main input_text doc w) = Ok persisted ->
  exists d,
    PyDict.get d "final_hash" = None
    /\ persisted
       = PyDict.set d "final_hash" (PStr (Sha256.hexdigest (Json.dumps (PDict d)))).
Proof.
  unfold Network.main, mbind at 1.
  destruct (Network.run_oracles doc w) as [[r|e] w1].
  - apply settle_shape.
  - cbn [fst]. discriminate.
Qed.

Lemma oracle_main_shape doc w persisted :
  fst (Oracle.main doc w) = Ok (Some persisted) ->
  exists d,
    PyDict.get d "hash" = None
    /\ persisted
       = PyDict.set d "hash" (PStr (Sha256.hexdigest (Json.dumps (PDict d)))).
Proof.
  unfold Oracle.main, mbind at 1.
  destruct (Oracle.validate_nlp_entities doc Oracle.default_confidence_threshold w)
    as [[[|e ents]|err] w1].
  - cbn. discriminate.
  - unfold Oracle.enrich_with_metadata, mbind, now, ret, json_dump_file.
    cbn [fst]. intros H. injection H as <-.
    exists [("raw_entities", PList (map py_of_entity (e :: ents)));
            ("timestamp", PStr (clock w1 (ticks w1)));
            ("institution", PStr "CHU Alger");
            ("patient_id", PStr "PAT_123456");
            ("status", PStr "Oracle validation passed")].
    split; reflexivity.
  - cbn [fst]. discriminate.
Qed.

(** X22: in the record a pipeline persists, the digest field (final_hash in
    the network script, hash in the oracle script) is the last key and
    holds the digest of the record without that field, which is the record
    as it was when the digest was taken; the persisted record, digest field
    included, has another serialisation than the one that was hashed. *)
Theorem embedded_digest_is_of_the_record_without_it :
  forall key persisted,
    Persisted.pipeline_record key persisted ->
    let before := Persisted.without persisted key in
    let embedded := Sha256.hexdigest (Json.dumps (PDict before)) in
    PyDict.get before key = None
    /\ persisted = (before ++ [(key, PStr embedded)])%list
    /\ PyDict.get persisted key = Some (PStr embedded)
    /\ Json.dumps (PDict persisted) <> Json.dumps (PDict before).
Proof.
  intros key persisted Hrec before embedded.
  assert (Hshape : exists d,
             PyDict.get d key = None
             /\ persisted
                = PyDict.set d key
                    (PStr (Sha256.hexdigest (Json.dumps (PDict d))))).
  { destruct Hrec as [input_text doc w persisted Hrun|doc w persisted Hrun].
    - now apply (network_main_shape input_text doc w).
    - now apply (oracle_main_shape doc w). }
  destruct Hshape as [d [Hfresh Hset]].
  destruct (fresh_digest_field key d Hfresh) as [Hwithout [Hget Hne]].
  rewrite <- Hset in Hwithout, Hget, Hne.
  subst embedded before. rewrite Hwithout.
  split; [exact Hfresh|].
  split; [rewrite Hset; now apply set_fresh|].
  split; [exact Hget|exact Hne].
Qed.

Lemma sample_pipeline_record :
  Persisted.pipeline_record "final_hash" Persisted.approved_record.
Proof.
  apply (Persisted.network_record "report" Sample.doc Sample.world0).
  vm_compute. reflexivity.
Qed.

Lemma embedded_digest_is_of_the_record_without_it_witness :
  Persisted.pipeline_record "final_hash" Persisted.approved_record
  /\ PyDict.get Persisted.approved_record "final_hash"
     = Some (PStr (Sha256.hexdigest
                     (Json.dumps
                        (PDict (Persisted.without Persisted.approved_record
                                  "final_hash")))))
  /\ Json.dumps (PDict Persisted.approved_record)
     <> Json.dumps (PDict (Persisted.without Persisted.approved_record "final_hash")).
Proof.
  split; [exact sample_pipeline_record|].
  destruct (embedded_digest_is_of_the_record_without_it "final_hash"
              Persisted.approved_record sample_pipeline_record)
    as [H1 [H2 [H3 H4]]].
  split; [exact H3|exact H4].
Defined.

(** For the sample run the digest recomputed over the persisted record,
    digest field included, is not the embedded one. *)
Example recomputed_digest_of_sample_differs :
  String.eqb
    (Sha256.hexdigest (Json.dumps (PDict Persisted.approved_record)))
    (Sha256.hexdigest
       (Json.dumps (PDict (Persisted.without Persisted.approved_record "final_hash"))))
  = false.
Proof. vm_compute. reflexivity. Qed.

End Digests.

(** * Further properties of the scripts *)

(** ** Substrings and letter case *)

Section Substrings.

Lemma prefix_append a : forall r, String.prefix a (a ++ r) = true.
Proof.
  induction a as [|c a IH]; intros r; cbn [append String.prefix].
  - now destruct r.
  - destruct (ascii_dec c c) as [_|Hne]; [apply IH|now elim Hne].
Qed.

Lemma prefix_split : forall a s,
  String.prefix a s = true -> exists r, s = a ++ r.
Proof.
  induction a as [|c a IH]; intros s H.
  - now exists s.
  - destruct s as [|d s]; cbn [String.prefix] in H; [discriminate|].
    destruct (ascii_dec c d) as [->|_]; [|discriminate].
    destruct (IH s H) as [r ->]. now exists r.
Qed.

(** [needle in hay] holds exactly when [hay] is some text, the needle, and
    some more text. *)
Lemma contains_split needle : forall hay,
  PyStr.contains needle hay = true <-> exists p r, hay = p ++ needle ++ r.
Proof.
  induction hay as [|c hay IH]; cbn [PyStr.contains]; rewrite orb_true_iff.
  - split.
    + intros [H|H]; [|discriminate].
      destruct (prefix_split _ _ H) as [r Hr].
      exists EmptyString, r. exact Hr.
    + intros [p [r H]]. left.
      destruct p; [|discriminate]. cbn [append] in H. rewrite H.
      apply prefix_append.
  - split.
    + intros [H|H].
      * destruct (prefix_split _ _ H) as [r Hr].
        exists EmptyString, r. exact Hr.
      * apply IH in H. destruct H as [p [r ->]].
        exists (String c p), r. reflexivity.
    + intros [[|d p] [r H]].
      * left. cbn [append] in H. rewrite H. apply prefix_append.
      * right. cbn [append] in H. injection H as _ H.
        apply IH. now exists p, r.
Qed.

Lemma lower_append a b : PyStr.lower (a ++ b) = PyStr.lower a ++ PyStr.lower b.
Proof.
  induction a as [|c a IH]; cbn [append PyStr.lower]; [reflexivity|now rewrite IH].
Qed.

Lemma lower_char_idempotent c :
  PyStr.lower_char (PyStr.lower_char c) = PyStr.lower_char c.
Proof. destruct c as [[] [] [] [] [] [] [] []]; reflexivity. Qed.

Lemma lower_idempotent s : PyStr.lower (PyStr.lower s) = PyStr.lower s.
Proof.
  induction s as [|c s IH]; cbn [PyStr.lower]; [reflexivity|].
  now rewrite lower_char_idempotent, IH.
Qed.

Lemma length_lower s : String.length (PyStr.lower s) = String.length s.
Proof. induction s as [|c s IH]; cbn [PyStr.lower String.length]; congruence. Qed.

Lemma append_same_length : forall a a' b b',
  a ++ b = a' ++ b' -> String.length a = String.length a' -> a = a' /\ b = b'.
Proof.
  induction a as [|c a IH]; intros [|c' a'] b b' H Hlen;
    cbn [String.length] in Hlen; try discriminate.
  - now split.
  - cbn [append] in H. injection H as -> H. injection Hlen as Hlen.
    destruct (IH a' b b' H Hlen) as [-> ->]. now split.
Qed.

(** A substring of lower-cased text is itself in lower case. *)
Lemma contains_lower_fixed w s :
  PyStr.contains w (PyStr.lower s) = true -> PyStr.lower w = w.
Proof.
  intros H. apply contains_split in H. destruct H as [p [r H]].
  pose proof (lower_idempotent s) as Hid. rewrite H in Hid.
  rewrite !lower_append in Hid.
  apply append_same_length in Hid; [|apply length_lower].
  destruct Hid as [_ Hid].
  apply append_same_length in Hid; [|apply length_lower].
  now destruct Hid.
Qed.

(** Lower-casing keeps substrings. *)
Lemma contains_lower a s :
  PyStr.contains a s = true ->
  PyStr.contains (PyStr.lower a) (PyStr.lower s) = true.
Proof.
  intros H. apply contains_split in H. destruct H as [p [r ->]].
  apply contains_split. rewrite !lower_append. eauto.
Qed.

Lemma contains_context needle p s r :
  PyStr.contains needle s = true ->
  PyStr.contains needle (p ++ s ++ r) = true.
Proof.
  intros H. apply contains_split in H. destruct H as [p' [r' ->]].
  apply contains_split. exists (p ++ p'), (r' ++ r).
  now rewrite !append_assoc.
Qed.

End Substrings.

(** ** The validators, token by token *)

Section ValidatorsMore.

Lemma network_validate_token_acc drugs symptoms acc tok :
  Network.validate_token drugs symptoms acc tok
  = (acc ++ network_step drugs symptoms tok)%list.
Proof.
  unfold network_step, Network.validate_token.
  destruct (PyStr.any_in drugs (PyStr.lower (text tok))); [reflexivity|].
  destruct (PyStr.any_in symptoms (PyStr.lower (text tok))); [reflexivity|].
  destruct (truthy_str (ent_type_ tok)); [|now rewrite app_nil_r].
  destruct (PrimFloat.leb Network.CONFIDENCE_THRESHOLD 0.85); [reflexivity|now rewrite app_nil_r].
Qed.

Lemma network_validate_flat_map self doc drugs symptoms :
  Network.validate_entities self doc drugs symptoms
  = flat_map (network_step drugs symptoms) doc.
Proof.
  unfold Network.validate_entities.
  change (flat_map (network_step drugs symptoms) doc)
    with ([] ++ flat_map (network_step drugs symptoms) doc)%list.
  generalize (@nil entity) as acc.
  induction doc as [|tok doc IH]; intros acc; cbn [fold_left flat_map].
  - now rewrite app_nil_r.
  - rewrite IH, network_validate_token_acc. now rewrite <- app_assoc.
Qed.

Lemma network_step_cases drugs symptoms tok :
  network_step drugs symptoms tok = []
  \/ exists label confidence,
       network_step drugs symptoms tok
       = [{| e_text := text tok; e_label := label; e_confidence := confidence |}].
Proof.
  unfold network_step, Network.validate_token.
  destruct (PyStr.any_in drugs (PyStr.lower (text tok))); [right; do 2 eexists; reflexivity|].
  destruct (PyStr.any_in symptoms (PyStr.lower (text tok))); [right; do 2 eexists; reflexivity|].
  destruct (truthy_str (ent_type_ tok)); [|now left].
  destruct (PrimFloat.leb Network.CONFIDENCE_THRESHOLD 0.85); [right; do 2 eexists; reflexivity|now left].
Qed.

Lemma subsequence_length {A} (l1 l2 : list A) :
  subsequence l1 l2 -> (List.length l1 <= List.length l2)%nat.
Proof. induction 1; simpl; lia. Qed.

Lemma flat_map_texts (step : token -> list entity) doc :
  (forall tok, step tok = []
               \/ exists label confidence,
                    step tok = [{| e_text := text tok; e_label := label;
                                   e_confidence := confidence |}]) ->
  subsequence (map e_text (flat_map step doc)) (map text doc).
Proof.
  intros Hstep. induction doc as [|tok doc IH]; cbn [flat_map map].
  - constructor.
  - destruct (Hstep tok) as [->|[label [confidence ->]]]; cbn [app map e_text].
    + now constructor.
    + now constructor.
Qed.

Lemma classify_step_cases drugs symptoms thr tok :
  ValidateSpec.classify drugs symptoms thr tok = []
  \/ exists label confidence,
       ValidateSpec.classify drugs symptoms thr tok
       = [{| e_text := text tok; e_label := label; e_confidence := confidence |}].
Proof.
  unfold ValidateSpec.classify, ValidateSpec.mk.
  destruct (ValidateSpec.ci_match drugs (text tok));
    [right; do 2 eexists; reflexivity|].
  destruct (ValidateSpec.ci_match symptoms (text tok));
    [right; do 2 eexists; reflexivity|].
  destruct (truthy_str (ent_type_ tok)); [|now left].
  destruct (PrimFloat.leb thr 0.85); [right; do 2 eexists; reflexivity|now left].
Qed.

(** X1: validation has no state across tokens: validating two documents one
    after the other gives the entities of the first followed by those of
    the second, in both scripts and with any vocabulary. *)
Theorem validation_is_token_local :
  (forall self d1 d2 drugs symptoms,
     Network.validate_entities self (d1 ++ d2) drugs symptoms
     = (Network.validate_entities self d1 drugs symptoms
        ++ Network.validate_entities self d2 drugs symptoms)%list)
  /\ (forall d1 d2 thr w w1 w2,
        exists l1 l2,
          fst (Oracle.validate_nlp_entities d1 thr w1) = Ok l1
          /\ fst (Oracle.validate_nlp_entities d2 thr w2) = Ok l2
          /\ fst (Oracle.validate_nlp_entities (d1 ++ d2) thr w) = Ok (l1 ++ l2)%list).
Proof.
  split.
  - intros self d1 d2 drugs symptoms.
    rewrite !network_validate_flat_map. apply flat_map_app.
  - intros d1 d2 thr w w1 w2. rewrite !oracle_validate_spec.
    do 2 eexists. split; [reflexivity|]. split; [reflexivity|].
    now rewrite flat_map_app.
Qed.

(** X2: an entity keeps the text of its token as it is written; every token
    gives at most one entity and the entities follow the order of the
    tokens, so there are never more entities than tokens. *)
Theorem entity_texts_follow_tokens :
  (forall self doc drugs symptoms,
     let ents := Network.validate_entities self doc drugs symptoms in
     subsequence (map e_text ents) (map text doc)
     /\ (List.length ents <= List.length doc)%nat)
  /\ (forall doc thr w,
        exists ents,
          fst (Oracle.validate_nlp_entities doc thr w) = Ok ents
          /\ subsequence (map e_text ents) (map text doc)
          /\ (List.length ents <= List.length doc)%nat).
Proof.
  split.
  - intros self doc drugs symptoms ents. subst ents.
    rewrite network_validate_flat_map.
    assert (H : subsequence
                  (map e_text (flat_map (network_step drugs symptoms) doc))
                  (map text doc))
      by (apply flat_map_texts, network_step_cases).
    split; [exact H|].
    apply subsequence_length in H. now rewrite !length_map in H.
  - intros doc thr w. rewrite oracle_validate_spec. eexists.
    split; [reflexivity|].
    assert (H : subsequence
                  (map e_text
                     (flat_map (ValidateSpec.classify Oracle.custom_drugs
                                  Oracle.custom_symptoms thr) doc))
                  (map text doc))
      by (apply flat_map_texts, classify_step_cases).
    split; [exact H|].
    apply subsequence_length in H. now rewrite !length_map in H.
Qed.

Lemma is_lowercase_true w : is_lowercase w = true <-> PyStr.lower w = w.
Proof. unfold is_lowercase. apply String.eqb_eq. Qed.

(** A vocabulary entry with a capital letter matches no lower-cased text. *)
Lemma any_in_lowercase_entries vocab token_text :
  PyStr.any_in vocab (PyStr.lower token_text)
  = PyStr.any_in (filter is_lowercase vocab) (PyStr.lower token_text).
Proof.
  unfold PyStr.any_in.
  induction vocab as [|w vocab IH]; cbn [filter existsb]; [reflexivity|].
  destruct (is_lowercase w) eqn:Hw; cbn [existsb]; rewrite IH; [reflexivity|].
  destruct (PyStr.contains w (PyStr.lower token_text)) eqn:Hc; [|reflexivity].
  apply contains_lower_fixed, is_lowercase_true in Hc. congruence.
Qed.

(** X3: the validator lowers the token text but not the vocabulary, so a
    vocabulary entry written with a capital letter never matches: leaving
    such entries out of both vocabularies changes no result. *)
Theorem capitalised_vocabulary_is_dead :
  forall self doc drugs symptoms,
    Network.validate_entities self doc drugs symptoms
    = Network.validate_entities self doc
        (filter is_lowercase drugs) (filter is_lowercase symptoms).
Proof.
  intros self doc drugs symptoms. rewrite !network_validate_flat_map.
  apply flat_map_ext. intros tok.
  unfold network_step, Network.validate_token.
  now rewrite <- !any_in_lowercase_entries.
Qed.

(** With the extractor's test list as vocabulary the token MRI is not a
    vocabulary match: it comes out under the extractor's own label. *)
Example mri_is_not_matched_by_its_capitalised_entry :
  Network.validate_entities SampleNet.oracle_A [SampleVocab.mri]
    SampleVocab.tests []
  = [{| e_text := "MRI"; e_label := "ORG"; e_confidence := 0.85%float |}].
Proof. vm_compute. reflexivity. Qed.

End ValidatorsMore.

(** ** Keyword detection of the extractor *)

Section Detection.

Lemma detect_In keywords doc_text k :
  In k (Extractor.detect keywords doc_text)
  <-> In k keywords
      /\ PyStr.contains (PyStr.lower k) (PyStr.lower doc_text) = true.
Proof. unfold Extractor.detect. now rewrite filter_In. Qed.

Lemma filter_subsequence {A} (p : A -> bool) l : subsequence (filter p l) l.
Proof.
  induction l as [|x l IH]; cbn [filter]; [constructor|].
  destruct (p x); now constructor.
Qed.

(** X4: the extractor's detection ignores letter case on both sides: a
    keyword is reported as soon as the report contains it in any mix of
    capitals and small letters, anywhere, also inside a longer word. *)
Theorem detection_ignores_case :
  forall keywords k occurrence doc_text,
    In k keywords ->
    PyStr.lower occurrence = PyStr.lower k ->
    PyStr.contains occurrence doc_text = true ->
    In k (Extractor.detect keywords doc_text).
Proof.
  intros keywords k occurrence doc_text Hk Hcase Hocc.
  apply detect_In. split; [exact Hk|].
  rewrite <- Hcase. now apply contains_lower.
Qed.

Lemma detection_ignores_case_witness :
  (In "CT" Extractor.custom_tests
   /\ PyStr.lower "ct" = PyStr.lower "CT"
   /\ PyStr.contains "ct" "The doctor prescribed ibuprofen" = true)
  /\ In "CT" (Extractor.detect Extractor.custom_tests
                "The doctor prescribed ibuprofen").
Proof.
  assert (Hk : In "CT" Extractor.custom_tests) by (simpl; tauto).
  assert (Hcase : PyStr.lower "ct" = PyStr.lower "CT") by reflexivity.
  assert (Hocc : PyStr.contains "ct" "The doctor prescribed ibuprofen" = true)
    by reflexivity.
  split; [repeat split; assumption|].
  exact (detection_ignores_case Extractor.custom_tests "CT" "ct"
           "The doctor prescribed ibuprofen" Hk Hcase Hocc).
Defined.

(** X5: the keywords reported are keywords of the list, each at most as
    often as the list has it and in the order of the list, and text added
    before or after a report never removes a detection. *)
Theorem detection_keeps_order_and_grows_with_text :
  forall keywords doc_text before after,
    subsequence (Extractor.detect keywords doc_text) keywords
    /\ incl (Extractor.detect keywords doc_text)
            (Extractor.detect keywords (before ++ doc_text ++ after)).
Proof.
  intros keywords doc_text before after. split.
  - apply filter_subsequence.
  - intros k Hk. apply detect_In in Hk. destruct Hk as [Hk Hc].
    apply detect_In. split; [exact Hk|].
    rewrite !lower_append. now apply contains_context.
Qed.

End Detection.

(** ** One node, and the round of [main] *)

Section Round.

Import Network ConsensusSpec.

(** The run of [process]. *)
Lemma process_run self doc w :
  process self doc w
  = match validate_entities self doc CUSTOM_DRUGS CUSTOM_SYMPTOMS with
    | [] =>
        (Ok None,
         emit w [OracleValidating (node_id self); OracleNoEntities (node_id self)])
    | e :: ents =>
        (Ok (Some (SampleNet.attest self (e :: ents) (clock w (ticks w)))),
         {| clock := clock w; ticks := S (ticks w);
            stdout := (stdout w
                       ++ [OracleValidating (node_id self);
                           OracleOutput (node_id self) (List.length (e :: ents))])%list;
            files := files w; on_chain_data := on_chain_data w |})
    end.
Proof.
  unfold process, try_except, mbind at 1. rewrite print_emit.
  destruct (validate_entities self doc CUSTOM_DRUGS CUSTOM_SYMPTOMS) as [|e ents].
  - unfold mbind. rewrite print_emit, emit_emit. reflexivity.
  - unfold enrich_with_metadata, mbind, now, ret, print, emit, SampleNet.attest.
    cbn [clock ticks stdout files on_chain_data].
    rewrite <- app_assoc. reflexivity.
Qed.

(** X6: a node never raises; it abstains (returns None) exactly when it
    retains no entity, and otherwise returns an attestation that carries its
    identity, the retained entities and the time of the call, whose hash is
    the digest of that data and whose signature is the digest of the hash
    followed by the node's private key. *)
Theorem process_attests_or_abstains :
  forall self doc w,
    let ents := validate_entities self doc CUSTOM_DRUGS CUSTOM_SYMPTOMS in
    (ents = []
     /\ process self doc w
        = (Ok None,
           emit w [OracleValidating (node_id self); OracleNoEntities (node_id self)]))
    \/ (ents <> []
        /\ exists a w',
             process self doc w = (Ok (Some a), w')
             /\ a_node_id a = node_id self
             /\ p_entities (a_data a) = ents
             /\ p_node_id (a_data a) = node_id self
             /\ p_timestamp (a_data a) = clock w (ticks w)
             /\ a_hash a = generate_hash self (py_of_package (a_data a))
             /\ a_signature a = Sha256.hexdigest (a_hash a ++ private_key self)
             /\ ticks w' = S (ticks w)).
Proof.
  intros self doc w ents. subst ents. rewrite process_run.
  destruct (validate_entities self doc CUSTOM_DRUGS CUSTOM_SYMPTOMS) as [|e ents].
  - left. split; reflexivity.
  - right. split; [discriminate|].
    do 2 eexists. split; [reflexivity|].
    repeat (split; [reflexivity|]). reflexivity.
Qed.

Lemma validate_entities_any_node self self' doc drugs symptoms :
  validate_entities self doc drugs symptoms
  = validate_entities self' doc drugs symptoms.
Proof. reflexivity. Qed.

(** The three nodes of [main] over a document that gives no entity. *)
Lemma run_oracles_abstain doc w :
  validate_entities SampleNet.oracle_A doc CUSTOM_DRUGS CUSTOM_SYMPTOMS = [] ->
  run_oracles doc w
  = (Ok [None; None; None],
     emit w [OracleValidating "Oracle_A"; OracleNoEntities "Oracle_A";
             OracleValidating "Oracle_B"; OracleNoEntities "Oracle_B";
             OracleValidating "Oracle_C"; OracleNoEntities "Oracle_C"]).
Proof.
  intros Hnone. unfold run_oracles, oracles. cbn [for_].
  unfold mbind. rewrite !process_run.
  rewrite !(validate_entities_any_node _ SampleNet.oracle_A), Hnone.
  cbn [node_id]. unfold ret. rewrite !process_run.
  rewrite !(validate_entities_any_node _ SampleNet.oracle_A), Hnone.
  cbn [node_id]. rewrite !process_run.
  rewrite !(validate_entities_any_node _ SampleNet.oracle_A), Hnone.
  cbn [node_id app]. rewrite !emit_emit. reflexivity.
Qed.

(** The three nodes of [main] over a document that gives entities. *)
Lemma run_oracles_attest doc w e ents :
  validate_entities SampleNet.oracle_A doc CUSTOM_DRUGS CUSTOM_SYMPTOMS = e :: ents ->
  run_oracles doc w
  = (Ok [Some (SampleNet.attest SampleNet.oracle_A (e :: ents) (clock w (ticks w)));
         Some (SampleNet.attest SampleNet.oracle_B (e :: ents)
                 (clock w (S (ticks w))));
         Some (SampleNet.attest SampleNet.oracle_C (e :: ents)
                 (clock w (S (S (ticks w)))))],
     {| clock := clock w; ticks := S (S (S (ticks w)));
        stdout := (stdout w
                   ++ [OracleValidating "Oracle_A";
                       OracleOutput "Oracle_A" (List.length (e :: ents));
                       OracleValidating "Oracle_B";
                       OracleOutput "Oracle_B" (List.length (e :: ents));
                       OracleValidating "Oracle_C";
                       OracleOutput "Oracle_C" (List.length (e :: ents))])%list;
        files := files w; on_chain_data := on_chain_data w |}).
Proof.
  intros Hents. unfold run_oracles, oracles. cbn [for_].
  unfold mbind. rewrite !process_run.
  rewrite !(validate_entities_any_node _ SampleNet.oracle_A), Hents.
  unfold ret. rewrite !process_run.
  rewrite !(validate_entities_any_node _ SampleNet.oracle_A), Hents.
  rewrite !process_run.
  rewrite !(validate_entities_any_node _ SampleNet.oracle_A), Hents.
  cbn [clock ticks stdout files on_chain_data app node_id].
  rewrite <- !app_assoc. reflexivity.
Qed.

(** The run of [settle] after a successful consensus. *)
Lemma settle_after_success input_text l w first rest :
  not_none l = first :: rest ->
  2 <= Z.of_nat (List.length (not_none l)) ->
  let final_data := py_of_package (a_data first) in
  let final_hash := Sha256.hexdigest (Json.dumps (PDict final_data)) in
  let record := PyDict.set final_data "final_hash" (PStr final_hash) in
  settle input_text l w
  = (Ok record,
     {| clock := clock w; ticks := ticks w;
        stdout := (stdout w
                   ++ [ConsensusRunning 2;
                       ConsensusAchieved (List.length (not_none l));
                       ApprovedByConsensus; FinalDataSaved final_hash])%list;
        files := ("validated_data_for_blockchain.json", record) :: files w;
        on_chain_data := on_chain_data w |}).
Proof.
  intros Hnn Hlen final_data final_hash record.
  unfold settle, mbind at 1.
  rewrite (consensus_success l 2 w first rest Hnn Hlen).
  unfold mbind, print, ret, json_dump_file, emit.
  cbn [clock ticks stdout files on_chain_data final_package].
  rewrite <- !app_assoc. reflexivity.
Qed.

(** X21: what [main] hands to the consensus is always three responses that
    nodes can produce: each is either null or carries a non-empty entity
    list, and the three are all null or all non-null.  No node raises or
    reports a failure, and nothing is written while the nodes run. *)
Theorem oracle_round_is_process_shaped :
  forall doc w,
    exists l w',
      run_oracles doc w = (Ok l, w')
      /\ List.length l = 3%nat
      /\ process_shaped l
      /\ (not_none l = [] \/ List.length (not_none l) = 3%nat)
      /\ files w' = files w
      /\ on_chain_data w' = on_chain_data w.
Proof.
  intros doc w.
  destruct (validate_entities SampleNet.oracle_A doc CUSTOM_DRUGS CUSTOM_SYMPTOMS)
    as [|e ents] eqn:Hents.
  - rewrite (run_oracles_abstain doc w Hents). do 2 eexists.
    split; [reflexivity|]. split; [reflexivity|].
    split; [repeat constructor|]. split; [now left|]. split; reflexivity.
  - rewrite (run_oracles_attest doc w e ents Hents). do 2 eexists.
    split; [reflexivity|]. split; [reflexivity|].
    split; [repeat constructor|]. split; [now right|]. split; reflexivity.
Qed.

(** X7: a round of [main] never raises and is always unanimous, since the
    three nodes run the same validator over the same tokens.  When the
    validator retains no entity every node abstains and the record written
    and returned is the arbitration's fixed record, with nothing displayed
    as discrepancy; otherwise all three nodes attest, the consensus counts
    three responses, and the record is the first node's package with its
    digest added.  Either way one file is written, holding the returned
    record, and exactly one of approval and arbitration happens. *)
Theorem main_round_is_unanimous :
  forall text doc w,
    let ents := validate_entities SampleNet.oracle_A doc CUSTOM_DRUGS CUSTOM_SYMPTOMS in
    exists record w' evs,
      main text doc w = (Ok record, w')
      /\ files w' = ("validated_data_for_blockchain.json", record) :: files w
      /\ stdout w' = (stdout w ++ evs)%list
      /\ (count_events is_approval evs + count_events is_hitl_call evs = 1)%nat
      /\ ((ents = []
           /\ record = arbitrated_record (clock w (ticks w))
           /\ ticks w' = S (ticks w)
           /\ count_events is_hitl_call evs = 1%nat
           /\ count_events is_discrepancy evs = 0%nat)
          \/ (ents <> []
              /\ record
                 = PyDict.set
                     (py_of_package (first_node_package ents (clock w (ticks w))))
                     "final_hash"
                     (PStr (Sha256.hexdigest
                              (Json.dumps
                                 (PDict (py_of_package
                                           (first_node_package ents
                                              (clock w (ticks w))))))))
              /\ ticks w' = S (S (S (ticks w)))
              /\ count_events is_approval evs = 1%nat
              /\ In (ConsensusAchieved 3) evs)).
Proof.
  intros text doc w ents. subst ents. unfold main, mbind at 1.
  destruct (validate_entities SampleNet.oracle_A doc CUSTOM_DRUGS CUSTOM_SYMPTOMS)
    as [|e ents] eqn:Hents.
  - rewrite (run_oracles_abstain doc w Hents).
    destruct (settle_after_failure text [None; None; None]
                (emit w [OracleValidating "Oracle_A"; OracleNoEntities "Oracle_A";
                         OracleValidating "Oracle_B"; OracleNoEntities "Oracle_B";
                         OracleValidating "Oracle_C"; OracleNoEntities "Oracle_C"]))
      as [line [Hline Hrun]]; [cbn; lia|].
    rewrite Hrun. cbn [clock ticks stdout files on_chain_data emit discrepancies
                       flat_map app].
    do 3 eexists. split; [reflexivity|]. cbn [files stdout ticks].
    split; [reflexivity|].
    split; [rewrite <- app_assoc; reflexivity|].
    destruct Hline as [-> | ->].
    + split; [reflexivity|]. left. repeat (split; [reflexivity|]). reflexivity.
    + split; [reflexivity|]. left. repeat (split; [reflexivity|]). reflexivity.
  - rewrite (run_oracles_attest doc w e ents Hents).
    erewrite settle_after_success;
      [|cbn [not_none]; reflexivity|cbn [not_none List.length]; lia].
    cbn [clock ticks stdout files on_chain_data not_none List.length
         SampleNet.attest a_data].
    do 3 eexists. split; [reflexivity|]. cbn [files stdout ticks].
    split; [reflexivity|].
    split; [rewrite <- app_assoc; reflexivity|].
    split; [reflexivity|]. right.
    split; [discriminate|]. split; [reflexivity|]. split; [reflexivity|].
    split; [reflexivity|].
    cbn [app In]. do 7 right. left. reflexivity.
Qed.

(** The run of [consensus_mechanism], by its two tests. *)
Lemma consensus_run l thr w :
  consensus_mechanism l thr w
  = if Z.of_nat (List.length l) <? thr
    then (Ok None, emit w [ConsensusRunning thr; NotEnoughResponses])
    else if thr <=? Z.of_nat (List.length (not_none l))
    then match not_none l with
         | [] => (Raise IndexError,
                  emit w [ConsensusRunning thr; ConsensusAchieved 0])
         | first :: _ =>
             (Ok (Some {| consensus := "success";
                          final_package := a_data first;
                          aggregated_hashes := map a_hash (not_none l);
                          signatures := map a_signature (not_none l) |}),
              emit w [ConsensusRunning thr;
                      ConsensusAchieved (List.length (not_none l))])
         end
    else (Ok None, emit w [ConsensusRunning thr; ConsensusFailed]).
Proof.
  unfold consensus_mechanism, mbind. rewrite print_emit.
  destruct (Z.of_nat (List.length l) <? thr).
  - now rewrite print_emit, emit_emit.
  - destruct (thr <=? Z.of_nat (List.length (not_none l))).
    + rewrite print_emit, emit_emit.
      destruct (not_none l); reflexivity.
    + now rewrite print_emit, emit_emit.
Qed.

(** X8: the outcome of [consensus_mechanism] is settled by the number [n] of
    non-null responses alone.  It raises IndexError exactly when the
    threshold is reached with no response at all (a threshold of 0 or less:
    the success branch reads the first of an empty list); it returns None
    exactly when [n] is below the threshold; it returns a result exactly
    when [n] is positive and reaches the threshold.  In every case it only
    prints. *)
Theorem consensus_outcome_by_count :
  forall l thr w,
    let n := Z.of_nat (List.length (not_none l)) in
    (fst (consensus_mechanism l thr w) = Raise IndexError <-> thr <= n /\ n = 0)
    /\ (fst (consensus_mechanism l thr w) = Ok None <-> n < thr)
    /\ ((exists c, fst (consensus_mechanism l thr w) = Ok (Some c))
        <-> thr <= n /\ 0 < n)
    /\ exists evs, snd (consensus_mechanism l thr w) = emit w evs.
Proof.
  intros l thr w n. subst n. rewrite consensus_run.
  pose proof (length_not_none l) as Hlen.
  destruct (Z.ltb_spec (Z.of_nat (List.length l)) thr) as [Hfew|Hmany].
  - cbn [fst snd]. split; [split; [discriminate|lia]|].
    split; [split; [lia|reflexivity]|].
    split; [split; [intros [c Hc]; discriminate|lia]|].
    eexists; reflexivity.
  - destruct (Z.leb_spec thr (Z.of_nat (List.length (not_none l)))) as [Hreach|Hshort].
    + destruct (not_none l) as [|first rest]; cbn [fst snd List.length] in *.
      * split; [split; [lia|reflexivity]|].
        split; [split; [discriminate|lia]|].
        split; [split; [intros [c Hc]; discriminate|lia]|].
        eexists; reflexivity.
      * split; [split; [discriminate|lia]|].
        split; [split; [discriminate|lia]|].
        split; [split; [lia|intros _; eexists; reflexivity]|].
        eexists; reflexivity.
    + cbn [fst snd]. split; [split; [discriminate|lia]|].
      split; [split; [lia|reflexivity]|].
      split; [split; [intros [c Hc]; discriminate|lia]|].
      eexists; reflexivity.
Qed.

Lemma not_none_data (l l' : list (option attestation)) :
  map (option_map a_data) l = map (option_map a_data) l' ->
  map a_data (not_none l) = map a_data (not_none l').
Proof.
  revert l'. induction l as [|[a|] l IH]; intros [|[a'|] l'] H;
    cbn [map option_map not_none] in *; try discriminate; try reflexivity.
  - injection H as Ha Hl. now rewrite Ha, (IH l' Hl).
  - injection H as Hl. now apply IH.
Qed.

(** X9: [consensus_mechanism] never checks a hash or a signature, it only
    copies them into its result: two rounds whose responses carry the same
    data, null for null, get the same verdict, the same final package and
    the same console lines, whatever hashes and signatures they carry. *)
Theorem consensus_never_checks_signatures :
  forall l l' thr w,
    map (option_map a_data) l = map (option_map a_data) l' ->
    verdict (fst (consensus_mechanism l thr w))
    = verdict (fst (consensus_mechanism l' thr w))
    /\ snd (consensus_mechanism l thr w) = snd (consensus_mechanism l' thr w).
Proof.
  intros l l' thr w Hdata. rewrite !consensus_run.
  assert (Hlen : List.length l = List.length l').
  { rewrite <- (length_map (option_map a_data) l), Hdata. apply length_map. }
  pose proof (not_none_data l l' Hdata) as Hnn.
  assert (Hlen' : List.length (not_none l) = List.length (not_none l')).
  { rewrite <- (length_map a_data (not_none l)), Hnn. apply length_map. }
  rewrite Hlen, Hlen'.
  destruct (Z.of_nat (List.length l') <? thr); [split; reflexivity|].
  destruct (thr <=? Z.of_nat (List.length (not_none l'))); [|split; reflexivity].
  destruct (not_none l) as [|a r], (not_none l') as [|a' r'];
    try discriminate; [split; reflexivity|].
  cbn [map] in Hnn. injection Hnn as Ha _.
  cbn [fst snd verdict final_package]. rewrite Ha. split; reflexivity.
Qed.

Lemma consensus_never_checks_signatures_witness :
  map (option_map a_data) SampleNet.round_two_valid
  = map (option_map a_data) SampleExtra.forged_round
  /\ verdict (fst (consensus_mechanism SampleNet.round_two_valid 2 Sample.world0))
     = verdict (fst (consensus_mechanism SampleExtra.forged_round 2 Sample.world0)).
Proof.
  assert (Hdata : map (option_map a_data) SampleNet.round_two_valid
                  = map (option_map a_data) SampleExtra.forged_round)
    by reflexivity.
  split; [exact Hdata|].
  exact (proj1 (consensus_never_checks_signatures
                  SampleNet.round_two_valid SampleExtra.forged_round 2
                  Sample.world0 Hdata)).
Defined.

Lemma discrepancies_lines l : discrepancies l = map discrepancy_line (not_none l).
Proof.
  unfold discrepancies.
  induction l as [|[o|] l IH]; cbn [flat_map not_none map app];
    [reflexivity| |exact IH].
  now rewrite IH.
Qed.

(** X10: the arbitration never raises and never reads its arguments to build
    its answer: whatever the report text and the responses, it returns the
    same four entities, reason and validator, with the time of the call.
    The arguments only reach the console: the text once, then one line per
    non-null response, in order.  No file is written. *)
Theorem arbitration_record_is_fixed :
  forall input_text l w,
    trigger_human_in_the_loop input_text l w
    = (Ok (corrected_record (clock w (ticks w))),
       {| clock := clock w; ticks := S (ticks w);
          stdout := (stdout w
                     ++ [HitlTriggered input_text]
                     ++ map discrepancy_line (not_none l)
                     ++ [HitlCorrectionApplied])%list;
          files := files w; on_chain_data := on_chain_data w |}).
Proof.
  intros input_text l w.
  unfold trigger_human_in_the_loop, mbind at 1 2 3.
  rewrite print_emit, hitl_display, discrepancies_lines.
  unfold mbind, now, print, ret, emit.
  cbn [clock ticks stdout files on_chain_data].
  rewrite <- !app_assoc. reflexivity.
Qed.

End Round.

(** ** The single oracle: [validate_nlp_entities] and [main] *)

Section OraclePipeline.

Import ValidateSpec.

Lemma oracle_validate_token_run thr acc tok w :
  Oracle.validate_token thr acc tok w
  = (Ok (acc ++ classify Oracle.custom_drugs Oracle.custom_symptoms thr tok)%list,
     emit w (map report_line
               (classify Oracle.custom_drugs Oracle.custom_symptoms thr tok))).
Proof.
  unfold Oracle.validate_token, classify.
  rewrite !any_in_ci_match
    by (apply lowercase_oracle_drugs || apply lowercase_oracle_symptoms).
  destruct (ci_match Oracle.custom_drugs (text tok)); [reflexivity|].
  destruct (ci_match Oracle.custom_symptoms (text tok)); [reflexivity|].
  destruct (truthy_str (ent_type_ tok)).
  - destruct (PrimFloat.leb thr 0.85); [reflexivity|].
    cbn [map]. now rewrite app_nil_r, emit_nil.
  - cbn [map]. now rewrite app_nil_r, emit_nil.
Qed.

Lemma oracle_validate_loop_run thr doc : forall acc w,
  for_ doc (Oracle.validate_token thr) acc w
  = (Ok (acc ++ flat_map (classify Oracle.custom_drugs Oracle.custom_symptoms thr) doc)%list,
     emit w (map report_line
               (flat_map (classify Oracle.custom_drugs Oracle.custom_symptoms thr) doc))).
Proof.
  induction doc as [|tok doc IH]; intros acc w; cbn [for_ flat_map map].
  - unfold ret. now rewrite app_nil_r, emit_nil.
  - unfold mbind at 1. rewrite oracle_validate_token_run, IH.
    now rewrite <- app_assoc, emit_emit, map_app.
Qed.

Lemma oracle_validate_run doc thr w :
  Oracle.validate_nlp_entities doc thr w
  = (Ok (flat_map (classify Oracle.custom_drugs Oracle.custom_symptoms thr) doc),
     emit w (ValidationStarted
               :: map report_line
                    (flat_map (classify Oracle.custom_drugs Oracle.custom_symptoms thr)
                       doc))).
Proof.
  unfold Oracle.validate_nlp_entities, mbind at 1.
  rewrite print_emit, oracle_validate_loop_run, emit_emit. reflexivity.
Qed.

(** X11: the console listing of [validate_nlp_entities] is the list it
    returns: after the start line it prints one line per retained entity, in
    order, with that entity's text, label and confidence, and nothing for a
    token it drops; it raises nothing and touches nothing but the console. *)
Theorem oracle_reports_what_it_returns :
  forall doc thr w,
    exists ents,
      Oracle.validate_nlp_entities doc thr w
      = (Ok ents, emit w (ValidationStarted :: map report_line ents)).
Proof.
  intros doc thr w. eexists. apply oracle_validate_run.
Qed.

(** The run of the oracle's [main]. *)
Lemma oracle_main_run doc w :
  Oracle.main doc w
  = match flat_map (classify Oracle.custom_drugs Oracle.custom_symptoms
                      Oracle.default_confidence_threshold) doc with
    | [] => (Ok None, emit w [ValidationStarted])
    | e :: ents =>
        let record :=
          PyDict.set (oracle_package (e :: ents) (clock w (ticks w))) "hash"
            (PStr (Sha256.hexdigest
                     (Json.dumps
                        (PDict (oracle_package (e :: ents) (clock w (ticks w))))))) in
        (Ok (Some record),
         {| clock := clock w; ticks := S (ticks w);
            stdout := (stdout w
                       ++ ValidationStarted :: map report_line (e :: ents))%list;
            files := ("data_for_blockchain.json", record) :: files w;
            on_chain_data := on_chain_data w |})
    end.
Proof.
  unfold Oracle.main, mbind at 1. rewrite oracle_validate_run.
  destruct (flat_map _ doc) as [|e ents]; [reflexivity|].
  reflexivity.
Qed.

(** X12: once the language model is loaded and the report tokenised, the
    rest of the oracle's [main] raises nothing.  When the validation
    retains no entity it stops there: no file is written and the clock is
    not read.  Otherwise it reads the clock once and writes one file, whose
    record holds the retained entities under "raw_entities", the time of
    the call, the fixed metadata, and under "hash" the digest of the record
    as it was before that field was added. *)
Theorem oracle_main_saves_unless_empty :
  forall doc w,
    let ents := flat_map (classify Oracle.custom_drugs Oracle.custom_symptoms
                            Oracle.default_confidence_threshold) doc in
    (ents = []
     /\ fst (Oracle.main doc w) = Ok None
     /\ files (snd (Oracle.main doc w)) = files w
     /\ ticks (snd (Oracle.main doc w)) = ticks w)
    \/ (ents <> []
        /\ exists record,
             fst (Oracle.main doc w) = Ok (Some record)
             /\ files (snd (Oracle.main doc w))
                = ("data_for_blockchain.json", record) :: files w
             /\ ticks (snd (Oracle.main doc w)) = S (ticks w)
             /\ record
                = (oracle_package ents (clock w (ticks w))
                   ++ [("hash",
                        PStr (Sha256.hexdigest
                                (Json.dumps
                                   (PDict (oracle_package ents
                                             (clock w (ticks w)))))))])%list).
Proof.
  intros doc w ents. subst ents. rewrite oracle_main_run.
  destruct (flat_map _ doc) as [|e ents].
  - left. repeat split.
  - right. split; [discriminate|].
    eexists. split; [reflexivity|]. split; [reflexivity|].
    split; reflexivity.
Qed.

(** X13: the nodes of the network retain exactly what the single oracle
    retains at its default threshold: the two scripts hold the same
    vocabularies and the same threshold, so on every document every node's
    entity list is the oracle's. *)
Theorem network_nodes_retain_what_the_oracle_retains :
  forall self doc w,
    fst (Oracle.validate_nlp_entities doc Oracle.default_confidence_threshold w)
    = Ok (Network.validate_entities self doc
            Network.CUSTOM_DRUGS Network.CUSTOM_SYMPTOMS).
Proof.
  intros self doc w. rewrite oracle_validate_run. cbn [fst].
  rewrite network_validate_spec
    by (apply lowercase_network_drugs || apply lowercase_network_symptoms).
  reflexivity.
Qed.

End OraclePipeline.

(** ** The contract: error paths and what it leaves alone *)

Section ContractEdges.

Import Contract.

Lemma business_logic_without_field data w :
  lacks_valid_entities data ->
  apply_business_logic data w = (Raise (subscript_error data), emit w [Analyzing]).
Proof.
  intros Hlack. unfold apply_business_logic, mbind at 1. rewrite print_emit.
  destruct data; try reflexivity.
  cbn [lacks_valid_entities] in Hlack.
  unfold mbind, lift, subscript, PyDict.getitem. rewrite Hlack. reflexivity.
Qed.

(** X14: the contract reads the entities under "valid_entities" and nowhere
    else.  A record that passes the integrity gate but is a dict without
    that key makes [execute_smart_contract] raise KeyError, and a record
    that is no dict makes it raise TypeError, in both cases after the match
    is printed and the analysis announced, and before any rule is
    evaluated. *)
Theorem contract_needs_valid_entities :
  forall data w,
    lacks_valid_entities data ->
    let h := Sha256.hexdigest (Json.dumps data) in
    execute_smart_contract data h w
    = (Raise (subscript_error data),
       emit w [ExecutionStarted; OffChainHash h; OnChainHash h; HashMatch;
               Analyzing]).
Proof.
  intros data w Hlack h. subst h.
  rewrite execute_after_match, (business_logic_without_field _ _ Hlack).
  now rewrite emit_emit.
Qed.

Lemma contract_needs_valid_entities_witness :
  lacks_valid_entities (PDict Persisted.approved_record)
  /\ execute_smart_contract (PDict Persisted.approved_record)
       (Sha256.hexdigest (Json.dumps (PDict Persisted.approved_record)))
       Sample.world0
     = (Raise (KeyError "valid_entities"),
        emit Sample.world0
          [ExecutionStarted;
           OffChainHash (Sha256.hexdigest (Json.dumps (PDict Persisted.approved_record)));
           OnChainHash (Sha256.hexdigest (Json.dumps (PDict Persisted.approved_record)));
           HashMatch; Analyzing]).
Proof.
  assert (Hlack : lacks_valid_entities (PDict Persisted.approved_record))
    by reflexivity.
  split; [exact Hlack|].
  exact (contract_needs_valid_entities (PDict Persisted.approved_record)
           Sample.world0 Hlack).
Defined.

(** No record the two pipelines persist has the key the contract reads. *)
Lemma network_record_lacks_field input_text doc w persisted :
  fst (Network.main input_text doc w) = Ok persisted ->
  PyDict.get persisted "valid_entities" = None.
Proof.
  unfold Network.main, mbind at 1.
  destruct (Network.run_oracles doc w) as [[l|e] w1]; [|cbn [fst]; discriminate].
  unfold Network.settle, mbind at 1.
  destruct (Network.consensus_mechanism l 2 w1) as [[[c|]|e] w2].
  - unfold mbind, print, ret, json_dump_file. cbn [fst]. intros H.
    injection H as <-. reflexivity.
  - unfold Network.trigger_human_in_the_loop, mbind at 1 2 3.
    rewrite print_emit, hitl_display.
    unfold mbind, now, print, ret, json_dump_file. cbn [fst]. intros H.
    injection H as <-. reflexivity.
  - cbn [fst]. discriminate.
Qed.

Lemma oracle_record_lacks_field doc w persisted :
  fst (Oracle.main doc w) = Ok (Some persisted) ->
  PyDict.get persisted "valid_entities" = None.
Proof.
  rewrite oracle_main_run.
  destruct (flat_map _ doc) as [|e ents]; cbn [fst]; [discriminate|].
  intros H. injection H as <-. reflexivity.
Qed.

(** X15: the pipelines and the contract do not fit together.  Whatever
    record [main] of the network script or of the oracle script persists,
    committing it with [store_on_chain] and executing the contract on it
    with the committed digest passes the integrity gate and then raises
    KeyError "valid_entities": the pipelines file their entities under
    "entities" and "raw_entities". *)
Theorem pipeline_records_fail_in_contract :
  forall key persisted w,
    Persisted.pipeline_record key persisted ->
    let run := (do stored_hash <- store_on_chain (PDict persisted);
                execute_smart_contract (PDict persisted) stored_hash) w in
    fst run = Raise (KeyError "valid_entities")
    /\ In HashMatch (stdout (snd run))
    /\ count_events is_analysis (skipn (List.length (stdout w)) (stdout (snd run)))
       = 1%nat.
Proof.
  intros key persisted w Hrec run.
  assert (Hlack : lacks_valid_entities (PDict persisted)).
  { destruct Hrec as [input_text doc w0 persisted H|doc w0 persisted H].
    - exact (network_record_lacks_field _ _ _ _ H).
    - exact (oracle_record_lacks_field _ _ _ H). }
  assert (Hrun : exists d,
             run = (Raise (KeyError "valid_entities"),
                    {| clock := clock w; ticks := S (ticks w);
                       stdout :=
                         (stdout w
                          ++ [StoredOnChain d; ExecutionStarted;
                              OffChainHash
                                (Sha256.hexdigest (Json.dumps (PDict persisted)));
                              OnChainHash
                                (Sha256.hexdigest (Json.dumps (PDict persisted)));
                              HashMatch; Analyzing])%list;
                       files := files w; on_chain_data := d |})).
  { subst run. unfold mbind at 1. rewrite store_on_chain_run.
    rewrite execute_after_match, (business_logic_without_field _ _ Hlack).
    rewrite emit_emit. unfold emit.
    cbn [subscript_error stdout clock ticks files on_chain_data].
    rewrite <- app_assoc. eexists. reflexivity. }
  destruct Hrun as [d ->]. cbn [fst snd stdout].
  split; [reflexivity|].
  split.
  - apply in_or_app. right. cbn [In]. tauto.
  - rewrite skipn_app, skipn_all, Nat.sub_diag. reflexivity.
Qed.

Lemma pipeline_records_fail_in_contract_witness :
  Persisted.pipeline_record "final_hash" Persisted.approved_record
  /\ fst ((do stored_hash <- store_on_chain (PDict Persisted.approved_record);
           execute_smart_contract (PDict Persisted.approved_record) stored_hash)
            Sample.world0)
     = Raise (KeyError "valid_entities").
Proof.
  split; [exact sample_pipeline_record|].
  exact (proj1 (pipeline_records_fail_in_contract "final_hash"
                  Persisted.approved_record Sample.world0 sample_pipeline_record)).
Defined.

Lemma business_logic_stateless data :
  exists r evs, forall w, apply_business_logic data w = (r, emit w evs).
Proof.
  unfold apply_business_logic.
  destruct (bind (subscript data "valid_entities")
              (fun v => bind (iterate v) (texts_with_label "DRUG")))
    as [drugs|e] eqn:Hd.
  - destruct (bind (subscript data "valid_entities")
                (fun v => bind (iterate v) (texts_with_label "SYMPTOM")))
      as [symptoms|e] eqn:Hs.
    + destruct (any_of headache_keywords symptoms && any_of drug_keywords drugs)
        eqn:Hrule.
      * do 2 eexists. intros w. unfold mbind, lift. rewrite print_emit, Hrule.
        rewrite !print_emit, !emit_emit. reflexivity.
      * do 2 eexists. intros w. unfold mbind, lift. rewrite print_emit, Hrule.
        rewrite !print_emit, !emit_emit. reflexivity.
    + do 2 eexists. intros w. unfold mbind, lift. rewrite print_emit. reflexivity.
  - do 2 eexists. intros w. unfold mbind, lift. rewrite print_emit. reflexivity.
Qed.

(** X16: executing the contract neither reads nor writes the state: its
    result and the lines it prints are the same in every state, errors
    included, and it leaves the on-chain store, the files and the clock as
    they were.  The digest it checks against is the one it is passed, not
    the one held in [on_chain_data]; and since nothing is recorded, running
    it again on the same arguments gives the same answer again. *)
Theorem contract_execution_is_stateless :
  forall data stored,
    exists r evs,
      forall w, execute_smart_contract data stored w = (r, emit w evs).
Proof.
  intros data stored.
  destruct (String.eqb (Sha256.hexdigest (Json.dumps data)) stored) eqn:Heq.
  - destruct (business_logic_stateless data) as [r [evs Hrun]].
    exists r. eexists. intros w.
    unfold execute_smart_contract, mbind. rewrite print_emit, verify_hash_run.
    rewrite Heq. cbn [negb]. rewrite Hrun, !emit_emit. reflexivity.
  - do 2 eexists. intros w.
    unfold execute_smart_contract, mbind. rewrite print_emit, verify_hash_run.
    rewrite Heq. cbn [negb]. rewrite print_emit, !emit_emit. reflexivity.
Qed.

Lemma rule_inputs_by_text_and_label label : forall ents ents',
  map text_and_label ents = map text_and_label ents' ->
  map (fun e => PyStr.lower (e_text e))
      (filter (fun e => String.eqb (e_label e) label) ents)
  = map (fun e => PyStr.lower (e_text e))
        (filter (fun e => String.eqb (e_label e) label) ents').
Proof.
  induction ents as [|e ents IH]; intros [|e' ents'] H;
    cbn [map] in H; try discriminate; [reflexivity|].
  injection H as Htext Hlabel Hrest. cbn [filter]. rewrite Hlabel.
  destruct (String.eqb (e_label e') label); cbn [map];
    rewrite ?Htext, (IH ents' Hrest); reflexivity.
Qed.

(** X17: the contract's decision rests on the text and the label of the
    entities alone.  Two records whose entity lists agree on texts and
    labels, each executed against its own digest, get the same result and
    the same report, whatever confidences the entities carry and whatever
    else the records hold. *)
Theorem contract_decides_on_text_and_label :
  forall d d' ents ents' w,
    PyDict.get d "valid_entities" = Some (PList (map py_of_entity ents)) ->
    PyDict.get d' "valid_entities" = Some (PList (map py_of_entity ents')) ->
    map text_and_label ents = map text_and_label ents' ->
    fst (execute_smart_contract (PDict d)
           (Sha256.hexdigest (Json.dumps (PDict d))) w)
    = fst (execute_smart_contract (PDict d')
             (Sha256.hexdigest (Json.dumps (PDict d'))) w)
    /\ apply_business_logic (PDict d) w = apply_business_logic (PDict d') w.
Proof.
  intros d d' ents ents' w Hget Hget' Hsame.
  rewrite !execute_after_match.
  rewrite !(business_logic_run d ents _ Hget), !(business_logic_run d' ents' _ Hget').
  rewrite !(rule_inputs_by_text_and_label _ ents ents' Hsame).
  split; [|reflexivity].
  destruct (any_of headache_keywords _ && any_of drug_keywords _); reflexivity.
Qed.

Lemma contract_decides_on_text_and_label_witness :
  (PyDict.get SampleContract.fields "valid_entities"
   = Some (PList (map py_of_entity SampleContract.entities))
   /\ PyDict.get SampleExtra.unsure_fields "valid_entities"
      = Some (PList (map py_of_entity SampleExtra.unsure_entities))
   /\ map text_and_label SampleContract.entities
      = map text_and_label SampleExtra.unsure_entities)
  /\ apply_business_logic (PDict SampleContract.fields) Sample.world0
     = apply_business_logic (PDict SampleExtra.unsure_fields) Sample.world0.
Proof.
  assert (Hget : PyDict.get SampleContract.fields "valid_entities"
                 = Some (PList (map py_of_entity SampleContract.entities)))
    by reflexivity.
  assert (Hget' : PyDict.get SampleExtra.unsure_fields "valid_entities"
                  = Some (PList (map py_of_entity SampleExtra.unsure_entities)))
    by reflexivity.
  assert (Hsame : map text_and_label SampleContract.entities
                  = map text_and_label SampleExtra.unsure_entities)
    by reflexivity.
  split; [repeat split; assumption|].
  exact (proj2 (contract_decides_on_text_and_label
                  SampleContract.fields SampleExtra.unsure_fields
                  SampleContract.entities SampleExtra.unsure_entities
                  Sample.world0 Hget Hget' Hsame)).
Defined.

Lemma hex_digit_is_hex m :
  0 <= m < 16 -> existsb (Ascii.eqb (Json.hex_digit m)) hex_chars = true.
Proof.
  intros Hm.
  assert (H : m = 0 \/ m = 1 \/ m = 2 \/ m = 3 \/ m = 4 \/ m = 5 \/ m = 6
              \/ m = 7 \/ m = 8 \/ m = 9 \/ m = 10 \/ m = 11 \/ m = 12
              \/ m = 13 \/ m = 14 \/ m = 15) by lia.
  repeat (destruct H as [-> | H]; [reflexivity|]). subst m. reflexivity.
Qed.

Lemma hex_is_hex n x :
  String.length (Sha256.hex n x) = n
  /\ forallb (fun c => existsb (Ascii.eqb c) hex_chars)
       (list_ascii_of_string (Sha256.hex n x)) = true.
Proof.
  induction n as [|n [IHlen IHall]]; [split; reflexivity|].
  cbn [Sha256.hex String.length list_ascii_of_string forallb].
  split; [now rewrite IHlen|].
  rewrite IHall, hex_digit_is_hex; [reflexivity|].
  apply Z.mod_pos_bound. lia.
Qed.

Lemma hexdigest_is_hex s : is_hex_digest (Sha256.hexdigest s) = true.
Proof.
  unfold is_hex_digest, Sha256.hexdigest.
  destruct (hex_is_hex 64 (Sha256.digest (Sha256.utf8 s))) as [Hlen Hall].
  rewrite Hlen, Hall. reflexivity.
Qed.

(** X18: every digest the scripts produce is a string of 64 lower-case
    hexadecimal digits, whatever is hashed: the package digests of both
    pipelines, a node's signature, and the digest [store_on_chain] returns
    and stores. *)
Theorem digests_are_64_hex_digits :
  forall self data h record w,
    is_hex_digest (Network.generate_hash self data) = true
    /\ is_hex_digest (Network.sign_hash self h) = true
    /\ is_hex_digest (Oracle.generate_hash data) = true
    /\ exists stored,
         fst (store_on_chain record w) = Ok stored
         /\ PyDict.get (on_chain_data (snd (store_on_chain record w))) "hash"
            = Some (PStr stored)
         /\ is_hex_digest stored = true.
Proof.
  intros self data h record w.
  split; [apply hexdigest_is_hex|].
  split; [apply hexdigest_is_hex|].
  split; [apply hexdigest_is_hex|].
  rewrite store_on_chain_run. cbn [fst snd on_chain_data].
  eexists. split; [reflexivity|]. split; [|apply hexdigest_is_hex].
  rewrite !get_set_other by discriminate. apply get_set_same.
Qed.

End ContractEdges.

(** ** The on-chain store across commits *)

Section Store.

Import Contract.

Lemma keys_set_present d k v :
  In k (PyDict.keys d) -> PyDict.keys (PyDict.set d k v) = PyDict.keys d.
Proof.
  unfold PyDict.keys.
  induction d as [|[k' v'] d IH]; cbn [PyDict.set map fst In]; [tauto|].
  intros Hin. destruct (String.eqb k' k) eqn:Hk; [reflexivity|].
  cbn [map fst]. f_equal. apply IH.
  destruct Hin as [Heq|Hin]; [|exact Hin].
  apply String.eqb_neq in Hk. contradiction.
Qed.

Lemma keys_set_absent d k v :
  ~ In k (PyDict.keys d) ->
  PyDict.keys (PyDict.set d k v) = (PyDict.keys d ++ [k])%list.
Proof.
  unfold PyDict.keys.
  induction d as [|[k' v'] d IH]; cbn [PyDict.set map fst In app]; [reflexivity|].
  intros Hnin. destruct (String.eqb k' k) eqn:Hk.
  - apply String.eqb_eq in Hk. tauto.
  - cbn [map fst]. f_equal. apply IH. tauto.
Qed.

(** X19: the on-chain store never holds more than one commitment.  From the
    empty store the module starts with, or from a store that already holds a
    commitment, [store_on_chain] leaves exactly the four keys hash,
    timestamp, status and contract_address, once each and in that order: a
    commit adds no history, it rewrites the four values. *)
Theorem store_holds_one_commitment :
  forall data w,
    PyDict.keys (on_chain_data w) = []
    \/ PyDict.keys (on_chain_data w) = commitment_keys ->
    PyDict.keys (on_chain_data (snd (store_on_chain data w))) = commitment_keys
    /\ files (snd (store_on_chain data w)) = files w.
Proof.
  intros data w Hkeys. rewrite store_on_chain_run. cbn [snd on_chain_data files].
  split; [|reflexivity].
  generalize (PStr (Sha256.hexdigest (Json.dumps data))) as h.
  generalize (PStr (clock w (ticks w))) as t. intros t h.
  destruct Hkeys as [Hnil|Hfull].
  - destruct (on_chain_data w) as [|kv d]; [reflexivity|discriminate].
  - assert (Hstep : forall d k v,
              PyDict.keys d = commitment_keys -> In k commitment_keys ->
              PyDict.keys (PyDict.set d k v) = commitment_keys).
    { intros d k v Hd Hk. rewrite keys_set_present; [exact Hd|].
      now rewrite Hd. }
    repeat apply Hstep; try exact Hfull; unfold commitment_keys; cbn [In]; tauto.
Qed.

Lemma store_holds_one_commitment_witness :
  (PyDict.keys (on_chain_data Sample.world0) = []
   \/ PyDict.keys (on_chain_data Sample.world0) = commitment_keys)
  /\ PyDict.keys
       (on_chain_data (snd (store_on_chain off_chain_data Sample.world0)))
     = commitment_keys.
Proof.
  assert (H : PyDict.keys (on_chain_data Sample.world0) = []
              \/ PyDict.keys (on_chain_data Sample.world0) = commitment_keys)
    by (left; reflexivity).
  split; [exact H|].
  exact (proj1 (store_holds_one_commitment off_chain_data Sample.world0 H)).
Defined.

End Store.

(** ** The extractor's record *)

Section ExtractorRecord.

Import Extractor.

Lemma lstrip_frame s :
  exists a,
    s = a ++ lstrip s /\ all_space a = true /\ starts_with_space (lstrip s) = false.
Proof.
  induction s as [|c s [a [Hs [Ha Hstart]]]]; cbn [lstrip].
  - exists "". repeat split.
  - destruct (is_space c) eqn:Hc.
    + exists (String c a). cbn [append]. rewrite <- Hs.
      split; [reflexivity|]. split; [|exact Hstart].
      unfold all_space in *. cbn [list_ascii_of_string forallb].
      now rewrite Hc, Ha.
    + exists "". split; [reflexivity|]. split; [reflexivity|exact Hc].
Qed.

Lemma rstrip_frame s :
  exists b,
    s = rstrip s ++ b /\ all_space b = true /\ ends_with_space (rstrip s) = false.
Proof.
  induction s as [|c s [b [Hs [Hb Hend]]]]; cbn [rstrip].
  - exists "". repeat split.
  - destruct (rstrip s) as [|c' r] eqn:Hr.
    + cbn [append] in Hs. subst b.
      destruct (is_space c) eqn:Hc.
      * exists (String c s). split; [reflexivity|]. split; [|reflexivity].
        unfold all_space in *. cbn [list_ascii_of_string forallb].
        now rewrite Hc, Hb.
      * exists s. split; [reflexivity|]. split; [exact Hb|exact Hc].
    + exists b. split; [cbn [append] in *; now f_equal|].
      split; [exact Hb|exact Hend].
Qed.

Lemma rstrip_keeps_start s :
  starts_with_space s = false -> starts_with_space (rstrip s) = false.
Proof.
  destruct s as [|c s]; [reflexivity|]. cbn [starts_with_space rstrip].
  intros Hc. destruct (rstrip s); [now rewrite Hc|exact Hc].
Qed.

(** X20: the text the extractor files under "raw_text" is the report with
    its surrounding white space removed and nothing else changed: the
    report is white space, then the filed text, then white space, and the
    filed text neither starts nor ends with a white-space character (it is
    empty when the report is blank).  The record is built without error and
    with one reading of the clock. *)
Theorem raw_text_is_the_report_trimmed :
  forall report ents w,
    exists record a b,
      main report ents w
      = (Ok record,
         {| clock := clock w; ticks := S (ticks w); stdout := stdout w;
            files := files w; on_chain_data := on_chain_data w |})
      /\ PyDict.get record "raw_text" = Some (PStr (strip report))
      /\ PyDict.get record "timestamp" = Some (PStr (clock w (ticks w)))
      /\ report = a ++ strip report ++ b
      /\ all_space a = true /\ all_space b = true
      /\ starts_with_space (strip report) = false
      /\ ends_with_space (strip report) = false.
Proof.
  intros report ents w.
  destruct (lstrip_frame report) as [a [Ha [Hsa Hstart]]].
  destruct (rstrip_frame (lstrip report)) as [b [Hb [Hsb Hend]]].
  eexists. exists a, b.
  split; [reflexivity|]. split; [reflexivity|]. split; [reflexivity|].
  unfold strip. split; [now rewrite <- Hb|].
  split; [exact Hsa|]. split; [exact Hsb|].
  split; [now apply rstrip_keeps_start|exact Hend].
Qed.

End ExtractorRecord.

(** ** What the digests are taken over *)

Section HashedBytes.

(** X23: the serialisation that every digest of the scripts is taken over
    tells apart any two records that differ in one field of one entity: a
    text or label changed to another string (code points below U+0100), or
    a confidence changed to a float with another repr, always changes the
    serialised record. *)
Theorem mutated_field_changes_what_is_hashed :
  forall r r',
    Mutation.record_mutation r r' -> Json.dumps r <> Json.dumps r'.
Proof.
  intros r r' [pre [key [es1 [e [e' [es2 [post [-> [-> Hentity]]]]]]]]].
  destruct Hentity as [f1 [k [v [v' [f2 [-> [-> Hfield]]]]]]].
  (* the changed field, inside its entity, inside the list, inside the record *)
  apply dumps_dict_change, dumps_list_change, dumps_dict_change.
  now apply field_change_dumps.
Qed.

Lemma mutated_field_changes_what_is_hashed_witness :
  Mutation.record_mutation Contract.off_chain_data SampleContract.tampered
  /\ Json.dumps Contract.off_chain_data <> Json.dumps SampleContract.tampered.
Proof.
  split; [exact sample_mutation|].
  exact (mutated_field_changes_what_is_hashed Contract.off_chain_data
           SampleContract.tampered sample_mutation).
Defined.

End HashedBytes.
